(** * Payment webhook reconciliation, ledger client and StoreKit subscription
      update: a shallow embedding and its properties.

    The development follows three source units of the API:
    - the Paddle webhook route (handlers [processTransaction*],
      [updateUserTransaction], the router [paddle]);
    - the Njord ledger client ([transferCores], [getBalance], ...);
    - [updateStoreKitUserSubscription].

    Asynchronous code is embedded as a state-and-exception monad over a
    [World] holding the UserTransaction table, the Redis balance cache, the
    trace of RPCs sent to the ledger and the log.

    Around them, the development also embeds the transaction summary query
    ([transactionSummary]), the awards of the ledger client
    ([createTransaction], [canAward], [awardUser], [awardPost], module
    [Award]), the subscription handlers of the webhook route
    ([extractSubscriptionType], [updateUserSubscription],
    [processGiftedPayment], with [isPlusMember] and [isGiftedPlus], module
    [Subscription]) and the access checks of the sources schema
    ([canAccessSource], [ensureSourcePermissions], [addNewSourceMember],
    module [Sources]). *)

From stdpp Require Import base strings list gmap.
From Stdlib Require Import ZArith.

(** ** Data model *)

(** [UserTransactionStatus] enum.  The numeric value of each member is not
    fixed here: it is supplied by [Env] (see [statusCode]); members are
    distinct values, so [===] on them is constructor equality. *)
Module UserTransactionStatus.
Inductive t := Success | Created | Processing | Error | ErrorRecoverable.
#[global] Instance status_eq_dec : EqDecision t.
Proof. solve_decision. Defined.
End UserTransactionStatus.

Module UserTransactionProcessor.
Inductive t := Njord | Paddle | AppleStoreKit.
#[global] Instance processor_eq_dec : EqDecision t.
Proof. solve_decision. Defined.
End UserTransactionProcessor.

(** The [flags] JSON column of a transaction: the keys this code reads or
    writes. *)
Record UserTransactionFlags := {
  providerId : option string;
  note : option string;
  error : option string;
}.

(** A [UserTransaction] entity object.  [tx_id] is [None] for an entity that
    was created but not saved yet; [tx_status] is [None] when the property is
    [undefined]. *)
Record UserTransaction := {
  tx_id : option nat;
  tx_processor : UserTransactionProcessor.t;
  tx_receiverId : string;
  tx_status : option UserTransactionStatus.t;
  tx_productId : option string;
  tx_senderId : option string;
  tx_value : Z;
  tx_fee : Z;
  tx_flags : UserTransactionFlags;
  tx_createdAt : Z;
  tx_updatedAt : Z;
}.

#[global] Instance UserTransactionFlags_eq_dec : EqDecision UserTransactionFlags.
Proof. solve_decision. Defined.
#[global] Instance UserTransaction_eq_dec : EqDecision UserTransaction.
Proof. solve_decision. Defined.

(** What [getPaddleTransactionData] extracts from an event: [data.id],
    [data.updatedAt], [data.items[0].price.customData.cores] and
    [data.customData.user_id]. *)
Record PaddleTransactionData := {
  pd_id : string;
  pd_updatedAt : Z;
  pd_cores : Z;
  pd_user_id : string;
}.

Inductive EventName :=
| TransactionCreated
| TransactionReady
| TransactionPaymentFailed
| TransactionUpdated
| TransactionCompleted
| SubscriptionCreated
| SubscriptionCanceled
| SubscriptionUpdated
| UnknownEvent.

(** A verified webhook event.  [ev_isCore] is the answer of
    [isCoreTransaction]; [ev_status] is [event.data.status];
    [ev_errorCode] is [event.data.payments[0]?.errorCode]. *)
Record EventEntity := {
  eventType : EventName;
  ev_isCore : bool;
  ev_data : PaddleTransactionData;
  ev_status : string;
  ev_errorCode : option string;
}.

(** ** Ledger (Njord) messages

    The [amount] of a transfer request is an int64 field of the message.
    The client is not among the sources and the model sends every amount;
    it stands for the source on the amounts that the field carries
    ([fitsInt64] below), and what the client does with another amount is
    outside of it. *)

Record TransferRequest := {
  idempotencyKey : nat;
  sender : option string;
  receiver : string;
  amount : Z;
}.

Record BalanceChange := {
  account_userId : string;
  newBalance : Z;
}.

Record TransferResponse := {
  senderBalance : option BalanceChange;
  receiverBalance : option BalanceChange;
}.

Record GetBalanceResult := { gb_amount : Z }.

(** Answer of the ledger's [getBalance] RPC. *)
Inductive BalanceReply :=
| BalanceIs (amount : Z)
| BalanceAccountNotFound
| BalanceRpcError (rawMessage : string).

Inductive CircuitState := Closed | HalfOpen | Open.

#[global] Instance CircuitState_eq_dec : EqDecision CircuitState.
Proof. solve_decision. Defined.

Record AuthContext := {
  userId : string;
  isTeamMember : bool;
}.

(** ** Exceptions, log, world *)

Inductive Exn :=
| JsError (message : string)
| ForbiddenError (message : string)
| BrokenCircuitError
| ConnectError (rawMessage : string).

Inductive LogLevel := LogInfo | LogWarn | LogError.

Record World := {
  rows : list UserTransaction;
  nextId : nat;
  redis : gmap string GetBalanceResult;
  ledgerCalls : list TransferRequest;
  logs : list (LogLevel * string);
}.

Definition set_rows (f : list UserTransaction -> list UserTransaction) (w : World) : World :=
  {| rows := f (rows w); nextId := nextId w; redis := redis w;
     ledgerCalls := ledgerCalls w; logs := logs w |}.

Definition set_nextId (n : nat) (w : World) : World :=
  {| rows := rows w; nextId := n; redis := redis w;
     ledgerCalls := ledgerCalls w; logs := logs w |}.

Definition set_redis (f : gmap string GetBalanceResult -> gmap string GetBalanceResult)
    (w : World) : World :=
  {| rows := rows w; nextId := nextId w; redis := f (redis w);
     ledgerCalls := ledgerCalls w; logs := logs w |}.

Definition add_ledgerCall (r : TransferRequest) (w : World) : World :=
  {| rows := rows w; nextId := nextId w; redis := redis w;
     ledgerCalls := ledgerCalls w ++ [r]; logs := logs w |}.

Definition add_log (l : LogLevel * string) (w : World) : World :=
  {| rows := rows w; nextId := nextId w; redis := redis w;
     ledgerCalls := ledgerCalls w; logs := logs w ++ [l] |}.

(** ** The monad of effects *)

Inductive Result (A : Type) :=
| Ok (a : A)
| Throw (e : Exn).
Arguments Ok {A} a.
Arguments Throw {A} e.

(** The environment the code runs in: the numeric values of the status enum,
    the state of the circuit breaker around the ledger client, the ledger's
    answers, the [isProd] constant, and whether posting to the Slack webhook
    succeeds. *)
Record Env := {
  statusCode : UserTransactionStatus.t -> Z;
  circuit : CircuitState;
  njordTransfer : TransferRequest -> Result TransferResponse;
  njordGetBalance : string -> BalanceReply;
  isProd : bool;
  slackSend : Result unit;
}.

Definition M (A : Type) : Type := World -> Result A * World.

Definition ret {A} (a : A) : M A := fun w => (Ok a, w).

Definition throw {A} (e : Exn) : M A := fun w => (Throw e, w).

Definition bind {A B} (m : M A) (k : A -> M B) : M B :=
  fun w => match m w with
           | (Ok a, w') => k a w'
           | (Throw e, w') => (Throw e, w')
           end.

(** [try { m } catch (e) { h e }] *)
Definition try_catch {A} (m : M A) (h : Exn -> M A) : M A :=
  fun w => match m w with
           | (Ok a, w') => (Ok a, w')
           | (Throw e, w') => h e w'
           end.

Declare Scope m_scope.
Delimit Scope m_scope with m.
Notation "'let*' x := c 'in' k" := (bind c (fun x => k))
  (at level 10, x pattern, c at level 100, k at level 200) : m_scope.
Notation "'do' c 'then' k" := (bind c (fun _ => k))
  (at level 10, c at level 100, k at level 200) : m_scope.
Bind Scope m_scope with M.

Definition logger (lvl : LogLevel) (msg : string) : M unit :=
  fun w => (Ok tt, add_log (lvl, msg) w).

(** [con.transaction(f)]: when [f] throws, every write to the table is undone;
    what left the process (ledger RPCs, cache writes, log lines) is not. *)
Definition rollback (before after : World) : World :=
  {| rows := rows before; nextId := nextId before; redis := redis after;
     ledgerCalls := ledgerCalls after; logs := logs after |}.

Definition con_transaction {A} (f : M A) : M A :=
  fun w => match f w with
           | (Ok a, w') => (Ok a, w')
           | (Throw e, w') => (Throw e, rollback w w')
           end.

Local Open Scope m_scope.

(** ** The ledger client (common/njord) *)

Section Njord.
Variable env : Env.

(** Modelled from the spec: [GarmrService.execute] (integrations/garmr) is
    not among the sources.  The spec has the breaker short-circuit every
    call while it is open, and let calls through otherwise (a half-open
    breaker lets the trial call through).  The state of the breaker is
    read from [env]; how failures open it is not modelled. *)
Definition garmNjordService_execute {A} (fn : M A) : M A :=
  match circuit env with
  | Open => throw BrokenCircuitError
  | Closed | HalfOpen => fn
  end.

(** [njordClient.transfer]: the RPC leaves the process (it is recorded in
    [ledgerCalls]) and the ledger's answer comes from [env]. *)
Definition njordClient_transfer (req : TransferRequest) : M TransferResponse :=
  fun w => (njordTransfer env req, add_ledgerCall req w).

(** [njordClient.getBalance] *)
Definition njordClient_getBalance (user : string) : M BalanceReply :=
  ret (njordGetBalance env user).

Definition createAuthProtectedFn {Props R}
    (ctx : Props -> AuthContext) (fn : Props -> M R) : Props -> M R :=
  fun props =>
    if bool_decide (userId (ctx props) = "")
    then throw (ForbiddenError "Auth is required")
    else fn props.

Record GetBalanceProps := { gb_ctx : AuthContext }.

Record UpdateBalanceProps := {
  ub_ctx : AuthContext;
  ub_value : GetBalanceResult;
}.

Record TransferProps := {
  tp_ctx : AuthContext;
  tp_transaction : UserTransaction;
}.

(** Modelled from the spec: [generateStorageKey] and the [StorageTopic],
    [StorageKey] constants (config) are not among the sources; the spec
    gives the cache entries as [balance:{userId}]. *)
Definition generateStorageKey (identifier : string) : string :=
  "balance:" +:+ identifier.

Definition getBalanceRedisKey : GetBalanceProps -> M string :=
  createAuthProtectedFn gb_ctx
    (fun props => ret (generateStorageKey (userId (gb_ctx props)))).

Definition getRedisObject (key : string) : M (option GetBalanceResult) :=
  fun w => (Ok (redis w !! key), w).

Definition setRedisObjectWithExpiry (key : string) (v : GetBalanceResult) : M unit :=
  fun w => (Ok tt, set_redis (fun m => <[key := v]> m) w).

Definition deleteRedisKey (key : string) : M unit :=
  fun w => (Ok tt, set_redis (fun m => delete key m) w).

Definition updateBalanceCache : UpdateBalanceProps -> M unit :=
  createAuthProtectedFn ub_ctx
    (fun props =>
       let* redisKey := getBalanceRedisKey {| gb_ctx := ub_ctx props |} in
       setRedisObjectWithExpiry redisKey (ub_value props)).

Definition expireBalanceCache : GetBalanceProps -> M unit :=
  createAuthProtectedFn gb_ctx
    (fun props =>
       let* redisKey := getBalanceRedisKey props in
       deleteRedisKey redisKey).

(** One element of the [map(async (balanceUpdate) => ...)].  The array of
    these promises is itself the one element of the array given to
    [Promise.allSettled], so the source starts the two cache writes, the
    sender's first, and awaits neither: a rejection (missing balance, empty
    user id) reaches nobody, and [transferCores] may return before a write
    is done.  The model runs the writes in the order they are started and
    drops a rejection; what the process does with the unhandled rejection
    is outside of it, and no statement about [transferCores] says what the
    cache holds when it returns. *)
Definition settleBalanceUpdate (balanceUpdate : option BalanceChange) : M unit :=
  match balanceUpdate with
  | None => ret tt
  | Some b =>
      try_catch
        (updateBalanceCache
           {| ub_ctx := {| userId := account_userId b; isTeamMember := false |};
              ub_value := {| gb_amount := newBalance b |} |})
        (fun _ => ret tt)
  end.

Definition transferCores : TransferProps -> M TransferResponse :=
  createAuthProtectedFn tp_ctx
    (fun props =>
       let ctx := tp_ctx props in
       let transaction := tp_transaction props in
       if negb (isTeamMember ctx) && isProd env
       then throw (ForbiddenError "Not allowed for you yet")
       else
         garmNjordService_execute
           match tx_id transaction with
           | None => throw (JsError "No transaction id")
           | Some txid =>
               match tx_senderId transaction with
               | None | Some "" => throw (JsError "No sender id")
               | Some senderId =>
                   let* result :=
                     njordClient_transfer
                       {| idempotencyKey := txid;
                          sender := Some senderId;
                          receiver := tx_receiverId transaction;
                          amount := tx_value transaction |} in
                   do settleBalanceUpdate (senderBalance result) then
                   do settleBalanceUpdate (receiverBalance result) then
                   ret result
               end
           end).

Definition getFreshBalance : GetBalanceProps -> M GetBalanceResult :=
  createAuthProtectedFn gb_ctx
    (fun props =>
       let* balance :=
         garmNjordService_execute
           (let* result := njordClient_getBalance (userId (gb_ctx props)) in
            match result with
            | BalanceIs a => ret a
            | BalanceAccountNotFound => ret 0%Z
            | BalanceRpcError raw => throw (ConnectError raw)
            end) in
       ret {| gb_amount := balance |}).

Definition getBalance : GetBalanceProps -> M GetBalanceResult :=
  createAuthProtectedFn gb_ctx
    (fun props =>
       let* redisKey := getBalanceRedisKey props in
       let* redisResult := getRedisObject redisKey in
       match redisResult with
       | Some cachedBalance => ret cachedBalance
       | None =>
           try_catch
             (let* freshBalance := getFreshBalance props in
              do updateBalanceCache
                   {| ub_ctx := gb_ctx props; ub_value := freshBalance |} then
              ret freshBalance)
             (fun originalError =>
                match originalError with
                | BrokenCircuitError => ret {| gb_amount := 0 |}
                | _ => throw originalError
                end)
       end).

(** Modelled from the spec: [purchaseCores] (imported by the webhook route
    from common/njord) is not among the sources.  The spec has the
    completion of a purchase trigger the ledger transfer with the
    transaction's own id as idempotency key, through the same circuit
    breaker, failing loudly when the ledger is unavailable, and update the
    balance cache of the parties from the answer.  A purchase has no
    sender. *)
Definition purchaseCores (transaction : UserTransaction) : M TransferResponse :=
  match tx_id transaction with
  | None => throw (JsError "No transaction id")
  | Some txid =>
      garmNjordService_execute
        (let* result :=
           njordClient_transfer
             {| idempotencyKey := txid;
                sender := None;
                receiver := tx_receiverId transaction;
                amount := tx_value transaction |} in
         do settleBalanceUpdate (senderBalance result) then
         do settleBalanceUpdate (receiverBalance result) then
         ret result)
  end.
End Njord.

(** ** The Paddle webhook route *)

Section Paddle.
Variable env : Env.

Import UserTransactionStatus.

(** JavaScript truthiness of a status value: [undefined] and the member
    whose numeric value is 0 are falsy. *)
Definition truthy (s : option UserTransactionStatus.t) : bool :=
  match s with
  | Some x => negb (statusCode env x =? 0)%Z
  | None => false
  end.

(** [a || b] on status values. *)
Definition or_status (a b : option UserTransactionStatus.t) :
    option UserTransactionStatus.t :=
  if truthy a then a else b.

(** [validStatus.includes(status)] *)
Definition includes (validStatus : list UserTransactionStatus.t)
    (s : option UserTransactionStatus.t) : bool :=
  existsb (fun v => bool_decide (s = Some v)) validStatus.

(** [isCoreTransaction] and [getPaddleTransactionData] (common/paddle) are
    not among the sources; an event carries their answers. *)
Definition isCoreTransaction (event : EventEntity) : bool := ev_isCore event.

Definition getPaddleTransactionData (event : EventEntity) : PaddleTransactionData :=
  ev_data event.

Definition matchesProviderId (pid : string) (r : UserTransaction) : bool :=
  bool_decide (tx_processor r = UserTransactionProcessor.Paddle)
  && bool_decide (providerId (tx_flags r) = Some pid).

(** Modelled from the spec: [getTransactionForProviderId] (common/paddle)
    is not among the sources; the spec has it find the transaction by
    processor and embedded provider id. *)
Definition getTransactionForProviderId (pid : string) : M (option UserTransaction) :=
  fun w => (Ok (find (matchesProviderId pid) (rows w)), w).

(** [repository.save(payload)] for an entity without id: the database
    generates the id and the two date columns. *)
Definition repository_save (now : Z) (payload : UserTransaction) : M UserTransaction :=
  fun w =>
    let saved :=
      {| tx_id := Some (nextId w);
         tx_processor := tx_processor payload;
         tx_receiverId := tx_receiverId payload;
         tx_status := tx_status payload;
         tx_productId := tx_productId payload;
         tx_senderId := tx_senderId payload;
         tx_value := tx_value payload;
         tx_fee := tx_fee payload;
         tx_flags := tx_flags payload;
         tx_createdAt := now;
         tx_updatedAt := now |} in
    (Ok saved, set_nextId (S (nextId w)) (set_rows (fun rs => rs ++ [saved]) w)).

(** [repository.update({ id }, columns)]: [set] writes every row with that
    id.  Besides the columns that the caller names, an UPDATE of an entity
    stamps its update date: the writers below, [set_value_status] and
    [set_status_error], take the time of the database clock and set
    [tx_updatedAt] to it.

    Modelled from the spec: the UserTransaction entity is not among the
    sources.  The spec has [updatedAt] as the last-modified timestamp of the
    record, which the staleness check of the Updated handler reads, and the
    entity that is among the sources declares its [updatedAt] as
    [@UpdateDateColumn]. *)
Definition repository_update (i : option nat)
    (set : UserTransaction -> UserTransaction) : M unit :=
  fun w =>
    (Ok tt,
     set_rows (map (fun r => if bool_decide (tx_id r = i) then set r else r)) w).

(** Columns [{ value, status }], written at [now]; an [undefined] status is
    not written. *)
Definition set_value_status (now : Z) (v : Z) (s : option UserTransactionStatus.t)
    (r : UserTransaction) : UserTransaction :=
  {| tx_id := tx_id r;
     tx_processor := tx_processor r;
     tx_receiverId := tx_receiverId r;
     tx_status := match s with Some _ => s | None => tx_status r end;
     tx_productId := tx_productId r;
     tx_senderId := tx_senderId r;
     tx_value := v;
     tx_fee := tx_fee r;
     tx_flags := tx_flags r;
     tx_createdAt := tx_createdAt r;
     tx_updatedAt := now |}.

(** Columns [{ status, flags: updateFlagsStatement({ error }) }], written at
    [now]: the statement merges the key [error] into the stored flags. *)
Definition set_status_error (now : Z) (s : UserTransactionStatus.t) (msg : string)
    (r : UserTransaction) : UserTransaction :=
  {| tx_id := tx_id r;
     tx_processor := tx_processor r;
     tx_receiverId := tx_receiverId r;
     tx_status := Some s;
     tx_productId := tx_productId r;
     tx_senderId := tx_senderId r;
     tx_value := tx_value r;
     tx_fee := tx_fee r;
     tx_flags := {| providerId := providerId (tx_flags r);
                    note := note (tx_flags r);
                    error := Some msg |};
     tx_createdAt := tx_createdAt r;
     tx_updatedAt := now |}.

Definition checkTransactionStatusValid (transaction : UserTransaction)
    (nextStatus : UserTransactionStatus.t)
    (validStatus : list UserTransactionStatus.t) : M bool :=
  if negb (includes validStatus (tx_status transaction))
  then do logger LogWarn "Transaction with invalid status" then ret false
  else ret true.

Definition updateUserTransaction (now : Z) (transaction : option UserTransaction)
    (nextStatus : option UserTransactionStatus.t)
    (data : PaddleTransactionData) : M UserTransaction :=
  let providerTransactionId := pd_id data in
  let cores := pd_cores data in
  do match transaction with
     | Some t =>
         if negb (bool_decide (tx_receiverId t = pd_user_id data))
         then throw (JsError "Transaction receiver does not match user ID")
         else if bool_decide (tx_status t = Some Success)
                 && negb (bool_decide (tx_value t = cores))
         then throw (JsError "Transaction value changed after success")
         else ret tt
     | None => ret tt
     end then
  (* the date columns of the payload are unset; the database fills them *)
  let payload :=
    {| tx_id := transaction ≫= tx_id;
       tx_processor := UserTransactionProcessor.Paddle;
       tx_receiverId := pd_user_id data;
       tx_status := nextStatus;
       tx_productId := None;
       tx_senderId := None;
       tx_value := cores;
       tx_fee := 0;
       tx_flags := {| providerId := Some providerTransactionId;
                      note := None; error := None |};
       tx_createdAt := 0;
       tx_updatedAt := 0 |} in
  match transaction with
  | None => repository_save now payload
  | Some t =>
      do repository_update (tx_id t) (set_value_status now cores nextStatus) then
      (* the entity returned is built from the one read before the update *)
      ret {| tx_id := tx_id t;
             tx_processor := tx_processor t;
             tx_receiverId := tx_receiverId t;
             tx_status := or_status (tx_status t) nextStatus;
             tx_productId := tx_productId t;
             tx_senderId := tx_senderId t;
             tx_value := cores;
             tx_fee := tx_fee t;
             tx_flags := tx_flags t;
             tx_createdAt := tx_createdAt t;
             tx_updatedAt := tx_updatedAt t |}
  end.

(** [notifyNewPaddleCoresTransaction] builds the message and awaits
    [webhooks.transactions.send]; it touches nothing of the [World], and it
    throws when the post fails. *)
Definition notifyNewPaddleCoresTransaction (data : PaddleTransactionData)
    (transaction : UserTransaction) (event : EventEntity) : M unit :=
  fun w => (slackSend env, w).

(** The gifted-subscription path, the subscription handlers and
    [logPaddleAnalyticsEvent] write to the User table, to Slack and to the
    analytics service only: none of them reaches the transaction table, the
    balance cache or the ledger of the [World] modelled here.  What they log
    and what they throw is left out of this model of the route (they are
    embedded on their own table in [Subscription] below): the two
    definitions that follow stand for their effect on this [World], which
    is none, and no statement below is about the log or the outcome of
    these branches. *)

Definition processNonCoreCompleted (event : EventEntity) : M unit := ret tt.

Definition subscriptionHandler (event : EventEntity) : M unit := ret tt.

Definition processTransactionCompleted (now : Z) (event : EventEntity) : M unit :=
  if isCoreTransaction event then
    let transactionData := getPaddleTransactionData event in
    let* transaction := getTransactionForProviderId (pd_id transactionData) in
    let* completedTransaction :=
      con_transaction
        (let* userTransaction :=
           updateUserTransaction now transaction (Some Success) transactionData in
         do purchaseCores env userTransaction then
         ret userTransaction) in
    notifyNewPaddleCoresTransaction transactionData completedTransaction event
  else processNonCoreCompleted event.

Definition processTransactionCreated (now : Z) (event : EventEntity) : M unit :=
  if isCoreTransaction event then
    let transactionData := getPaddleTransactionData event in
    let* transaction := getTransactionForProviderId (pd_id transactionData) in
    match transaction with
    | Some _ => throw (JsError "Transaction already exists")
    | None =>
        do updateUserTransaction now transaction (Some Created) transactionData then
        ret tt
    end
  else ret tt.

Definition processTransactionReady (now : Z) (event : EventEntity) : M unit :=
  if isCoreTransaction event then
    let transactionData := getPaddleTransactionData event in
    let* transaction := getTransactionForProviderId (pd_id transactionData) in
    let nextStatus := Processing in
    let* rejected :=
      match transaction with
      | Some t =>
          let* valid := checkTransactionStatusValid t nextStatus [Created] in
          ret (negb valid)
      | None => ret false
      end in
    if rejected then ret tt
    else
      do updateUserTransaction now transaction (Some nextStatus) transactionData then
      ret tt
  else ret tt.

Definition processTransactionPaymentFailed (now : Z) (event : EventEntity) : M unit :=
  if isCoreTransaction event then
    let transactionData := getPaddleTransactionData event in
    let* transaction := getTransactionForProviderId (pd_id transactionData) in
    match transaction with
    | None => throw (JsError "Transaction not found")
    | Some t =>
        let paymentErrorCode := ev_errorCode event in
        let nextStatus :=
          if bool_decide (paymentErrorCode = Some "declined")
          then ErrorRecoverable else Error in
        let* valid :=
          checkTransactionStatusValid t nextStatus [Created; Processing] in
        if negb valid then ret tt
        else
          repository_update (tx_id t)
            (set_status_error now nextStatus
               ("Payment failed: " +:+
                  match paymentErrorCode with
                  | None | Some "" => "unknown"
                  | Some c => c
                  end))
    end
  else ret tt.

Definition processTransactionUpdated (now : Z) (event : EventEntity) : M unit :=
  if isCoreTransaction event then
    let transactionData := getPaddleTransactionData event in
    let* transaction := getTransactionForProviderId (pd_id transactionData) in
    if match transaction with
       | Some t => (tx_updatedAt t >? pd_updatedAt transactionData)%Z
       | None => false
       end
    then logger LogWarn "Transaction already updated"
    else
      let getUpdatedStatus : option UserTransactionStatus.t :=
        match transaction with
        | Some t => tx_status t
        | None =>
            if bool_decide (ev_status event = "draft") then Some Created
            else if bool_decide (ev_status event = "ready") then Some Processing
            else None
        end in
      let nextStatus := getUpdatedStatus in
      if negb (truthy nextStatus)
      then logger LogWarn "Transaction update skipped"
      else
        do updateUserTransaction now transaction
             match transaction with
             | Some _ => None
             | None => nextStatus
             end
             transactionData then
        ret tt
  else ret tt.

(** The route handler, after the signature check and [unmarshal]: [None]
    stands for a request without signature or body.  Every exception of a
    handler is caught and logged, and the response is always sent.  The
    calls of [logPaddleAnalyticsEvent] (beside [processTransactionCompleted]
    and in the subscription branches) and what the subscription branches
    log or throw are left out, as said above: the statements about [paddle]
    are about the deliveries of transaction events and what they do to the
    transaction table and the ledger. *)
Definition paddle (now : Z) (request : option EventEntity) : M unit :=
  do try_catch
       match request with
       | Some eventData =>
           match eventType eventData with
           | TransactionCreated => processTransactionCreated now eventData
           | TransactionReady => processTransactionReady now eventData
           | SubscriptionCreated => subscriptionHandler eventData
           | TransactionPaymentFailed => processTransactionPaymentFailed now eventData
           | TransactionUpdated => processTransactionUpdated now eventData
           | SubscriptionCanceled => subscriptionHandler eventData
           | SubscriptionUpdated => subscriptionHandler eventData
           | TransactionCompleted => processTransactionCompleted now eventData
           | UnknownEvent => logger LogInfo "unhandled event"
           end
       | None => logger LogError "Signature missing in header"
       end
       (fun error => logger LogError "Paddle generic error") then
  ret tt.

(** A delivery: the time of the database clock when it is handled, and the
    request. *)
Definition Delivery : Type := Z * option EventEntity.

Definition deliver (d : Delivery) (w : World) : World :=
  snd (paddle (fst d) (snd d) w).

Definition replay (ds : list Delivery) (w : World) : World :=
  foldl (fun w d => deliver d w) w ds.
End Paddle.

(** ** StoreKit subscription update *)

Module StoreKit.
Inductive UserSubscriptionStatus := Active | Expired | Cancelled | NoSubscription.

#[global] Instance UserSubscriptionStatus_eq_dec : EqDecision UserSubscriptionStatus.
Proof. solve_decision. Defined.

(** A value stored under a key of [subscriptionFlags]. *)
Inductive FlagValue :=
| FString (s : string)
| FStatus (s : UserSubscriptionStatus).

#[global] Instance FlagValue_eq_dec : EqDecision FlagValue.
Proof. solve_decision. Defined.

(** [UserSubscriptionFlags]: a JSON object; a key whose value is
    [undefined] is absent. *)
Abbreviation UserSubscriptionFlags := (gmap string FlagValue).

(** The User table, by user id, reduced to the [subscriptionFlags] column. *)
Abbreviation Users := (gmap string UserSubscriptionFlags).

(** JavaScript truthiness of [clone.appAccountToken]. *)
Definition truthyFlag (v : option FlagValue) : bool :=
  match v with
  | None => false
  | Some (FString s) => negb (bool_decide (s = ""))
  | Some (FStatus _) => true
  end.

(** [{ ...o, key: v }] where [v] may be [undefined]: the key is overridden,
    and an [undefined] value does not reach the stored JSON. *)
Definition with_key (key : string) (v : option FlagValue)
    (o : UserSubscriptionFlags) : UserSubscriptionFlags :=
  match v with
  | Some x => <[key := x]> o
  | None => delete key o
  end.

(** What is assigned to the [subscriptionFlags] column: a plain object
    replaces the stored one, the statement built by
    [updateSubscriptionFlags] merges into it. *)
Inductive ColumnUpdate :=
| Replace (o : UserSubscriptionFlags)
| Merge (o : UserSubscriptionFlags).

(** Modelled from the spec: [updateSubscriptionFlags] (common) is not among
    the sources; it builds the statement that merges the given keys into
    the stored flags, the given keys winning. *)
Definition updateSubscriptionFlags (o : UserSubscriptionFlags) : ColumnUpdate :=
  Merge o.

Definition apply_update (u : ColumnUpdate) (stored : UserSubscriptionFlags) :
    UserSubscriptionFlags :=
  match u with
  | Replace o => o
  | Merge o => o ∪ stored
  end.

(** [con.getRepository(User).update({ id: userId }, { subscriptionFlags })] *)
Definition user_update (userId : string) (u : ColumnUpdate) (users : Users) : Users :=
  alter (apply_update u) userId users.

Definition updateStoreKitUserSubscription (userId : string)
    (data : option UserSubscriptionFlags)
    (status : option UserSubscriptionStatus) (users : Users) : Users :=
  match data with
  | None => users
  | Some data =>
      let clone := data in
      let clone :=
        if truthyFlag (clone !! "appAccountToken")
        then delete "appAccountToken" clone
        else clone in
      let subscriptionFlags :=
        if bool_decide (status = Some Expired)
        then Replace
               (with_key "appAccountToken" (data !! "appAccountToken")
                  (with_key "status" (FStatus <$> status) ∅))
        else updateSubscriptionFlags (with_key "status" (FStatus <$> status) clone) in
      user_update userId subscriptionFlags users
  end.

(** The stored [appAccountToken] of a user. *)
Definition storedToken (userId : string) (users : Users) : option FlagValue :=
  users !! userId ≫= (.!! "appAccountToken").
End StoreKit.

(** ** Specification vocabulary *)

(** The record that the handlers insert for an event seen first: the payload
    of [updateUserTransaction] as [repository_save] stores it under the id
    [n]. *)
Definition newRow (now : Z) (data : PaddleTransactionData) (n : nat)
    (s : UserTransactionStatus.t) : UserTransaction :=
  {| tx_id := Some n;
     tx_processor := UserTransactionProcessor.Paddle;
     tx_receiverId := pd_user_id data;
     tx_status := Some s;
     tx_productId := None;
     tx_senderId := None;
     tx_value := pd_cores data;
     tx_fee := 0;
     tx_flags := {| providerId := Some (pd_id data); note := None; error := None |};
     tx_createdAt := now;
     tx_updatedAt := now |}.

Definition createdRow (now : Z) (data : PaddleTransactionData) (w : World)
    (s : UserTransactionStatus.t) : UserTransaction :=
  newRow now data (nextId w) s.

(** The transfer request [purchaseCores] sends for a transaction. *)
Definition purchaseRequest (txid : nat) (receiverId : string) (cores : Z) :
    TransferRequest :=
  {| idempotencyKey := txid; sender := None; receiver := receiverId;
     amount := cores |}.

(** [repository_update] on the rows of the table. *)
Definition updateRows (i : option nat) (set : UserTransaction -> UserTransaction)
    (rs : list UserTransaction) : list UserTransaction :=
  map (fun r => if bool_decide (tx_id r = i) then set r else r) rs.

(** The entity [updateUserTransaction] returns for an existing record. *)
Definition updatedEntity (env : Env) (t : UserTransaction) (cores : Z)
    (nextStatus : option UserTransactionStatus.t) : UserTransaction :=
  {| tx_id := tx_id t;
     tx_processor := tx_processor t;
     tx_receiverId := tx_receiverId t;
     tx_status := or_status env (tx_status t) nextStatus;
     tx_productId := tx_productId t;
     tx_senderId := tx_senderId t;
     tx_value := cores;
     tx_fee := tx_fee t;
     tx_flags := tx_flags t;
     tx_createdAt := tx_createdAt t;
     tx_updatedAt := tx_updatedAt t |}.

(** How [processTransactionCompleted] ends after the call to
    [purchaseCores]: commit and notify, or roll back and rethrow. *)
Definition commitOrRollback (env : Env) (before : World)
    (out : Result TransferResponse * World) : Result unit * World :=
  match out with
  | (Ok _, w2) => (slackSend env, w2)
  | (Throw e, w2) => (Throw e, rollback before w2)
  end.

(** *** The table as a transition system

    The part of the world that [con_transaction] protects, and the effect of
    one delivery on it written as a function of that part alone;
    [deliver_db] below proves that the router computes this function. *)

Definition Db : Type := list UserTransaction * nat.

Definition db (w : World) : Db := (rows w, nextId w).

(** Ids of stored records were generated before the next id. *)
Definition wfDb (d : Db) : Prop :=
  Forall (fun r => forall k, tx_id r = Some k -> (k < d.2)%nat) d.1.

Definition wf (w : World) : Prop := wfDb (db w).

Definition insertRow (now : Z) (data : PaddleTransactionData)
    (s : UserTransactionStatus.t) (d : Db) : Db :=
  (d.1 ++ [newRow now data d.2 s], S d.2).

(** The two checks of [updateUserTransaction] on an existing record. *)
Definition passesChecks (t : UserTransaction) (data : PaddleTransactionData) : bool :=
  bool_decide (tx_receiverId t = pd_user_id data)
  && negb (bool_decide (tx_status t = Some UserTransactionStatus.Success)
           && negb (bool_decide (tx_value t = pd_cores data))).

(** Whether [purchaseCores] returns for a transaction. *)
Definition purchaseAccepted (env : Env) (txid : option nat) (receiverId : string)
    (cores : Z) : bool :=
  match txid with
  | None => false
  | Some i =>
      if bool_decide (circuit env = Open) then false
      else match njordTransfer env (purchaseRequest i receiverId cores) with
           | Ok _ => true
           | Throw _ => false
           end
  end.

Definition paymentFailedStatus (code : option string) : UserTransactionStatus.t :=
  if bool_decide (code = Some "declined")
  then UserTransactionStatus.ErrorRecoverable
  else UserTransactionStatus.Error.

Definition paymentFailedMessage (code : option string) : string :=
  "Payment failed: " +:+
    match code with
    | None | Some "" => "unknown"
    | Some c => c
    end.

Definition updatedStatus (sub : string) : option UserTransactionStatus.t :=
  if bool_decide (sub = "draft") then Some UserTransactionStatus.Created
  else if bool_decide (sub = "ready") then Some UserTransactionStatus.Processing
  else None.

Definition dbStep (env : Env) (now : Z) (e : EventEntity) (d : Db) : Db :=
  let data := ev_data e in
  let cores := pd_cores data in
  let found := find (matchesProviderId (pd_id data)) d.1 in
  if negb (ev_isCore e) then d
  else
    match eventType e with
    | TransactionCreated =>
        match found with
        | Some _ => d
        | None => insertRow now data UserTransactionStatus.Created d
        end
    | TransactionReady =>
        match found with
        | None => insertRow now data UserTransactionStatus.Processing d
        | Some t =>
            if bool_decide (tx_status t = Some UserTransactionStatus.Created)
               && passesChecks t data
            then (updateRows (tx_id t)
                    (set_value_status now cores
                       (Some UserTransactionStatus.Processing))
                    d.1, d.2)
            else d
        end
    | TransactionPaymentFailed =>
        match found with
        | None => d
        | Some t =>
            if includes [UserTransactionStatus.Created;
                         UserTransactionStatus.Processing] (tx_status t)
            then (updateRows (tx_id t)
                    (set_status_error now (paymentFailedStatus (ev_errorCode e))
                       (paymentFailedMessage (ev_errorCode e)))
                    d.1, d.2)
            else d
        end
    | TransactionUpdated =>
        match found with
        | Some t =>
            if (tx_updatedAt t >? pd_updatedAt data)%Z then d
            else if truthy env (tx_status t) && passesChecks t data
            then (updateRows (tx_id t) (set_value_status now cores None) d.1, d.2)
            else d
        | None =>
            match updatedStatus (ev_status e) with
            | Some s => if truthy env (Some s) then insertRow now data s d else d
            | None => d
            end
        end
    | TransactionCompleted =>
        match found with
        | Some t =>
            if passesChecks t data
               && purchaseAccepted env (tx_id t) (tx_receiverId t) cores
            then (updateRows (tx_id t)
                    (set_value_status now cores
                       (Some UserTransactionStatus.Success))
                    d.1, d.2)
            else d
        | None =>
            if purchaseAccepted env (Some d.2) (pd_user_id data) cores
            then insertRow now data UserTransactionStatus.Success d
            else d
        end
    | SubscriptionCreated | SubscriptionCanceled | SubscriptionUpdated
    | UnknownEvent => d
    end.

Definition deliveryStep (env : Env) (dl : Delivery) (d : Db) : Db :=
  match dl.2 with
  | Some e => dbStep env dl.1 e d
  | None => d
  end.


(** ** Sample environment and world *)

Definition sampleCode (s : UserTransactionStatus.t) : Z :=
  match s with
  | UserTransactionStatus.Success => 0
  | UserTransactionStatus.Created => 201
  | UserTransactionStatus.Processing => 202
  | UserTransactionStatus.Error => 500
  | UserTransactionStatus.ErrorRecoverable => 501
  end.

(** A ledger that accepts every transfer and reports the receiver's balance. *)
Definition acceptTransfer (req : TransferRequest) : Result TransferResponse :=
  Ok {| senderBalance := None;
        receiverBalance :=
          Some {| account_userId := receiver req; newBalance := amount req |} |}.

Definition sampleEnv (c : CircuitState) : Env :=
  {| statusCode := sampleCode;
     circuit := c;
     njordTransfer := acceptTransfer;
     njordGetBalance := fun _ => BalanceAccountNotFound;
     isProd := false;
     slackSend := Ok tt |}.

Definition emptyWorld : World :=
  {| rows := []; nextId := 1; redis := ∅; ledgerCalls := []; logs := [] |}.

Definition sampleData (cores : Z) : PaddleTransactionData :=
  {| pd_id := "txn_T1"; pd_updatedAt := 100; pd_cores := cores; pd_user_id := "u1" |}.

Definition sampleEvent (name : EventName) (cores : Z) : EventEntity :=
  {| eventType := name; ev_isCore := true; ev_data := sampleData cores;
     ev_status := "draft"; ev_errorCode := Some "declined" |}.

(** A stored Paddle purchase of [sampleData], with id 1. *)
Definition sampleRow (s : UserTransactionStatus.t) (v : Z) : UserTransaction :=
  {| tx_id := Some 1%nat;
     tx_processor := UserTransactionProcessor.Paddle;
     tx_receiverId := "u1";
     tx_status := Some s;
     tx_productId := None;
     tx_senderId := None;
     tx_value := v;
     tx_fee := 0;
     tx_flags := {| providerId := Some "txn_T1"; note := None; error := None |};
     tx_createdAt := 50;
     tx_updatedAt := 50 |}.

Definition sampleWorld (s : UserTransactionStatus.t) (v : Z) : World :=
  {| rows := [sampleRow s v]; nextId := 2; redis := ∅;
     ledgerCalls := []; logs := [] |}.

Definition completedT1 : EventEntity := sampleEvent TransactionCompleted 500.



Definition u1 : AuthContext := {| userId := "u1"; isTeamMember := false |}.

(** A world whose cache holds a balance of 42 for [u1]. *)
Definition cachedWorld : World :=
  set_redis (fun m => <[generateStorageKey "u1" := {| gb_amount := 42 |}]> m)
    emptyWorld.

(** A transfer of 25 cores from [u1] to a second user, stored with id 7. *)
Definition sampleAward : UserTransaction :=
  {| tx_id := Some 7%nat;
     tx_processor := UserTransactionProcessor.Njord;
     tx_receiverId := "u2";
     tx_status := Some UserTransactionStatus.Success;
     tx_productId := Some "award";
     tx_senderId := Some "u1";
     tx_value := 25;
     tx_fee := 0;
     tx_flags := {| providerId := None; note := None; error := None |};
     tx_createdAt := 60;
     tx_updatedAt := 60 |}.

(** A ledger that fails every balance request, and one that answers 9. *)
Definition failingBalanceEnv : Env :=
  {| statusCode := sampleCode; circuit := Closed;
     njordTransfer := acceptTransfer;
     njordGetBalance := fun _ => BalanceRpcError "unavailable";
     isProd := false; slackSend := Ok tt |}.


(** Production, where transfers are reserved to team members. *)
Definition prodEnv : Env :=
  {| statusCode := sampleCode; circuit := Closed;
     njordTransfer := acceptTransfer;
     njordGetBalance := fun _ => BalanceAccountNotFound;
     isProd := true; slackSend := Ok tt |}.

(** An environment in which every status is truthy. *)
Definition truthyCode (s : UserTransactionStatus.t) : Z := (sampleCode s + 1)%Z.

Definition truthyEnv : Env :=
  {| statusCode := truthyCode; circuit := Closed;
     njordTransfer := acceptTransfer;
     njordGetBalance := fun _ => BalanceAccountNotFound;
     isProd := false; slackSend := Ok tt |}.

(** ** Vocabulary of the table invariants *)

(** The columns of a record that no webhook handler writes. *)
Definition identityOf (r : UserTransaction) :
    option nat * UserTransactionProcessor.t * string * option string
    * option string * option string * Z * Z :=
  (tx_id r, tx_processor r, tx_receiverId r, providerId (tx_flags r),
   tx_senderId r, tx_productId r, tx_fee r, tx_createdAt r).

(** The provider id under which [getTransactionForProviderId] finds a
    record, if any. *)
Definition providerKey (r : UserTransaction) : option string :=
  if bool_decide (tx_processor r = UserTransactionProcessor.Paddle)
  then providerId (tx_flags r) else None.

(** Ids are generated before the next id and no two rows share one. *)
Definition okIds (d : Db) : Prop := wfDb d /\ NoDup (map tx_id d.1).

(** ** Vocabulary of re-delivery *)

(** [sameRecord r1 r2]: the two records agree on every column but the update
    date. *)
Definition sameRecord (r1 r2 : UserTransaction) : Prop :=
  identityOf r1 = identityOf r2
  /\ tx_status r1 = tx_status r2
  /\ tx_value r1 = tx_value r2
  /\ tx_flags r1 = tx_flags r2.




(** [takes env e d]: the handler of the core transaction event [e] writes to
    the table [d] and its writes are kept: the event is neither rejected
    nor skipped, the checks of [updateUserTransaction] pass and, for a
    Completed event, the ledger accepts the transfer. *)
Definition takes (env : Env) (e : EventEntity) (d : Db) : bool :=
  let data := ev_data e in
  ev_isCore e
  && match eventType e, find (matchesProviderId (pd_id data)) d.1 with
     | TransactionCreated, None => true
     | TransactionReady, None => true
     | TransactionReady, Some t =>
         bool_decide (tx_status t = Some UserTransactionStatus.Created)
         && passesChecks t data
     | TransactionPaymentFailed, Some t =>
         includes [UserTransactionStatus.Created;
                   UserTransactionStatus.Processing] (tx_status t)
     | TransactionUpdated, Some t =>
         negb (tx_updatedAt t >? pd_updatedAt data)%Z
         && truthy env (tx_status t) && passesChecks t data
     | TransactionUpdated, None =>
         match updatedStatus (ev_status e) with
         | Some s => truthy env (Some s)
         | None => false
         end
     | TransactionCompleted, Some t =>
         passesChecks t data
         && purchaseAccepted env (tx_id t) (tx_receiverId t) (pd_cores data)
     | TransactionCompleted, None =>
         purchaseAccepted env (Some d.2) (pd_user_id data) (pd_cores data)
     | _, _ => false
     end.





(** The amounts that the int64 field of a transfer request carries. *)
Definition fitsInt64 (z : Z) : Prop := (- 2 ^ 63 <= z < 2 ^ 63)%Z.

(** ** The transaction summary query (schema/njord)

    The three [COALESCE(SUM(ut.value), 0)] queries of [transactionSummary],
    over the rows of the table.  The resolver runs them on the read replica
    ([queryReadReplica]); the replica is taken to hold the rows of the
    table, and the sums to be exact ([+item.amount] loses nothing). *)

Definition sumValues (p : UserTransaction -> bool) (rs : list UserTransaction) : Z :=
  foldr (fun r acc => if p r then (tx_value r + acc)%Z else acc) 0%Z rs.

Definition isSuccess (r : UserTransaction) : bool :=
  bool_decide (tx_status r = Some UserTransactionStatus.Success).

(** [receiverId = :userId AND senderId IS NULL AND productId IS NULL AND
    status = Success] *)
Definition isPurchaseOf (user : string) (r : UserTransaction) : bool :=
  bool_decide (tx_receiverId r = user)
  && bool_decide (tx_senderId r = None)
  && bool_decide (tx_productId r = None)
  && isSuccess r.

(** [receiverId = :userId AND senderId IS NOT NULL AND productId IS NOT NULL
    AND status = Success] *)
Definition isReceivedBy (user : string) (r : UserTransaction) : bool :=
  bool_decide (tx_receiverId r = user)
  && negb (bool_decide (tx_senderId r = None))
  && negb (bool_decide (tx_productId r = None))
  && isSuccess r.

(** [senderId = :userId AND receiverId IS NOT NULL AND productId IS NOT NULL
    AND status = Success]; the receiver column of a record is never null
    here. *)
Definition isSpentBy (user : string) (r : UserTransaction) : bool :=
  bool_decide (tx_senderId r = Some user)
  && negb (bool_decide (tx_productId r = None))
  && isSuccess r.

Record GQLUserTransactionSummary := {
  purchased : Z;
  received : Z;
  spent : Z;
}.

Definition transactionSummary (user : string) (w : World) : GQLUserTransactionSummary :=
  {| purchased := sumValues (isPurchaseOf user) (rows w);
     received := sumValues (isReceivedBy user) (rows w);
     spent := sumValues (isSpentBy user) (rows w) |}.

(** ** Awards (common/njord)

    [createTransaction], [canAward], [awardUser] and [awardPost] work on the
    transaction table and the ledger of [World], and on the Product, Post and
    UserPost tables.  Product and Post are only read; the reads that the
    source sends to the read replica see the rows of the tables. *)

Module Award.

(** [ProductType] (entity/Product) is not among the sources; this code
    compares with its member [Award] only. *)
Inductive ProductType := AwardProduct | OtherProduct.

#[global] Instance ProductType_eq_dec : EqDecision ProductType.
Proof. solve_decision. Defined.

(** The columns of the tables that this code reads or writes.  Products and
    posts are kept by id, UserPost rows by [(postId, userId)], the key of
    the [onConflict] clause. *)
Record Product := {
  product_type : ProductType;
  product_value : Z;
}.

Record Post := { post_authorId : option string }.

Record UserPost := {
  awardTransactionId : option nat;
  awardId : option string;
}.

(** What these functions throw: the errors of the ledger client, and two
    more classes. *)
Inductive AwardExn :=
| Thrown (e : Exn)
| ConflictError (message : string)
| EntityNotFoundError.

Inductive Outcome (A : Type) :=
| Done (a : A)
| Failed (e : AwardExn).
Arguments Done {A} a.
Arguments Failed {A} e.

(** The tables that are only read, [isSpecialUser] (common/user),
    [remoteConfig.vars.fees?.transfer] and the default of the [processor]
    column, none of which is among the sources. *)
Record AwardEnv := {
  products : gmap string Product;
  posts : gmap string Post;
  isSpecialUser : option string -> bool;
  fees_transfer : option Z;
  defaultProcessor : UserTransactionProcessor.t;
}.

Record AwardWorld := {
  world : World;
  userPosts : gmap (string * string) UserPost;
}.

Definition AM (A : Type) : Type := AwardWorld -> Outcome A * AwardWorld.

Definition done {A} (a : A) : AM A := fun s => (Done a, s).

Definition failed {A} (e : AwardExn) : AM A := fun s => (Failed e, s).

Definition abind {A B} (m : AM A) (k : A -> AM B) : AM B :=
  fun s => match m s with
           | (Done a, s') => k a s'
           | (Failed e, s') => (Failed e, s')
           end.

(** A computation of the ledger client or of the transaction table, run on
    the [world] component. *)
Definition lift {A} (m : M A) : AM A :=
  fun s => match m (world s) with
           | (Ok a, w) => (Done a, {| world := w; userPosts := userPosts s |})
           | (Throw e, w) =>
               (Failed (Thrown e), {| world := w; userPosts := userPosts s |})
           end.

(** [ctx.con.transaction(f)]: when [f] throws, the writes to the tables are
    undone (see [rollback]). *)
Definition transaction {A} (f : AM A) : AM A :=
  fun s => match f s with
           | (Done a, s') => (Done a, s')
           | (Failed e, s') =>
               (Failed e,
                {| world := rollback (world s) (world s');
                   userPosts := userPosts s |})
           end.

Declare Scope am_scope.
Delimit Scope am_scope with am.
Notation "'let*' x := c 'in' k" := (abind c (fun x => k))
  (at level 10, x pattern, c at level 100, k at level 200) : am_scope.
Notation "'do' c 'then' k" := (abind c (fun _ => k))
  (at level 10, c at level 100, k at level 200) : am_scope.
Local Open Scope am_scope.

Record TransactionProps := {
  txp_ctx : AuthContext;
  txp_productId : string;
  txp_receiverId : string;
  txp_note : option string;
}.

(** [AwardInput]; its [type] is read by the resolver only. *)
Record AwardInput := {
  ai_productId : string;
  ai_note : option string;
  ai_entityId : string;
}.

Record TransactionCreated := { transactionId : option nat }.

Section Awards.
Variable env : Env.
Variable aenv : AwardEnv.

(** [createAuthProtectedFn], for functions of this monad. *)
Definition createAuthProtectedFn {Props R}
    (ctx : Props -> AuthContext) (fn : Props -> AM R) : Props -> AM R :=
  fun props =>
    if bool_decide (userId (ctx props) = "")
    then failed (Thrown (ForbiddenError "Auth is required"))
    else fn props.

(** [getRepository(Product).findOneByOrFail({ id })] and
    [findOneOrFail({ where: { id } })] *)
Definition findProductOrFail (id : string) : AM Product :=
  match products aenv !! id with
  | Some product => done product
  | None => failed EntityNotFoundError
  end.

Definition findPostOrFail (id : string) : AM Post :=
  match posts aenv !! id with
  | Some post => done post
  | None => failed EntityNotFoundError
  end.

Definition findUserPost (postId userId : string) : AM (option UserPost) :=
  fun s => (Done (userPosts s !! (postId, userId)), s).

(** The status whose numeric value is [c].  When no member of the enum has
    this value, the stored number is no status at all: like [undefined] it
    is falsy and differs from every member. *)
Definition statusOfCode (c : Z) : option UserTransactionStatus.t :=
  find (fun s => (statusCode env s =? c)%Z)
    [UserTransactionStatus.Success; UserTransactionStatus.Created;
     UserTransactionStatus.Processing; UserTransactionStatus.Error;
     UserTransactionStatus.ErrorRecoverable].

(** The entity is inserted and gets the generated id ([repository_save]
    generates the id and the date columns as [insert] does). *)
Definition createTransaction (now : Z) : TransactionProps -> AM UserTransaction :=
  createAuthProtectedFn txp_ctx
    (fun props =>
       let senderId := userId (txp_ctx props) in
       let* product := findProductOrFail (txp_productId props) in
       let userTransaction :=
         {| tx_id := None;
            tx_processor := defaultProcessor aenv;
            tx_receiverId := txp_receiverId props;
            tx_status := statusOfCode 0;
            tx_productId := Some (txp_productId props);
            tx_senderId := Some senderId;
            tx_value := product_value product;
            tx_fee := default 0%Z (fees_transfer aenv);
            tx_flags := {| providerId := None; note := txp_note props;
                           error := None |};
            tx_createdAt := now;
            tx_updatedAt := now |} in
       lift (repository_save now userTransaction)).

(** The record that [createTransaction] inserts under the id [n]. *)
Definition insertedTransaction (now : Z) (props : TransactionProps)
    (product : Product) (n : nat) : UserTransaction :=
  {| tx_id := Some n;
     tx_processor := defaultProcessor aenv;
     tx_receiverId := txp_receiverId props;
     tx_status := statusOfCode 0;
     tx_productId := Some (txp_productId props);
     tx_senderId := Some (userId (txp_ctx props));
     tx_value := product_value product;
     tx_fee := default 0%Z (fees_transfer aenv);
     tx_flags := {| providerId := None; note := txp_note props; error := None |};
     tx_createdAt := now;
     tx_updatedAt := now |}.

(** The request that [transferCores] sends for this record. *)
Definition awardRequest (props : TransactionProps) (product : Product)
    (n : nat) : TransferRequest :=
  {| idempotencyKey := n;
     sender := Some (userId (txp_ctx props));
     receiver := txp_receiverId props;
     amount := product_value product |}.

Definition canAward (ctx : AuthContext) (receiverId : option string) : AM unit :=
  if bool_decide (Some (userId ctx) = receiverId)
  then failed (Thrown (ForbiddenError "Can not award yourself"))
  else if isSpecialUser aenv receiverId
  then failed (Thrown (ForbiddenError "Can not award this user"))
  else done tt.

Definition awardUser (now : Z) (props : AwardInput) (ctx : AuthContext) :
    AM TransactionCreated :=
  do canAward ctx (Some (ai_entityId props)) then
  let* product := findProductOrFail (ai_productId props) in
  if negb (bool_decide (product_type product = AwardProduct))
  then failed (Thrown (ForbiddenError "Can not award this product"))
  else
    let* transaction :=
      transaction
        (let* transaction :=
           createTransaction now
             {| txp_ctx := ctx;
                txp_productId := ai_productId props;
                txp_receiverId := ai_entityId props;
                txp_note := ai_note props |} in
         do lift (transferCores env
                    {| tp_ctx := ctx; tp_transaction := transaction |}) then
         done transaction) in
    done {| transactionId := tx_id transaction |}.

(** The insert into UserPost with its [onConflict ... DO UPDATE]: in both
    cases the row ends with the given [awardTransactionId] and, in its
    flags, the given [awardId]. *)
Definition upsertUserPost (postId userId : string) (txid : option nat)
    (award : option string) : AM unit :=
  fun s =>
    (Done tt,
     {| world := world s;
        userPosts :=
          <[(postId, userId) :=
              {| awardTransactionId := txid; awardId := award |}]>
            (userPosts s) |}).

(** JavaScript truthiness of a string that may be absent. *)
Definition truthyString (v : option string) : bool :=
  match v with
  | Some s => negb (bool_decide (s = ""))
  | None => false
  end.

(** Of the three reads of the [Promise.all], the two that fail when there is
    no row fail with the same class of error. *)
Definition awardPost (now : Z) (props : AwardInput) (ctx : AuthContext) :
    AM TransactionCreated :=
  let* product := findProductOrFail (ai_productId props) in
  let* post := findPostOrFail (ai_entityId props) in
  let* userPost := findUserPost (ai_entityId props) (userId ctx) in
  do canAward ctx (post_authorId post) then
  if negb (bool_decide (product_type product = AwardProduct))
  then failed (Thrown (ForbiddenError "Can not award this product"))
  else if bool_decide (is_Some (userPost ≫= awardTransactionId))
  then failed (ConflictError "Post already awarded")
  else
    let* transaction :=
      transaction
        match post_authorId post with
        | None | Some "" => failed (ConflictError "Post does not have an author")
        | Some authorId =>
            let* transaction :=
              createTransaction now
                {| txp_ctx := ctx;
                   txp_productId := ai_productId props;
                   txp_receiverId := authorId;
                   txp_note := ai_note props |} in
            if negb (truthyString (tx_productId transaction))
            then failed (Thrown (JsError "Product missing from transaction"))
            else
              do upsertUserPost (ai_entityId props) (userId ctx)
                   (tx_id transaction) (tx_productId transaction) then
              do lift (transferCores env
                         {| tp_ctx := ctx; tp_transaction := transaction |}) then
              done transaction
        end in
    done {| transactionId := tx_id transaction |}.
End Awards.

Local Close Scope am_scope.

(** ** Sample catalogue and world of the awards *)

Definition sampleAwardEnv : AwardEnv :=
  {| products :=
       {[ "flower" := {| product_type := AwardProduct; product_value := 25 |};
          "boost" := {| product_type := OtherProduct; product_value := 10 |} ]};
     posts :=
       {[ "p1" := {| post_authorId := Some "u2" |};
          "p0" := {| post_authorId := None |} ]};
     isSpecialUser := fun user => bool_decide (user = Some "ghost");
     fees_transfer := None;
     defaultProcessor := UserTransactionProcessor.Njord |}.

Definition emptyAwardWorld : AwardWorld :=
  {| world := emptyWorld; userPosts := ∅ |}.

Definition flowerFor (entity : string) : AwardInput :=
  {| ai_productId := "flower"; ai_note := Some "thanks"; ai_entityId := entity |}.
End Award.

(** ** Subscriptions (routes/webhooks/paddle, paddle)

    [extractSubscriptionType], [updateUserSubscription] and
    [processGiftedPayment] of the webhook route, with [isPlusMember] and
    [isGiftedPlus].  They work on the User table and the log. *)

Module Subscription.

(** [SubscriptionProvider] (entity) is not among the sources; this code
    names two of its members. *)
Inductive SubscriptionProvider := Paddle | AppleStoreKit.

#[global] Instance SubscriptionProvider_eq_dec : EqDecision SubscriptionProvider.
Proof. solve_decision. Defined.

(** A key of a JSON object as TypeScript sees it: absent, [null], or a
    value. *)
Inductive Field (A : Type) :=
| Undefined
| Null
| Value (a : A).
Arguments Undefined {A}.
Arguments Null {A}.
Arguments Value {A} a.

#[global] Instance Field_eq_dec {A} `{EqDecision A} : EqDecision (Field A).
Proof. solve_decision. Defined.

(** [UserSubscriptionFlags]: the keys this code reads or writes.  A date is
    the instant it denotes, in milliseconds. *)
Record UserSubscriptionFlags := {
  cycle : Field string;
  createdAt : Field string;
  subscriptionId : Field string;
  provider : Field SubscriptionProvider;
  status : Field StoreKit.UserSubscriptionStatus;
  gifterId : Field string;
  giftExpirationDate : Field Z;
}.

(** A row of the User table: [subscriptionFlags], and of [flags] the key
    [showPlusGift]. *)
Record User := {
  subscriptionFlags : UserSubscriptionFlags;
  showPlusGift : Field bool;
}.

Record Store := {
  users : gmap string User;
  errors : list string;
}.

(** [logger.error(..., message)] *)
Definition logError (message : string) (st : Store) : Store :=
  {| users := users st; errors := errors st ++ [message] |}.

(** What a call ends with: the value it returns ([undefined] is [None]) or
    the message of the [Error] it throws. *)
Inductive Outcome :=
| Returned (value : option bool)
| Threw (message : string).

(** One key of the merge of an update into the stored JSON: a key that
    [JSON.stringify] keeps ([null] included) replaces the stored one. *)
Definition mergeField {A} (update stored : Field A) : Field A :=
  match update with
  | Undefined => stored
  | _ => update
  end.

(** Modelled from the spec: [updateSubscriptionFlags] (common) is not among
    the sources; as for [StoreKit.updateSubscriptionFlags] it is the
    statement that merges the given keys into the stored flags, the given
    keys winning. *)
Definition updateSubscriptionFlags (update stored : UserSubscriptionFlags) :
    UserSubscriptionFlags :=
  {| cycle := mergeField (cycle update) (cycle stored);
     createdAt := mergeField (createdAt update) (createdAt stored);
     subscriptionId := mergeField (subscriptionId update) (subscriptionId stored);
     provider := mergeField (provider update) (provider stored);
     status := mergeField (status update) (status stored);
     gifterId := mergeField (gifterId update) (gifterId stored);
     giftExpirationDate :=
       mergeField (giftExpirationDate update) (giftExpirationDate stored) |}.

(** [plusGiftDuration]: one year. *)
Definition plusGiftDuration : Z := 31557600000.

(** [!!cycle?.length || false] *)
Definition isPlusMember (cycle : Field string) : bool :=
  match cycle with
  | Value s => negb (bool_decide (s = ""))
  | Undefined | Null => false
  end.

Definition isGiftedPlus (subscriptionFlags : UserSubscriptionFlags) : bool :=
  match gifterId subscriptionFlags with
  | Value s => negb (bool_decide (s = ""))
  | Undefined | Null => false
  end
  && isPlusMember (cycle subscriptionFlags).

(** An item of an event: [item.price?.id]. *)
Record Item := { price_id : option string }.

(** A subscription event: [data.customData?.user_id], [data.items],
    [data.startedAt] and [data.id]. *)
Record SubscriptionEvent := {
  se_user_id : option string;
  se_items : option (list Item);
  se_startedAt : Field string;
  se_id : Field string;
}.

(** A completed transaction that is a gift: [gifter_id] and [user_id] of its
    custom data, both present, [data.createdAt] and [data.id]. *)
Record GiftEvent := {
  ge_gifter_id : string;
  ge_user_id : string;
  ge_createdAt : Field string;
  ge_id : Field string;
}.

Section Handlers.
(** [remoteConfig.vars?.pricingIds]; without configuration no id is mapped. *)
Variable pricingIds : gmap string string.

(** The cycle that the configuration gives to the price of an item, when
    [item.price?.id && pricingIds?.[item.price.id]] is truthy. *)
Definition pricedCycle (item : Item) : option string :=
  match price_id item with
  | Some id =>
      if bool_decide (id = "") then None
      else match pricingIds !! id with
           | Some c => if bool_decide (c = "") then None else Some c
           | None => None
           end
  | None => None
  end.

Definition extractSubscriptionType (items : option (list Item)) : string :=
  match items with
  | None => ""
  | Some items =>
      foldl (fun acc item =>
               match pricedCycle item with
               | Some c => c
               | None => acc
               end) "" items
  end.

(** [getRepository(User).update({ id }, { subscriptionFlags, flags })] *)
Definition user_update (id : string) (set : User -> User) (st : Store) : Store :=
  {| users := alter set id (users st); errors := errors st |}.

Definition updateUserSubscription (data : option SubscriptionEvent)
    (state : bool) (st : Store) : Outcome * Store :=
  match data with
  | None => (Returned None, st)
  | Some data =>
      match se_user_id data with
      | None | Some "" =>
          (Returned (Some false), logError "User ID missing in payload" st)
      | Some userId =>
          match users st !! userId with
          | None => (Returned (Some false), logError "User not found" st)
          | Some user =>
              if bool_decide (provider (subscriptionFlags user)
                              = Value AppleStoreKit)
              then (Threw "User already has a StoreKit subscription",
                    logError "User already has a Apple subscription" st)
              else
                let subscriptionType := extractSubscriptionType (se_items data) in
                if bool_decide (subscriptionType = "")
                then (Returned (Some false),
                      logError "Subscription type missing in payload" st)
                else
                  (Returned None,
                   user_update userId
                     (fun u =>
                        {| subscriptionFlags :=
                             updateSubscriptionFlags
                               {| cycle :=
                                    if state then Value subscriptionType else Null;
                                  createdAt :=
                                    if state then se_startedAt data else Null;
                                  subscriptionId :=
                                    if state then se_id data else Null;
                                  provider := if state then Value Paddle else Null;
                                  status :=
                                    if state then Value StoreKit.Active else Null;
                                  gifterId := Undefined;
                                  giftExpirationDate := Undefined |}
                               (subscriptionFlags u);
                           showPlusGift := showPlusGift u |})
                     st)
          end
      end
  end.

(** [now] is the instant of [new Date()]. *)
Definition processGiftedPayment (now : Z) (data : GiftEvent) (st : Store) : Store :=
  let gifter_id := ge_gifter_id data in
  let user_id := ge_user_id data in
  if bool_decide (user_id = gifter_id)
  then logError "User and gifter are the same" st
  else
    match users st !! gifter_id with
    | None => logError "Gifter user not found" st
    | Some gifterUser =>
        let targetUser := users st !! user_id in
        if isPlusMember
             (match targetUser with
              | Some u => cycle (subscriptionFlags u)
              | None => Undefined
              end)
        then logError "User is already a Plus member" st
        else
          user_update user_id
            (fun u =>
               {| subscriptionFlags :=
                    updateSubscriptionFlags
                      {| cycle := Value "yearly";
                         createdAt := ge_createdAt data;
                         subscriptionId := ge_id data;
                         provider := Value Paddle;
                         status := Undefined;
                         gifterId := Value gifter_id;
                         giftExpirationDate := Value (now + plusGiftDuration)%Z |}
                      (subscriptionFlags u);
                  showPlusGift := Value true |})
            st
    end.
End Handlers.

(** ** Sample configuration and users *)

Definition samplePricing : gmap string string :=
  {[ "pri_month" := "monthly"; "pri_year" := "yearly" ]}.

Definition noFlags : UserSubscriptionFlags :=
  {| cycle := Undefined; createdAt := Undefined; subscriptionId := Undefined;
     provider := Undefined; status := Undefined; gifterId := Undefined;
     giftExpirationDate := Undefined |}.

Definition appleFlags : UserSubscriptionFlags :=
  {| cycle := Value "monthly"; createdAt := Undefined;
     subscriptionId := Value "apple-1"; provider := Value AppleStoreKit;
     status := Value StoreKit.Active; gifterId := Undefined;
     giftExpirationDate := Undefined |}.

(** [u1] and [g1] without subscription, [u2] with one of the other
    provider. *)
Definition sampleStore : Store :=
  {| users :=
       {[ "u1" := {| subscriptionFlags := noFlags; showPlusGift := Undefined |};
          "g1" := {| subscriptionFlags := noFlags; showPlusGift := Undefined |};
          "u2" := {| subscriptionFlags := appleFlags;
                     showPlusGift := Undefined |} ]};
     errors := [] |}.

Definition yearlyFor (user : string) : SubscriptionEvent :=
  {| se_user_id := Some user;
     se_items := Some [ {| price_id := Some "pri_month" |};
                        {| price_id := Some "pri_year" |};
                        {| price_id := Some "pri_other" |} ];
     se_startedAt := Value "2025-01-01T00:00:00Z";
     se_id := Value "sub_1" |}.

Definition sampleGift : GiftEvent :=
  {| ge_gifter_id := "g1"; ge_user_id := "u1";
     ge_createdAt := Value "2025-01-01T00:00:00Z"; ge_id := Value "txn_G1" |}.
End Subscription.

(** ** Access to sources (schema/sources)

    [canAccessSource], [ensureSourcePermissions] and [addNewSourceMember],
    on the SourceMember table. *)

Module Sources.

(** [Context]: a request without session has no [userId]. *)
Record Context := { ctx_userId : option string }.

(** [Pick<GQLSource, 'id' | 'private'>] *)
Record GQLSource := {
  source_id : string;
  source_private : bool;
}.

(** [SourceMemberRoles] (entity) is not among the sources; this code names
    its member [Owner]. *)
Inductive SourceMemberRoles := Owner | OtherRole.

(** A row of SourceMember, kept under its [(userId, sourceId)]. *)
Record SourceMember := {
  role : option SourceMemberRoles;
  referralToken : string;
}.

Abbreviation SourceMembers := (gmap (string * string) SourceMember).

(** The part of a member that the caller of [addNewSourceMember] gives. *)
Record NewMember := {
  nm_sourceId : string;
  nm_userId : string;
  nm_role : option SourceMemberRoles;
}.

Definition canAccessSource (ctx : Context) (source : GQLSource)
    (members : SourceMembers) : bool :=
  if negb (source_private source) then true
  else
    match ctx_userId ctx with
    | Some userId =>
        if bool_decide (userId = "") then false
        else if bool_decide (is_Some (members !! (userId, source_id source)))
        then true
        else false
    | None => false
    end.

Definition ensureSourcePermissions (ctx : Context) (source : GQLSource)
    (members : SourceMembers) : Result unit :=
  if canAccessSource ctx source members then Ok tt
  else Throw (ForbiddenError "Access denied!").

(** [save({ ...member, referralToken: randomUUID() })]; [uuid] is the value
    that [randomUUID] returns. *)
Definition addNewSourceMember (member : NewMember) (uuid : string)
    (members : SourceMembers) : SourceMembers :=
  <[(nm_userId member, nm_sourceId member) :=
      {| role := nm_role member; referralToken := uuid |}]> members.
End Sources.

(** * Properties *)

(** ** Frame lemmas of the store *)

Lemma world_eta (w : World) :
  {| rows := rows w; nextId := nextId w; redis := redis w;
     ledgerCalls := ledgerCalls w; logs := logs w |} = w.
Proof. by destruct w. Qed.

Lemma rollback_same (w : World) : rollback w w = w.
Proof. apply world_eta. Qed.

Section UpdateRows.
Variable pid : string.
Variable i : option nat.
Variable set : UserTransaction -> UserTransaction.
Hypothesis set_keeps_key :
  forall r, matchesProviderId pid (set r) = matchesProviderId pid r.

Let upd (r : UserTransaction) : UserTransaction :=
  if bool_decide (tx_id r = i) then set r else r.

Lemma find_update_rows (rs : list UserTransaction) :
  find (matchesProviderId pid) (map upd rs) = upd <$> find (matchesProviderId pid) rs.
Proof.
  induction rs as [|r rs IH]; [done|]. cbn [map find].
  assert (matchesProviderId pid (upd r) = matchesProviderId pid r) as ->.
  { unfold upd. case_bool_decide; [apply set_keeps_key | done]. }
  destruct (matchesProviderId pid r); [done | exact IH].
Qed.
End UpdateRows.

Lemma find_snoc_None {A} (P : A -> bool) (l : list A) (x : A) :
  find P l = None -> find P (l ++ [x]) = if P x then Some x else None.
Proof.
  induction l as [|a l IH]; cbn; [done|].
  destruct (P a); [done | exact IH].
Qed.

(** Unfolds the monad and the repository primitives, leaving the handlers'
    decisions in the goal. *)
Ltac run_m :=
  cbv beta iota zeta delta
    [bind ret throw try_catch con_transaction logger
     getTransactionForProviderId checkTransactionStatusValid
     repository_update repository_save
     isCoreTransaction getPaddleTransactionData].

(** ** The ledger client leaves the table alone *)

Section NjordFrame.
Variable env : Env.

Lemma updateBalanceCache_run (props : UpdateBalanceProps) (w : World) :
  exists f, snd (updateBalanceCache props w) = set_redis f w.
Proof.
  unfold updateBalanceCache, getBalanceRedisKey, createAuthProtectedFn,
    setRedisObjectWithExpiry.
  run_m. destruct (bool_decide (userId (ub_ctx props) = "")) eqn:E; cbn.
  - exists (fun m => m). symmetry. apply world_eta.
  - rewrite E. cbn. by eexists.
Qed.

Lemma settleBalanceUpdate_run (b : option BalanceChange) (w : World) :
  exists f, settleBalanceUpdate b w = (Ok tt, set_redis f w).
Proof.
  destruct b as [b|]; cbn.
  - unfold try_catch.
    destruct (updateBalanceCache_run
                {| ub_ctx := {| userId := account_userId b; isTeamMember := false |};
                   ub_value := {| gb_amount := newBalance b |} |} w) as [f Hf].
    destruct (updateBalanceCache _ w) as [[[]|e] w'] eqn:Hrun; cbn in Hf; subst w'.
    + by exists f.
    + by exists f.
  - exists (fun m => m). unfold ret. f_equal. symmetry. apply world_eta.
Qed.

(** What [purchaseCores] does when the breaker lets the call through. *)
Lemma purchaseCores_closed (t : UserTransaction) (txid : nat) (w : World) :
  tx_id t = Some txid ->
  circuit env <> Open ->
  let req := purchaseRequest txid (tx_receiverId t) (tx_value t) in
  match njordTransfer env req with
  | Ok res =>
      exists f,
        purchaseCores env t w = (Ok res, set_redis f (add_ledgerCall req w))
  | Throw e => purchaseCores env t w = (Throw e, add_ledgerCall req w)
  end.
Proof.
  intros Hid Hc req.
  assert (purchaseCores env t w
          = match njordTransfer env req with
            | Ok res =>
                (do settleBalanceUpdate (senderBalance res) then
                 do settleBalanceUpdate (receiverBalance res) then
                 ret res) (add_ledgerCall req w)
            | Throw e => (Throw e, add_ledgerCall req w)
            end) as ->.
  { unfold purchaseCores, garmNjordService_execute. rewrite Hid.
    by destruct (circuit env). }
  destruct (njordTransfer env req) as [res|e]; [|done].
  unfold bind.
  destruct (settleBalanceUpdate_run (senderBalance res) (add_ledgerCall req w))
    as [f1 ->].
  destruct (settleBalanceUpdate_run (receiverBalance res)
              (set_redis f1 (add_ledgerCall req w))) as [f2 ->].
  exists (fun m => f2 (f1 m)). done.
Qed.

Lemma purchaseCores_closed_as (t : UserTransaction) (txid : nat)
    (receiverId : string) (cores : Z) (w : World) :
  tx_id t = Some txid ->
  tx_receiverId t = receiverId ->
  tx_value t = cores ->
  circuit env <> Open ->
  let req := purchaseRequest txid receiverId cores in
  match njordTransfer env req with
  | Ok res =>
      exists f,
        purchaseCores env t w = (Ok res, set_redis f (add_ledgerCall req w))
  | Throw e => purchaseCores env t w = (Throw e, add_ledgerCall req w)
  end.
Proof. intros Hid <- <- Hc. by apply purchaseCores_closed. Qed.


Lemma purchaseCores_open (t : UserTransaction) (txid : nat) (w : World) :
  tx_id t = Some txid ->
  circuit env = Open ->
  purchaseCores env t w = (Throw BrokenCircuitError, w).
Proof.
  intros Hid Hc. unfold purchaseCores, garmNjordService_execute.
  by rewrite Hid, Hc.
Qed.

Lemma purchaseCores_no_id (t : UserTransaction) (w : World) :
  tx_id t = None ->
  purchaseCores env t w = (Throw (JsError "No transaction id"), w).
Proof. intros Hid. unfold purchaseCores. by rewrite Hid. Qed.

Lemma purchaseCores_db (t : UserTransaction) (w : World) :
  rows (snd (purchaseCores env t w)) = rows w
  /\ nextId (snd (purchaseCores env t w)) = nextId w.
Proof.
  destruct (tx_id t) as [txid|] eqn:Hid;
    [|by rewrite purchaseCores_no_id].
  destruct (decide (circuit env = Open)) as [Hc|Hc];
    [by rewrite (purchaseCores_open t txid)|].
  pose proof (purchaseCores_closed t txid w Hid Hc) as H. cbv zeta in H.
  destruct (njordTransfer env _) as [res|e]; [destruct H as [f ->]|rewrite H]; done.
Qed.
End NjordFrame.

(** Case analysis on every decision [bool_decide P] of the goal. *)
Ltac split_decisions :=
  repeat (match goal with
          | |- context [bool_decide ?P] =>
              destruct (bool_decide_reflect P); try discriminate
          end;
          cbn [negb andb orb]; cbv beta iota).

Section PaddleProperties.
Variable env : Env.
Import UserTransactionStatus.

Lemma matches_set_value_status (pid : string) (now v : Z)
    (s : option UserTransactionStatus.t) (r : UserTransaction) :
  matchesProviderId pid (set_value_status now v s r) = matchesProviderId pid r.
Proof. done. Qed.

Lemma matches_set_status_error (pid : string) (now : Z)
    (s : UserTransactionStatus.t) (msg : string) (r : UserTransaction) :
  matchesProviderId pid (set_status_error now s msg r) = matchesProviderId pid r.
Proof. done. Qed.

Lemma matches_createdRow (now : Z) (data : PaddleTransactionData) (w : World)
    (s : UserTransactionStatus.t) :
  matchesProviderId (pd_id data) (createdRow now data w s) = true.
Proof. unfold matchesProviderId. cbn. by rewrite !bool_decide_eq_true_2. Qed.

(** After [repository_update] on the id of the record found for [pid], the
    record found for [pid] is the updated one. *)
Lemma find_after_update (pid : string) (set : UserTransaction -> UserTransaction)
    (t : UserTransaction) (rs : list UserTransaction) :
  (forall r, matchesProviderId pid (set r) = matchesProviderId pid r) ->
  find (matchesProviderId pid) rs = Some t ->
  find (matchesProviderId pid)
    (map (fun r => if bool_decide (tx_id r = tx_id t) then set r else r) rs)
  = Some (set t).
Proof.
  intros Hset Hfind. rewrite find_update_rows by done. rewrite Hfind. cbn.
  by rewrite bool_decide_eq_true_2.
Qed.

(** C5. A Created event for a provider transaction id that already has a
    record throws and leaves the world as it was; otherwise it appends a
    record with status Created to the table. *)
Theorem processTransactionCreated_spec (now : Z) (event : EventEntity) (w : World) :
  isCoreTransaction event = true ->
  let data := getPaddleTransactionData event in
  (forall t, find (matchesProviderId (pd_id data)) (rows w) = Some t ->
     processTransactionCreated env now event w
     = (Throw (JsError "Transaction already exists"), w))
  /\ (find (matchesProviderId (pd_id data)) (rows w) = None ->
      exists w',
        processTransactionCreated env now event w = (Ok tt, w')
        /\ rows w' = rows w ++ [createdRow now data w Created]
        /\ find (matchesProviderId (pd_id data)) (rows w')
           = Some (createdRow now data w Created)).
Proof.
  intros Hcore data. subst data.
  unfold isCoreTransaction, getPaddleTransactionData in *.
  split; [intros t Hfind | intros Hfind];
    unfold processTransactionCreated; run_m; rewrite Hcore, Hfind; [done|].
  eexists. split; [reflexivity|]. split; [reflexivity|].
  pose proof (find_snoc_None (matchesProviderId (pd_id (ev_data event)))
                (rows w) (createdRow now (ev_data event) w Created) Hfind) as H.
  rewrite matches_createdRow in H. exact H.
Qed.

(** C7. A Ready event creates a fresh Processing record when none exists,
    moves a Created record to Processing (its status becomes Processing,
    its value the cores of the event, its update date the time of the
    write; its identity and flags are kept), and on a record in any other
    status only logs a warning; the table changes in no other case. *)
Theorem processTransactionReady_spec (now : Z) (event : EventEntity) (w : World) :
  isCoreTransaction event = true ->
  let data := getPaddleTransactionData event in
  let found := find (matchesProviderId (pd_id data)) (rows w) in
  (found = None ->
     exists w' t',
       processTransactionReady env now event w = (Ok tt, w')
       /\ rows w' = rows w ++ [t']
       /\ nextId w' = S (nextId w)
       /\ tx_id t' = Some (nextId w)
       /\ tx_status t' = Some Processing
       /\ tx_value t' = pd_cores data
       /\ tx_receiverId t' = pd_user_id data
       /\ tx_processor t' = UserTransactionProcessor.Paddle
       /\ providerId (tx_flags t') = Some (pd_id data)
       /\ t' = createdRow now data w Processing
       /\ logs w' = logs w
       /\ ledgerCalls w' = ledgerCalls w)
  /\ (forall t, found = Some t -> tx_status t = Some Created ->
        tx_receiverId t = pd_user_id data ->
        exists w' t',
          processTransactionReady env now event w = (Ok tt, w')
          /\ find (matchesProviderId (pd_id data)) (rows w') = Some t'
          /\ tx_status t' = Some Processing
          /\ tx_value t' = pd_cores data
          /\ tx_updatedAt t' = now
          /\ identityOf t' = identityOf t
          /\ tx_flags t' = tx_flags t
          /\ t' = set_value_status now (pd_cores data) (Some Processing) t
          /\ logs w' = logs w
          /\ ledgerCalls w' = ledgerCalls w)
  /\ (forall t, found = Some t -> tx_status t <> Some Created ->
        processTransactionReady env now event w
        = (Ok tt, add_log (LogWarn, "Transaction with invalid status") w))
  /\ (forall r w',
        processTransactionReady env now event w = (r, w') ->
        rows w' <> rows w ->
        found = None \/ exists t, found = Some t /\ tx_status t = Some Created).
Proof.
  intros Hcore data found. subst data found.
  unfold isCoreTransaction, getPaddleTransactionData in *.
  assert (Hno : forall t,
    find (matchesProviderId (pd_id (ev_data event))) (rows w) = Some t ->
    tx_status t <> Some Created ->
    processTransactionReady env now event w
    = (Ok tt, add_log (LogWarn, "Transaction with invalid status") w)).
  { intros t Hfind Hst. unfold processTransactionReady. run_m.
    rewrite Hcore, Hfind. unfold includes. cbn.
    by rewrite bool_decide_eq_false_2. }
  repeat split.
  - intros Hfind. unfold processTransactionReady. run_m. rewrite Hcore, Hfind.
    eexists _, (createdRow now (ev_data event) w Processing).
    split; [reflexivity|]. by cbn.
  - intros t Hfind Hst Hrecv. unfold processTransactionReady. run_m.
    rewrite Hcore, Hfind. unfold includes. cbn. rewrite Hst. cbn.
    unfold updateUserTransaction. run_m.
    rewrite (bool_decide_eq_true_2 _ Hrecv), Hst. cbn.
    eexists _, (set_value_status now (pd_cores (ev_data event)) (Some Processing) t).
    split; [reflexivity|]. cbn. split; [|done].
    apply find_after_update; [apply matches_set_value_status | done].
  - exact Hno.
  - intros r w' Hrun Hrows.
    destruct (find _ (rows w)) as [t|] eqn:Hfind; [|by left].
    right. exists t. split; [done|].
    destruct (decide (tx_status t = Some Created)) as [|Hne]; [done|].
    rewrite (Hno t eq_refl Hne) in Hrun. by simplify_eq.
Qed.

(** C8. A PaymentFailed event on a record whose status is Created or
    Processing sets ErrorRecoverable when the payment error code is
    [declined] and Error otherwise (and stores the error message); on a
    record in any other status it only logs a warning. *)
Theorem processTransactionPaymentFailed_spec (now : Z) (event : EventEntity)
    (w : World) (t : UserTransaction) :
  isCoreTransaction event = true ->
  let data := getPaddleTransactionData event in
  find (matchesProviderId (pd_id data)) (rows w) = Some t ->
  let nextStatus :=
    if bool_decide (ev_errorCode event = Some "declined")
    then ErrorRecoverable else Error in
  (tx_status t = Some Created \/ tx_status t = Some Processing ->
     exists w' t',
       processTransactionPaymentFailed now event w = (Ok tt, w')
       /\ find (matchesProviderId (pd_id data)) (rows w') = Some t'
       /\ tx_status t' = Some nextStatus
       /\ tx_value t' = tx_value t
       /\ tx_id t' = tx_id t
       /\ logs w' = logs w)
  /\ (~ (tx_status t = Some Created \/ tx_status t = Some Processing) ->
      processTransactionPaymentFailed now event w
      = (Ok tt, add_log (LogWarn, "Transaction with invalid status") w)).
Proof.
  intros Hcore data Hfind nextStatus. subst data nextStatus.
  unfold isCoreTransaction, getPaddleTransactionData in *.
  split; intros Hst; unfold processTransactionPaymentFailed; run_m;
    rewrite Hcore, Hfind; unfold includes; cbn.
  - assert (bool_decide (tx_status t = Some Created)
            || (bool_decide (tx_status t = Some Processing) || false) = true) as ->.
    { destruct Hst as [-> | ->]; done. }
    cbn. do 2 eexists. split; [reflexivity|]. cbn. split.
    + apply find_after_update; [|done]. intros r. apply matches_set_status_error.
    + done.
  - rewrite !bool_decide_eq_false_2 by tauto. done.
Qed.

(** *** Run equations of [processTransactionCompleted] *)

Lemma completed_run_new (now : Z) (event : EventEntity) (w : World) :
  ev_isCore event = true ->
  find (matchesProviderId (pd_id (ev_data event))) (rows w) = None ->
  let saved := createdRow now (ev_data event) w Success in
  processTransactionCompleted env now event w
  = commitOrRollback env w
      (purchaseCores env saved
         (set_nextId (S (nextId w)) (set_rows (fun rs => rs ++ [saved]) w))).
Proof.
  intros Hcore Hfind saved. unfold processTransactionCompleted. run_m.
  rewrite Hcore, Hfind. unfold updateUserTransaction. run_m. fold saved.
  unfold commitOrRollback, notifyNewPaddleCoresTransaction.
  by destruct (purchaseCores _ _ _) as [[res|e] w2].
Qed.

Lemma completed_run_receiver (now : Z) (event : EventEntity) (w : World)
    (t : UserTransaction) :
  ev_isCore event = true ->
  find (matchesProviderId (pd_id (ev_data event))) (rows w) = Some t ->
  tx_receiverId t <> pd_user_id (ev_data event) ->
  processTransactionCompleted env now event w
  = (Throw (JsError "Transaction receiver does not match user ID"), w).
Proof.
  intros Hcore Hfind Hrecv. unfold processTransactionCompleted. run_m.
  rewrite Hcore, Hfind. unfold updateUserTransaction. run_m.
  rewrite (bool_decide_eq_false_2 _ Hrecv). cbn. by rewrite rollback_same.
Qed.

Lemma completed_run_value (now : Z) (event : EventEntity) (w : World)
    (t : UserTransaction) :
  ev_isCore event = true ->
  find (matchesProviderId (pd_id (ev_data event))) (rows w) = Some t ->
  tx_receiverId t = pd_user_id (ev_data event) ->
  tx_status t = Some Success ->
  tx_value t <> pd_cores (ev_data event) ->
  processTransactionCompleted env now event w
  = (Throw (JsError "Transaction value changed after success"), w).
Proof.
  intros Hcore Hfind Hrecv Hst Hval. unfold processTransactionCompleted. run_m.
  rewrite Hcore, Hfind. unfold updateUserTransaction. run_m.
  rewrite (bool_decide_eq_true_2 _ Hrecv), (bool_decide_eq_true_2 _ Hst),
    (bool_decide_eq_false_2 _ Hval).
  cbn. by rewrite rollback_same.
Qed.

Lemma completed_run_found (now : Z) (event : EventEntity) (w : World)
    (t : UserTransaction) :
  ev_isCore event = true ->
  find (matchesProviderId (pd_id (ev_data event))) (rows w) = Some t ->
  tx_receiverId t = pd_user_id (ev_data event) ->
  (tx_status t = Some Success -> tx_value t = pd_cores (ev_data event)) ->
  processTransactionCompleted env now event w
  = commitOrRollback env w
      (purchaseCores env
         (updatedEntity env t (pd_cores (ev_data event)) (Some Success))
         (set_rows
            (updateRows (tx_id t)
               (set_value_status now (pd_cores (ev_data event)) (Some Success)))
            w)).
Proof.
  intros Hcore Hfind Hrecv Hval.
  unfold processTransactionCompleted. run_m.
  rewrite Hcore, Hfind. unfold updateUserTransaction. run_m.
  rewrite (bool_decide_eq_true_2 _ Hrecv).
  assert (bool_decide (tx_status t = Some Success)
          && negb (bool_decide (tx_value t = pd_cores (ev_data event)))
          = false) as ->.
  { case_bool_decide; [|done]. by rewrite bool_decide_eq_true_2 by auto. }
  cbn [negb]. cbv beta iota.
  unfold commitOrRollback, notifyNewPaddleCoresTransaction, updateRows,
    updatedEntity.
  destruct (purchaseCores _ _ _) as [[res|e] w2]; reflexivity.
Qed.

Lemma commitOrRollback_ledgerCalls (w : World)
    (out : Result TransferResponse * World) :
  ledgerCalls (snd (commitOrRollback env w out)) = ledgerCalls (snd out).
Proof. by destruct out as [[res|e] w2]. Qed.

Lemma commitOrRollback_ok (w : World)
    (out : Result TransferResponse * World) :
  fst (commitOrRollback env w out) = Ok tt ->
  snd (commitOrRollback env w out) = snd out.
Proof. by destruct out as [[res|e'] w2]. Qed.

(** A handler run on the record found for the event, in the cases of
    [updateUserTransaction]. *)
Lemma completed_cases (now : Z) (event : EventEntity) (w : World)
    (t : UserTransaction) :
  ev_isCore event = true ->
  find (matchesProviderId (pd_id (ev_data event))) (rows w) = Some t ->
  (exists msg, processTransactionCompleted env now event w = (Throw (JsError msg), w))
  \/ (tx_receiverId t = pd_user_id (ev_data event)
      /\ (tx_status t = Some Success -> tx_value t = pd_cores (ev_data event))
      /\ processTransactionCompleted env now event w
         = commitOrRollback env w
             (purchaseCores env
                (updatedEntity env t (pd_cores (ev_data event)) (Some Success))
                (set_rows
                   (updateRows (tx_id t)
                      (set_value_status now (pd_cores (ev_data event))
                         (Some Success)))
                   w))).
Proof.
  intros Hcore Hfind.
  destruct (decide (tx_receiverId t = pd_user_id (ev_data event))) as [Hrecv|Hrecv];
    [|left; eexists; by apply (completed_run_receiver now event w t)].
  destruct (decide (tx_status t = Some Success)) as [Hst|Hst].
  - destruct (decide (tx_value t = pd_cores (ev_data event))) as [Hval|Hval].
    + right. repeat split; [done..|]. by apply completed_run_found.
    + left. eexists. by apply (completed_run_value now event w t).
  - right. repeat split; [done..|]. by apply completed_run_found.
Qed.

(** C2. A Completed event for a record that is already Success with another
    value throws; the world, and with it the stored record, stays as it was,
    and no transfer is sent. *)
Theorem completed_value_changed_is_fatal (now : Z) (event : EventEntity)
    (w : World) (t : UserTransaction) :
  isCoreTransaction event = true ->
  let data := getPaddleTransactionData event in
  find (matchesProviderId (pd_id data)) (rows w) = Some t ->
  tx_status t = Some Success ->
  tx_value t <> pd_cores data ->
  (exists msg,
     processTransactionCompleted env now event w = (Throw (JsError msg), w))
  /\ (tx_receiverId t = pd_user_id data ->
      processTransactionCompleted env now event w
      = (Throw (JsError "Transaction value changed after success"), w))
  /\ (eventType event = TransactionCompleted ->
      let w' := deliver env (now, Some event) w in
      rows w' = rows w
      /\ ledgerCalls w' = ledgerCalls w
      /\ find (matchesProviderId (pd_id data)) (rows w') = Some t).
Proof.
  intros Hcore data Hfind Hst Hval. subst data.
  unfold isCoreTransaction, getPaddleTransactionData in *.
  assert (Hthrow : exists msg,
    processTransactionCompleted env now event w = (Throw (JsError msg), w)).
  { destruct (decide (tx_receiverId t = pd_user_id (ev_data event))).
    - eexists. by apply (completed_run_value now event w t).
    - eexists. by apply (completed_run_receiver now event w t). }
  split; [done|]. split; [intros; by apply (completed_run_value now event w t)|].
  intros Hty. destruct Hthrow as [msg Hrun].
  unfold deliver, paddle. cbn [fst snd]. rewrite Hty. run_m. rewrite Hrun.
  cbn. done.
Qed.


Lemma updateRows_status (i : option nat) (now v : Z) (rs : list UserTransaction) :
  map tx_status (updateRows i (set_value_status now v None) rs) = map tx_status rs.
Proof.
  unfold updateRows. rewrite map_map. apply map_ext. intros r.
  by case_bool_decide.
Qed.

(** C6. An Updated event is dropped, with a warning, when the stored record
    is newer than the event.  Otherwise, when a record exists, no status in
    the table changes, whatever the outcome; when none exists, a record is
    inserted with status Created for sub-status [draft] and Processing for
    [ready] (these members being truthy), and nothing is inserted for any
    other sub-status. *)
Theorem processTransactionUpdated_spec (now : Z) (event : EventEntity) (w : World) :
  isCoreTransaction event = true ->
  let data := getPaddleTransactionData event in
  let found := find (matchesProviderId (pd_id data)) (rows w) in
  let out := processTransactionUpdated env now event w in
  (forall t, found = Some t -> (tx_updatedAt t > pd_updatedAt data)%Z ->
     out = (Ok tt, add_log (LogWarn, "Transaction already updated") w))
  /\ (forall t, found = Some t -> (tx_updatedAt t <= pd_updatedAt data)%Z ->
        map tx_status (rows (snd out)) = map tx_status (rows w)
        /\ (exists t', find (matchesProviderId (pd_id data)) (rows (snd out)) = Some t'
                       /\ tx_status t' = tx_status t))
  /\ (found = None -> ev_status event = "draft" ->
      statusCode env Created <> 0%Z ->
      exists w', out = (Ok tt, w')
                 /\ rows w' = rows w ++ [createdRow now data w Created])
  /\ (found = None -> ev_status event = "ready" ->
      statusCode env Processing <> 0%Z ->
      exists w', out = (Ok tt, w')
                 /\ rows w' = rows w ++ [createdRow now data w Processing])
  /\ (found = None -> ev_status event <> "draft" -> ev_status event <> "ready" ->
      out = (Ok tt, add_log (LogWarn, "Transaction update skipped") w)).
Proof.
  intros Hcore data found out. subst data found out.
  unfold isCoreTransaction, getPaddleTransactionData in *.
  split; [|split; [|split; [|split]]].
  - intros t Hfind Hstale. unfold processTransactionUpdated. run_m.
    rewrite Hcore, Hfind.
    assert ((tx_updatedAt t >? pd_updatedAt (ev_data event))%Z = true) as ->; [|done].
    rewrite Z.gtb_ltb. apply Z.ltb_lt. lia.
  - intros t Hfind Hfresh. unfold processTransactionUpdated. run_m.
    rewrite Hcore, Hfind.
    assert ((tx_updatedAt t >? pd_updatedAt (ev_data event))%Z = false) as ->.
    { rewrite Z.gtb_ltb. apply Z.ltb_ge. lia. }
    destruct (truthy env (tx_status t)); cbn [negb]; cbv beta iota;
      [|cbn; split; [done | by exists t]].
    unfold updateUserTransaction. run_m.
    destruct (bool_decide (tx_receiverId t = pd_user_id (ev_data event)));
      cbn [negb]; cbv beta iota; [|cbn; split; [done | by exists t]].
    destruct (bool_decide (tx_status t = Some Success)
              && negb (bool_decide (tx_value t = pd_cores (ev_data event))));
      cbv beta iota; [cbn; split; [done | by exists t]|].
    cbn [fst snd rows set_rows]. split.
    + apply (updateRows_status (tx_id t) now).
    + eexists. split.
      * apply find_after_update; [apply matches_set_value_status | done].
      * done.
  - intros Hfind Hdraft Hcode. unfold processTransactionUpdated. run_m.
    rewrite Hcore, Hfind, Hdraft. cbn [bool_decide decide_rel].
    rewrite bool_decide_eq_true_2 by done. unfold truthy.
    rewrite (proj2 (Z.eqb_neq _ _) Hcode). cbn [negb]. cbv beta iota.
    eexists. split; reflexivity.
  - intros Hfind Hready Hcode. unfold processTransactionUpdated. run_m.
    rewrite Hcore, Hfind, Hready.
    rewrite bool_decide_eq_false_2 by done.
    rewrite bool_decide_eq_true_2 by done. unfold truthy.
    rewrite (proj2 (Z.eqb_neq _ _) Hcode). cbn [negb]. cbv beta iota.
    eexists. split; reflexivity.
  - intros Hfind Hnd Hnr. unfold processTransactionUpdated. run_m.
    rewrite Hcore, Hfind.
    rewrite !bool_decide_eq_false_2 by done. done.
Qed.




(** ** Facts about [updateRows] and [insertRow] *)

Lemma passesChecks_true (t : UserTransaction) (data : PaddleTransactionData) :
  passesChecks t data = true <->
  tx_receiverId t = pd_user_id data
  /\ (tx_status t = Some Success -> tx_value t = pd_cores data).
Proof.
  unfold passesChecks. split_decisions; intuition congruence.
Qed.

Lemma passesChecks_false (t : UserTransaction) (data : PaddleTransactionData) :
  passesChecks t data = false ->
  tx_receiverId t <> pd_user_id data
  \/ (tx_receiverId t = pd_user_id data /\ tx_status t = Some Success
      /\ tx_value t <> pd_cores data).
Proof.
  unfold passesChecks. split_decisions; intuition congruence.
Qed.

Lemma updateRows_fresh (i : option nat) (set : UserTransaction -> UserTransaction)
    (rs : list UserTransaction) :
  Forall (fun r => tx_id r <> i) rs -> updateRows i set rs = rs.
Proof.
  induction 1 as [|r rs Hr _ IH]; [done|]. unfold updateRows in *. cbn.
  rewrite bool_decide_eq_false_2 by done. by rewrite IH.
Qed.

Lemma updateRows_snoc (i : option nat) (set : UserTransaction -> UserTransaction)
    (rs : list UserTransaction) (r : UserTransaction) :
  updateRows i set (rs ++ [r])
  = updateRows i set rs ++ [if bool_decide (tx_id r = i) then set r else r].
Proof. unfold updateRows. by rewrite map_app. Qed.

Lemma find_updateRows (pid : string) (set : UserTransaction -> UserTransaction)
    (t : UserTransaction) (rs : list UserTransaction) :
  (forall r, matchesProviderId pid (set r) = matchesProviderId pid r) ->
  find (matchesProviderId pid) rs = Some t ->
  find (matchesProviderId pid) (updateRows (tx_id t) set rs) = Some (set t).
Proof. apply find_after_update. Qed.

Lemma find_insertRow (now : Z) (data : PaddleTransactionData)
    (s : UserTransactionStatus.t) (d : Db) :
  find (matchesProviderId (pd_id data)) d.1 = None ->
  find (matchesProviderId (pd_id data)) (insertRow now data s d).1
  = Some (newRow now data d.2 s).
Proof.
  intros Hfind. unfold insertRow. cbn [fst].
  rewrite (find_snoc_None _ _ _ Hfind).
  unfold matchesProviderId. cbn. by rewrite !bool_decide_eq_true_2.
Qed.

Lemma wfDb_fresh (d : Db) : wfDb d -> Forall (fun r => tx_id r <> Some d.2) d.1.
Proof.
  unfold wfDb. intros Hwf. eapply Forall_impl; [exact Hwf|]. cbn.
  intros r Hr Heq. specialize (Hr _ Heq). lia.
Qed.

Lemma wfDb_insertRow (now : Z) (data : PaddleTransactionData)
    (s : UserTransactionStatus.t) (d : Db) :
  wfDb d -> wfDb (insertRow now data s d).
Proof.
  unfold wfDb, insertRow. cbn [fst snd]. intros Hwf.
  apply Forall_app. split.
  - eapply Forall_impl; [exact Hwf|]. cbn. intros r Hr k Hk.
    specialize (Hr k Hk). lia.
  - apply Forall_singleton. cbn. intros k [= <-]. lia.
Qed.

Lemma wfDb_updateRows (i : option nat) (set : UserTransaction -> UserTransaction)
    (d : Db) :
  (forall r, tx_id (set r) = tx_id r) ->
  wfDb d -> wfDb (updateRows i set d.1, d.2).
Proof.
  unfold wfDb, updateRows. cbn [fst snd]. intros Hid Hwf.
  apply Forall_map. eapply Forall_impl; [exact Hwf|]. cbn. intros r Hr k.
  destruct (bool_decide (tx_id r = i)); [rewrite Hid|]; apply Hr.
Qed.

Lemma dbStep_wf (now : Z) (e : EventEntity) (d : Db) :
  wfDb d -> wfDb (dbStep env now e d).
Proof.
  intros Hwf. unfold dbStep.
  repeat (first [ done | case_match
                | by apply wfDb_insertRow
                | by apply wfDb_updateRows ]).
Qed.

(** ** The router computes [dbStep] *)

Lemma commit_db (w : World) (ut : UserTransaction) (w1 : World) :
  db (snd (commitOrRollback env w (purchaseCores env ut w1)))
  = if purchaseAccepted env (tx_id ut) (tx_receiverId ut) (tx_value ut)
    then db w1 else db w.
Proof.
  unfold purchaseAccepted.
  destruct (tx_id ut) as [txid|] eqn:Hid;
    [|by rewrite purchaseCores_no_id].
  case_bool_decide as Hc; [by rewrite (purchaseCores_open env ut txid)|].
  pose proof (purchaseCores_closed env ut txid w1 Hid Hc) as H. cbv zeta in H.
  destruct (njordTransfer env _) as [res|e];
    [destruct H as [f ->]|rewrite H]; done.
Qed.

Lemma created_db (now : Z) (e : EventEntity) (w : World) :
  eventType e = TransactionCreated ->
  db (snd (processTransactionCreated env now e w)) = dbStep env now e (db w).
Proof.
  intros Hty. unfold processTransactionCreated, dbStep. rewrite Hty. run_m.
  destruct (ev_isCore e); [|done]. cbn [negb db fst snd].
  destruct (find _ (rows w)) as [t|]; done.
Qed.

Lemma ready_db (now : Z) (e : EventEntity) (w : World) :
  eventType e = TransactionReady ->
  db (snd (processTransactionReady env now e w)) = dbStep env now e (db w).
Proof.
  intros Hty. unfold processTransactionReady, dbStep. rewrite Hty. run_m.
  destruct (ev_isCore e); [|done]. cbn [negb db fst snd].
  destruct (find _ (rows w)) as [t|]; [|done].
  unfold includes, passesChecks, updateUserTransaction. cbn [existsb]. run_m.
  split_decisions; first [done | congruence].
Qed.

Lemma paymentFailed_db (now : Z) (e : EventEntity) (w : World) :
  eventType e = TransactionPaymentFailed ->
  db (snd (processTransactionPaymentFailed now e w)) = dbStep env now e (db w).
Proof.
  intros Hty. unfold processTransactionPaymentFailed, dbStep. rewrite Hty. run_m.
  destruct (ev_isCore e); [|done]. cbn [negb db fst snd].
  destruct (find _ (rows w)) as [t|]; [|done].
  destruct (includes _ (tx_status t)); done.
Qed.

Lemma updated_db (now : Z) (e : EventEntity) (w : World) :
  eventType e = TransactionUpdated ->
  db (snd (processTransactionUpdated env now e w)) = dbStep env now e (db w).
Proof.
  intros Hty. unfold processTransactionUpdated, dbStep. rewrite Hty. run_m.
  destruct (ev_isCore e); [|done]. cbn [negb db fst snd].
  destruct (find _ (rows w)) as [t|].
  - destruct (tx_updatedAt t >? pd_updatedAt (ev_data e))%Z; [done|].
    destruct (truthy env (tx_status t)); [|done].
    unfold passesChecks, updateUserTransaction. run_m.
    split_decisions; first [done | congruence].
  - unfold updatedStatus.
    split_decisions; try done; destruct (truthy env _); done.
Qed.

Lemma completed_db (now : Z) (e : EventEntity) (w : World) :
  eventType e = TransactionCompleted ->
  db (snd (processTransactionCompleted env now e w)) = dbStep env now e (db w).
Proof.
  intros Hty. unfold dbStep. rewrite Hty.
  destruct (ev_isCore e) eqn:Hcore;
    [|unfold processTransactionCompleted, isCoreTransaction; by rewrite Hcore].
  cbn [negb db fst snd].
  destruct (find _ (rows w)) as [t|] eqn:Hfind.
  - destruct (passesChecks t (ev_data e)) eqn:Hp.
    + apply passesChecks_true in Hp as [Hrecv Hval].
      rewrite (completed_run_found now e w t Hcore Hfind Hrecv Hval).
      rewrite commit_db.
      cbn [updatedEntity tx_id tx_receiverId tx_value].
      by destruct (purchaseAccepted env _ _ _).
    + apply passesChecks_false in Hp as [Hrecv | (Hrecv & Hst & Hval)].
      * by rewrite (completed_run_receiver now e w t).
      * by rewrite (completed_run_value now e w t).
  - rewrite (completed_run_new now e w Hcore Hfind). cbv zeta.
    rewrite commit_db.
    cbn [createdRow newRow tx_id tx_receiverId tx_value].
    by destruct (purchaseAccepted env _ _ _).
Qed.

(** Whatever a handler returns, the router's own steps leave the table
    alone. *)
Lemma paddle_db (now : Z) (request : option EventEntity) (w : World) :
  db (snd (paddle env now request w)) = deliveryStep env (now, request) (db w).
Proof.
  assert (Hwrap : forall (h : M unit),
    db (snd ((do try_catch h (fun _ => logger LogError "Paddle generic error")
              then ret tt) w)) = db (snd (h w))).
  { intros h. run_m. by destruct (h w) as [[[]|err] w']. }
  unfold paddle. rewrite Hwrap. unfold deliveryStep. cbn [fst snd].
  destruct request as [e|]; [|done].
  destruct (eventType e) eqn:Hty;
    first [ by apply created_db | by apply ready_db | by apply paymentFailed_db
          | by apply updated_db | by apply completed_db
          | (unfold dbStep; rewrite Hty; by destruct (ev_isCore e)) ].
Qed.

Lemma deliver_db (dl : Delivery) (w : World) :
  db (deliver env dl w) = deliveryStep env dl (db w).
Proof. destruct dl as [now request]. apply paddle_db. Qed.

Lemma replay_db (ds : list Delivery) (w : World) :
  db (replay env ds w) = foldl (fun d dl => deliveryStep env dl d) (db w) ds.
Proof.
  revert w. induction ds as [|dl ds IH]; intros w; [done|].
  cbn. unfold replay in IH. rewrite IH. by rewrite deliver_db.
Qed.

Lemma deliveryStep_wf (dl : Delivery) (d : Db) :
  wfDb d -> wfDb (deliveryStep env dl d).
Proof.
  unfold deliveryStep. destruct dl.2; [apply dbStep_wf | done].
Qed.

End PaddleProperties.


(** ** The ledger client behind an open breaker *)

Section NjordProperties.
Variable env : Env.

Lemma getFreshBalance_open (props : GetBalanceProps) (w : World) :
  circuit env = Open ->
  userId (gb_ctx props) <> "" ->
  getFreshBalance env props w = (Throw BrokenCircuitError, w).
Proof.
  intros Hopen Hauth.
  unfold getFreshBalance, createAuthProtectedFn, garmNjordService_execute.
  rewrite (bool_decide_eq_false_2 _ Hauth), Hopen. done.
Qed.

(** C9 (as the code has it). With the breaker open, [getBalance] of an
    authenticated caller never fails and never reaches the ledger: it
    returns the cached balance when there is one and a zero balance
    otherwise.  [transferCores] never returns: it throws, sends nothing to
    the ledger, and what it throws is the breaker's error once the caller
    passed the two access guards. *)
Theorem open_breaker_getBalance_transferCores :
  circuit env = Open ->
  (forall props w, userId (gb_ctx props) <> "" ->
     getBalance env props w
     = (Ok (default {| gb_amount := 0 |}
              (redis w !! generateStorageKey (userId (gb_ctx props)))), w))
  /\ (forall props w, exists e, transferCores env props w = (Throw e, w))
  /\ (forall props w, userId (tp_ctx props) <> "" ->
        negb (isTeamMember (tp_ctx props)) && isProd env = false ->
        transferCores env props w = (Throw BrokenCircuitError, w)).
Proof.
  intros Hopen. split; [|split].
  - intros props w Hauth.
    unfold getBalance, getBalanceRedisKey, createAuthProtectedFn, getRedisObject.
    run_m. rewrite (bool_decide_eq_false_2 _ Hauth). cbv beta iota.
    destruct (redis w !! _) as [cached|]; [done|]. cbv beta iota.
    by rewrite (getFreshBalance_open props w Hopen Hauth).
  - intros props w.
    unfold transferCores, createAuthProtectedFn, garmNjordService_execute.
    rewrite Hopen. case_bool_decide; [by eexists|].
    destruct (negb _ && _); by eexists.
  - intros props w Hauth Hguard.
    unfold transferCores, createAuthProtectedFn, garmNjordService_execute.
    by rewrite (bool_decide_eq_false_2 _ Hauth), Hguard, Hopen.
Qed.
End NjordProperties.

(** ** StoreKit subscription update *)

Section StoreKitProperties.
Import StoreKit.

Lemma with_key_lookup_ne (key k : string) (v : option FlagValue)
    (o : UserSubscriptionFlags) :
  key <> k -> with_key key v o !! k = o !! k.
Proof.
  intros Hne. unfold with_key.
  destruct v; [by rewrite lookup_insert_ne | by rewrite lookup_delete_ne].
Qed.

Lemma with_key_lookup_eq (key : string) (v : option FlagValue)
    (o : UserSubscriptionFlags) :
  with_key key v o !! key = v.
Proof.
  unfold with_key.
  destruct v; [by rewrite lookup_insert_eq | by rewrite lookup_delete_eq].
Qed.

(** C10 (as the code has it). Without data nothing is written.  With status
    Expired the stored flags are replaced by the status and the incoming
    [appAccountToken], so the stored token becomes the incoming one.  In
    every other case an incoming token that is absent or truthy does not
    reach the merge, and the stored token stays as it was.  No other user is
    written. *)
Theorem updateStoreKitUserSubscription_spec (userId : string)
    (status : option UserSubscriptionStatus) (users : Users) :
  updateStoreKitUserSubscription userId None status users = users
  /\ (forall data stored,
        status = Some Expired -> users !! userId = Some stored ->
        let users' := updateStoreKitUserSubscription userId (Some data) status users in
        users' !! userId
        = Some (with_key "appAccountToken" (data !! "appAccountToken")
                  {[ "status" := FStatus Expired ]})
        /\ storedToken userId users' = data !! "appAccountToken")
  /\ (forall data,
        status <> Some Expired ->
        data !! "appAccountToken" = None
        \/ truthyFlag (data !! "appAccountToken") = true ->
        storedToken userId
          (updateStoreKitUserSubscription userId (Some data) status users)
        = storedToken userId users)
  /\ (forall data other,
        other <> userId ->
        updateStoreKitUserSubscription userId data status users !! other
        = users !! other).
Proof.
  split; [done|]. split; [|split].
  - intros data stored -> Hstored users'. subst users'.
    unfold updateStoreKitUserSubscription, user_update, storedToken.
    rewrite bool_decide_eq_true_2 by done.
    rewrite lookup_alter_eq, Hstored. cbn.
    split; [done|]. apply with_key_lookup_eq.
  - intros data Hst Htoken.
    unfold updateStoreKitUserSubscription, user_update, storedToken.
    rewrite (bool_decide_eq_false_2 _ Hst).
    rewrite lookup_alter_eq. destruct (users !! userId) as [stored|]; [|done].
    cbn. apply lookup_union_r.
    rewrite with_key_lookup_ne by done.
    destruct (truthyFlag (data !! "appAccountToken")) eqn:Htruthy.
    + apply lookup_delete_eq.
    + by destruct Htoken.
  - intros data other Hne. unfold updateStoreKitUserSubscription, user_update.
    destruct data as [data|]; [|done]. by rewrite lookup_alter_ne.
Qed.
End StoreKitProperties.

(** * Concrete runs *)

(** The scenarios of the spec, run on the sample environment. *)

Example scenario_created_ready_completed :
  let w :=
    replay (sampleEnv Closed)
      [(10%Z, Some (sampleEvent TransactionCreated 500));
       (20%Z, Some (sampleEvent TransactionReady 500));
       (30%Z, Some completedT1)] emptyWorld in
  map (fun r => (tx_status r, tx_value r)) (rows w)
  = [(Some UserTransactionStatus.Success, 500%Z)]
  /\ ledgerCalls w = [purchaseRequest 1 "u1" 500].
Proof. vm_compute. split; reflexivity. Qed.

Example scenario_declined :
  let w :=
    replay (sampleEnv Closed)
      [(10%Z, Some (sampleEvent TransactionCreated 500));
       (20%Z, Some (sampleEvent TransactionPaymentFailed 500));
       (30%Z, Some (sampleEvent TransactionCreated 500))] emptyWorld in
  map (fun r => (tx_status r, error (tx_flags r))) (rows w)
  = [(Some UserTransactionStatus.ErrorRecoverable, Some "Payment failed: declined")]
  /\ logs w = [(LogError, "Paddle generic error")].
Proof. vm_compute. split; reflexivity. Qed.

Example scenario_completed_500_then_700 :
  let w :=
    replay (sampleEnv Closed)
      [(10%Z, Some completedT1);
       (20%Z, Some (sampleEvent TransactionCompleted 700))] emptyWorld in
  map (fun r => (tx_status r, tx_value r)) (rows w)
  = [(Some UserTransactionStatus.Success, 500%Z)]
  /\ ledgerCalls w = [purchaseRequest 1 "u1" 500]
  /\ logs w = [(LogError, "Paddle generic error")].
Proof. vm_compute. repeat split; reflexivity. Qed.

Example scenario_breaker_open :
  let w := replay (sampleEnv Open) [(30%Z, Some completedT1)]
             (sampleWorld UserTransactionStatus.Processing 500) in
  rows w = rows (sampleWorld UserTransactionStatus.Processing 500)
  /\ ledgerCalls w = [].
Proof. vm_compute. split; reflexivity. Qed.

(** An empty-string [appAccountToken] is falsy: it is not removed from the
    clone and the merge writes it over the stored token. *)
Example empty_token_reaches_merge :
  StoreKit.storedToken "u1"
    (StoreKit.updateStoreKitUserSubscription "u1"
       (Some {[ "appAccountToken" := StoreKit.FString "" ]})
       (Some StoreKit.Active)
       ({[ "u1" := {[ "appAccountToken" := StoreKit.FString "A" ]} ]}
        : StoreKit.Users))
  = Some (StoreKit.FString "").
Proof. vm_compute. reflexivity. Qed.



(** C9, counterexample: with the breaker open and a cached balance of 42,
    [getBalance] returns 42, not a zero balance. *)
Lemma getBalance_open_returns_cached :
  getBalance (sampleEnv Open) {| gb_ctx := u1 |} cachedWorld
  = (Ok {| gb_amount := 42 |}, cachedWorld)
  /\ fst (getBalance (sampleEnv Open) {| gb_ctx := u1 |} cachedWorld)
     <> Ok {| gb_amount := 0 |}.
Proof.
  assert (H : getBalance (sampleEnv Open) {| gb_ctx := u1 |} cachedWorld
              = (Ok {| gb_amount := 42 |}, cachedWorld)).
  { unfold getBalance, getBalanceRedisKey, createAuthProtectedFn, getRedisObject.
    run_m. cbn [gb_ctx u1 userId]. rewrite bool_decide_eq_false_2 by done.
    cbv beta iota. unfold cachedWorld. cbn [redis set_redis emptyWorld].
    by rewrite lookup_insert_eq. }
  rewrite H. split; [done|]. cbn. intros [=].
Qed.

(** C10, counterexample: with status Expired the stored token [A] of the
    user is replaced by the token [B] of the caller's data. *)
Lemma expired_overwrites_stored_token :
  let users : StoreKit.Users :=
    {[ "u1" := {[ "appAccountToken" := StoreKit.FString "A" ]} ]} in
  let data : StoreKit.UserSubscriptionFlags :=
    {[ "appAccountToken" := StoreKit.FString "B" ]} in
  let users' :=
    StoreKit.updateStoreKitUserSubscription "u1" (Some data)
      (Some StoreKit.Expired) users in
  StoreKit.storedToken "u1" users = Some (StoreKit.FString "A")
  /\ StoreKit.storedToken "u1" users' = Some (StoreKit.FString "B")
  /\ StoreKit.storedToken "u1" users' <> StoreKit.storedToken "u1" users.
Proof.
  cbv zeta.
  assert (H1 : StoreKit.storedToken "u1"
                 ({[ "u1" := {[ "appAccountToken" := StoreKit.FString "A" ]} ]}
                  : StoreKit.Users)
               = Some (StoreKit.FString "A")) by (vm_compute; reflexivity).
  assert (H2 : StoreKit.storedToken "u1"
                 (StoreKit.updateStoreKitUserSubscription "u1"
                    (Some {[ "appAccountToken" := StoreKit.FString "B" ]})
                    (Some StoreKit.Expired)
                    ({[ "u1" := {[ "appAccountToken" := StoreKit.FString "A" ]} ]}
                     : StoreKit.Users))
               = Some (StoreKit.FString "B")) by (vm_compute; reflexivity).
  rewrite H1, H2. repeat split; intros [=].
Qed.

(** ** The theorems at concrete inputs *)

Lemma processTransactionCreated_spec_witness :
  isCoreTransaction (sampleEvent TransactionCreated 500) = true
  /\ processTransactionCreated (sampleEnv Closed) 10
       (sampleEvent TransactionCreated 500)
       (sampleWorld UserTransactionStatus.Created 500)
     = (Throw (JsError "Transaction already exists"),
        sampleWorld UserTransactionStatus.Created 500)
  /\ exists w',
       processTransactionCreated (sampleEnv Closed) 10
         (sampleEvent TransactionCreated 500) emptyWorld = (Ok tt, w')
       /\ map tx_status (rows w') = [Some UserTransactionStatus.Created].
Proof.
  split; [reflexivity|]. split.
  - apply (proj1 (processTransactionCreated_spec (sampleEnv Closed) 10
                    (sampleEvent TransactionCreated 500)
                    (sampleWorld UserTransactionStatus.Created 500) eq_refl)
             (sampleRow UserTransactionStatus.Created 500)).
    reflexivity.
  - destruct (proj2 (processTransactionCreated_spec (sampleEnv Closed) 10
                       (sampleEvent TransactionCreated 500) emptyWorld eq_refl)
                eq_refl) as (w' & Hrun & Hrows & _).
    exists w'. split; [exact Hrun|]. rewrite Hrows. reflexivity.
Defined.

Lemma processTransactionReady_spec_witness :
  isCoreTransaction (sampleEvent TransactionReady 700) = true
  /\ (exists w' t',
        processTransactionReady (sampleEnv Closed) 10
          (sampleEvent TransactionReady 700) emptyWorld = (Ok tt, w')
        /\ rows w' = [t']
        /\ tx_id t' = Some 1%nat
        /\ tx_status t' = Some UserTransactionStatus.Processing
        /\ tx_value t' = 700%Z)
  /\ (exists w' t',
        processTransactionReady (sampleEnv Closed) 10
          (sampleEvent TransactionReady 700)
          (sampleWorld UserTransactionStatus.Created 500) = (Ok tt, w')
        /\ find (matchesProviderId "txn_T1") (rows w') = Some t'
        /\ tx_status t' = Some UserTransactionStatus.Processing
        /\ tx_value t' = 700%Z
        /\ tx_updatedAt t' = 10%Z)
  /\ processTransactionReady (sampleEnv Closed) 10
       (sampleEvent TransactionReady 500)
       (sampleWorld UserTransactionStatus.Success 500)
     = (Ok tt,
        add_log (LogWarn, "Transaction with invalid status")
          (sampleWorld UserTransactionStatus.Success 500)).
Proof.
  split; [reflexivity|]. split; [|split].
  - destruct (proj1 (processTransactionReady_spec (sampleEnv Closed) 10
                       (sampleEvent TransactionReady 700) emptyWorld eq_refl)
                eq_refl)
      as (w' & t' & Hrun & Hrows & _ & Hid & Hst & Hval & _).
    exists w', t'. repeat split; assumption.
  - destruct (proj1 (proj2 (processTransactionReady_spec (sampleEnv Closed) 10
                              (sampleEvent TransactionReady 700)
                              (sampleWorld UserTransactionStatus.Created 500)
                              eq_refl))
                (sampleRow UserTransactionStatus.Created 500)
                eq_refl eq_refl eq_refl)
      as (w' & t' & Hrun & Hfind & Hst & Hval & Hupd & _).
    exists w', t'. repeat split; assumption.
  - apply (proj1 (proj2 (proj2 (processTransactionReady_spec (sampleEnv Closed) 10
                                  (sampleEvent TransactionReady 500)
                                  (sampleWorld UserTransactionStatus.Success 500)
                                  eq_refl)))
             (sampleRow UserTransactionStatus.Success 500)).
    + reflexivity.
    + discriminate.
Defined.

Lemma processTransactionPaymentFailed_spec_witness :
  isCoreTransaction (sampleEvent TransactionPaymentFailed 500) = true
  /\ exists w' t',
       processTransactionPaymentFailed 10 (sampleEvent TransactionPaymentFailed 500)
         (sampleWorld UserTransactionStatus.Processing 500) = (Ok tt, w')
       /\ find (matchesProviderId "txn_T1") (rows w') = Some t'
       /\ tx_status t' = Some UserTransactionStatus.ErrorRecoverable.
Proof.
  split; [reflexivity|].
  destruct (proj1 (processTransactionPaymentFailed_spec 10
                     (sampleEvent TransactionPaymentFailed 500)
                     (sampleWorld UserTransactionStatus.Processing 500)
                     (sampleRow UserTransactionStatus.Processing 500)
                     eq_refl eq_refl) (or_intror eq_refl))
    as (w' & t' & Hrun & Hfind & Hst & _).
  exists w', t'. split; [exact Hrun|]. split; [exact Hfind | exact Hst].
Defined.

Lemma processTransactionUpdated_spec_witness :
  isCoreTransaction (sampleEvent TransactionUpdated 700) = true
  /\ map tx_status
       (rows (snd (processTransactionUpdated (sampleEnv Closed) 10
                     (sampleEvent TransactionUpdated 700)
                     (sampleWorld UserTransactionStatus.Processing 500))))
     = [Some UserTransactionStatus.Processing]
  /\ exists w',
       processTransactionUpdated (sampleEnv Closed) 10
         (sampleEvent TransactionUpdated 700) emptyWorld = (Ok tt, w')
       /\ map tx_status (rows w') = [Some UserTransactionStatus.Created].
Proof.
  split; [reflexivity|]. split.
  - apply (proj1 (proj1 (proj2 (processTransactionUpdated_spec (sampleEnv Closed) 10
                     (sampleEvent TransactionUpdated 700)
                     (sampleWorld UserTransactionStatus.Processing 500) eq_refl))
             (sampleRow UserTransactionStatus.Processing 500) eq_refl
             ltac:(cbn; lia))).
  - destruct (proj1 (proj2 (proj2 (processTransactionUpdated_spec (sampleEnv Closed)
                     10 (sampleEvent TransactionUpdated 700) emptyWorld eq_refl)))
                eq_refl eq_refl ltac:(cbn; lia)) as (w' & Hrun & Hrows).
    exists w'. split; [exact Hrun|]. rewrite Hrows. reflexivity.
Defined.

Lemma completed_value_changed_is_fatal_witness :
  isCoreTransaction (sampleEvent TransactionCompleted 700) = true
  /\ tx_value (sampleRow UserTransactionStatus.Success 500) <> 700%Z
  /\ processTransactionCompleted (sampleEnv Closed) 10
       (sampleEvent TransactionCompleted 700)
       (sampleWorld UserTransactionStatus.Success 500)
     = (Throw (JsError "Transaction value changed after success"),
        sampleWorld UserTransactionStatus.Success 500).
Proof.
  split; [reflexivity|]. split; [cbn; lia|].
  apply (proj1 (proj2 (completed_value_changed_is_fatal (sampleEnv Closed) 10
                         (sampleEvent TransactionCompleted 700)
                         (sampleWorld UserTransactionStatus.Success 500)
                         (sampleRow UserTransactionStatus.Success 500)
                         eq_refl eq_refl eq_refl ltac:(cbn; lia)))).
  reflexivity.
Defined.



Lemma open_breaker_getBalance_transferCores_witness :
  circuit (sampleEnv Open) = Open
  /\ getBalance (sampleEnv Open) {| gb_ctx := u1 |} emptyWorld
     = (Ok {| gb_amount := 0 |}, emptyWorld)
  /\ transferCores (sampleEnv Open)
       {| tp_ctx := u1; tp_transaction := sampleRow UserTransactionStatus.Created 500 |}
       emptyWorld
     = (Throw BrokenCircuitError, emptyWorld).
Proof.
  split; [reflexivity|].
  pose proof (open_breaker_getBalance_transferCores (sampleEnv Open) eq_refl)
    as (Hget & _ & Htransfer).
  split.
  - apply (Hget {| gb_ctx := u1 |} emptyWorld). discriminate.
  - apply (Htransfer
             {| tp_ctx := u1;
                tp_transaction := sampleRow UserTransactionStatus.Created 500 |}
             emptyWorld); [discriminate | reflexivity].
Defined.

Lemma updateStoreKitUserSubscription_spec_witness :
  let users : StoreKit.Users :=
    {[ "u1" := {[ "appAccountToken" := StoreKit.FString "A" ]} ]} in
  let data : StoreKit.UserSubscriptionFlags :=
    {[ "appAccountToken" := StoreKit.FString "B";
       "cycle" := StoreKit.FString "yearly" ]} in
  StoreKit.storedToken "u1"
    (StoreKit.updateStoreKitUserSubscription "u1" (Some data)
       (Some StoreKit.Active) users)
  = StoreKit.storedToken "u1" users.
Proof.
  cbv zeta.
  apply (proj1 (proj2 (proj2 (updateStoreKitUserSubscription_spec "u1"
                                (Some StoreKit.Active) _)))).
  - discriminate.
  - right. vm_compute. reflexivity.
Defined.

(** * Further properties of the ledger client *)

Lemma generateStorageKey_inj (a b : string) :
  generateStorageKey a = generateStorageKey b -> a = b.
Proof. unfold generateStorageKey. intros H. by simplify_eq/=. Qed.

Section NjordCache.
Variable env : Env.

(** What [getBalance] does on a cache miss once the breaker lets the call
    through. *)
Lemma getBalance_miss (props : GetBalanceProps) (w : World) :
  userId (gb_ctx props) <> "" ->
  redis w !! generateStorageKey (userId (gb_ctx props)) = None ->
  circuit env <> Open ->
  getBalance env props w
  = match njordGetBalance env (userId (gb_ctx props)) with
    | BalanceIs a =>
        (Ok {| gb_amount := a |},
         set_redis (fun m => <[generateStorageKey (userId (gb_ctx props))
                               := {| gb_amount := a |}]> m) w)
    | BalanceAccountNotFound =>
        (Ok {| gb_amount := 0 |},
         set_redis (fun m => <[generateStorageKey (userId (gb_ctx props))
                               := {| gb_amount := 0 |}]> m) w)
    | BalanceRpcError raw => (Throw (ConnectError raw), w)
    end.
Proof.
  intros Hauth Hmiss Hc.
  unfold getBalance, getFreshBalance, updateBalanceCache, getBalanceRedisKey,
    createAuthProtectedFn, getRedisObject, setRedisObjectWithExpiry,
    garmNjordService_execute, njordClient_getBalance.
  run_m. cbn [gb_ctx ub_ctx ub_value].
  rewrite (bool_decide_eq_false_2 _ Hauth). cbv beta iota. rewrite Hmiss.
  cbv beta iota.
  destruct (circuit env); [|
    |done]; destruct (njordGetBalance env _); done.
Qed.

Lemma getBalance_hit (props : GetBalanceProps) (w : World) (v : GetBalanceResult) :
  userId (gb_ctx props) <> "" ->
  redis w !! generateStorageKey (userId (gb_ctx props)) = Some v ->
  getBalance env props w = (Ok v, w).
Proof.
  intros Hauth Hhit.
  unfold getBalance, getBalanceRedisKey, createAuthProtectedFn, getRedisObject.
  run_m. rewrite (bool_decide_eq_false_2 _ Hauth). cbv beta iota.
  by rewrite Hhit.
Qed.

Lemma updateBalanceCache_auth (ctx : AuthContext) (v : GetBalanceResult) (w : World) :
  userId ctx <> "" ->
  updateBalanceCache {| ub_ctx := ctx; ub_value := v |} w
  = (Ok tt, set_redis (fun m => <[generateStorageKey (userId ctx) := v]> m) w).
Proof.
  intros Hauth.
  unfold updateBalanceCache, getBalanceRedisKey, createAuthProtectedFn,
    setRedisObjectWithExpiry.
  run_m. cbn [gb_ctx ub_ctx ub_value].
  by rewrite (bool_decide_eq_false_2 _ Hauth).
Qed.


(** X1. Every function of the ledger client that is wrapped by
    [createAuthProtectedFn] rejects a context without user id with
    [ForbiddenError('Auth is required')] before doing anything: nothing is
    read from or written to the cache and nothing is sent to the ledger. *)
Theorem unauthenticated_caller_is_rejected (ctx : AuthContext) (w : World) :
  userId ctx = "" ->
  (forall t,
     transferCores env {| tp_ctx := ctx; tp_transaction := t |} w
     = (Throw (ForbiddenError "Auth is required"), w))
  /\ getBalance env {| gb_ctx := ctx |} w
     = (Throw (ForbiddenError "Auth is required"), w)
  /\ getFreshBalance env {| gb_ctx := ctx |} w
     = (Throw (ForbiddenError "Auth is required"), w)
  /\ (forall v,
        updateBalanceCache {| ub_ctx := ctx; ub_value := v |} w
        = (Throw (ForbiddenError "Auth is required"), w))
  /\ expireBalanceCache {| gb_ctx := ctx |} w
     = (Throw (ForbiddenError "Auth is required"), w).
Proof.
  intros Hanon.
  unfold transferCores, getBalance, getFreshBalance, updateBalanceCache,
    expireBalanceCache, createAuthProtectedFn. cbn [tp_ctx gb_ctx ub_ctx].
  rewrite (bool_decide_eq_true_2 _ Hanon). done.
Qed.

(** X2. Write-through cache round trip: after [updateBalanceCache] stores a
    balance for an authenticated user, [getBalance] of that user returns it
    without reaching the ledger, whatever the state of the ledger and of
    the breaker; the cache entries of other users are as before.  The
    expiry of the entry is outside the model: this is the read that comes
    before it. *)
Theorem updateBalanceCache_then_getBalance (ctx : AuthContext)
    (v : GetBalanceResult) (w : World) :
  userId ctx <> "" ->
  let w1 := snd (updateBalanceCache {| ub_ctx := ctx; ub_value := v |} w) in
  getBalance env {| gb_ctx := ctx |} w1 = (Ok v, w1)
  /\ (forall other, other <> userId ctx ->
        redis w1 !! generateStorageKey other = redis w !! generateStorageKey other)
  /\ rows w1 = rows w /\ ledgerCalls w1 = ledgerCalls w.
Proof.
  intros Hauth w1. subst w1. rewrite (updateBalanceCache_auth ctx v w Hauth).
  cbn [snd]. split; [|split; [|done]].
  - apply getBalance_hit; [done|]. cbn. apply lookup_insert_eq.
  - intros other Hne. cbn. apply lookup_insert_ne.
    intros Heq. apply Hne. symmetry. by apply generateStorageKey_inj.
Qed.


(** X4. On a cache miss, an error of the ledger that is not the breaker's
    is rethrown by [getBalance]: only [BrokenCircuitError] degrades to a zero
    balance.  Nothing is cached. *)
Theorem getBalance_rethrows_ledger_error (props : GetBalanceProps) (w : World)
    (raw : string) :
  userId (gb_ctx props) <> "" ->
  redis w !! generateStorageKey (userId (gb_ctx props)) = None ->
  circuit env <> Open ->
  njordGetBalance env (userId (gb_ctx props)) = BalanceRpcError raw ->
  getBalance env props w = (Throw (ConnectError raw), w).
Proof.
  intros Hauth Hmiss Hc Hreply.
  rewrite (getBalance_miss props w Hauth Hmiss Hc). by rewrite Hreply.
Qed.

End NjordCache.

Section NjordTransfer.
Variable env : Env.

Lemma settleBalanceUpdate_frame (b : option BalanceChange) (w : World) :
  rows (snd (settleBalanceUpdate b w)) = rows w
  /\ nextId (snd (settleBalanceUpdate b w)) = nextId w
  /\ ledgerCalls (snd (settleBalanceUpdate b w)) = ledgerCalls w.
Proof. by destruct (settleBalanceUpdate_run b w) as [f ->]. Qed.

(** [transferCores] once the access guards and the breaker are passed and
    the transaction has an id and a sender. *)
Lemma transferCores_run (props : TransferProps) (w : World) (txid : nat)
    (senderId : string) :
  userId (tp_ctx props) <> "" ->
  negb (isTeamMember (tp_ctx props)) && isProd env = false ->
  circuit env <> Open ->
  tx_id (tp_transaction props) = Some txid ->
  tx_senderId (tp_transaction props) = Some senderId ->
  senderId <> "" ->
  let req := {| idempotencyKey := txid; sender := Some senderId;
                receiver := tx_receiverId (tp_transaction props);
                amount := tx_value (tp_transaction props) |} in
  transferCores env props w
  = match njordTransfer env req with
    | Ok res =>
        (Ok res,
         snd (settleBalanceUpdate (receiverBalance res)
                (snd (settleBalanceUpdate (senderBalance res)
                        (add_ledgerCall req w)))))
    | Throw e => (Throw e, add_ledgerCall req w)
    end.
Proof.
  intros Hauth Hguard Hc Hid Hsender Hne req.
  unfold transferCores, createAuthProtectedFn, garmNjordService_execute.
  rewrite (bool_decide_eq_false_2 _ Hauth), Hguard, Hid, Hsender.
  cbv beta iota zeta.
  transitivity
    ((let* result := njordClient_transfer env req in
      do settleBalanceUpdate (senderBalance result) then
      do settleBalanceUpdate (receiverBalance result) then
      ret result) w).
  { destruct (circuit env); [| |done]; by destruct senderId. }
  unfold bind at 1. unfold njordClient_transfer.
  destruct (njordTransfer env req) as [res|e]; [|done].
  unfold bind, ret.
  destruct (settleBalanceUpdate_run (senderBalance res) (add_ledgerCall req w))
    as [f1 H1]. rewrite H1. cbn [snd].
  destruct (settleBalanceUpdate_run (receiverBalance res)
              (set_redis f1 (add_ledgerCall req w))) as [f2 H2].
  by rewrite H2.
Qed.

(** X6. A transfer that passes the guards, for a value that the int64
    amount of the request carries, sends exactly one request to the ledger,
    with the id of the transaction as idempotency key and its sender,
    receiver and value.  When the ledger accepts, its answer is returned;
    when it fails, its error is propagated and nothing but the trace of
    ledger calls has changed.  The transaction table is never written. *)
Theorem transferCores_sends_one_request (props : TransferProps) (w : World)
    (txid : nat) (senderId : string) :
  userId (tp_ctx props) <> "" ->
  negb (isTeamMember (tp_ctx props)) && isProd env = false ->
  circuit env <> Open ->
  tx_id (tp_transaction props) = Some txid ->
  tx_senderId (tp_transaction props) = Some senderId ->
  senderId <> "" ->
  fitsInt64 (tx_value (tp_transaction props)) ->
  let req := {| idempotencyKey := txid; sender := Some senderId;
                receiver := tx_receiverId (tp_transaction props);
                amount := tx_value (tp_transaction props) |} in
  let out := transferCores env props w in
  ledgerCalls (snd out) = ledgerCalls w ++ [req]
  /\ rows (snd out) = rows w /\ nextId (snd out) = nextId w
  /\ logs (snd out) = logs w
  /\ (forall e, njordTransfer env req = Throw e ->
        out = (Throw e, add_ledgerCall req w))
  /\ (forall res, njordTransfer env req = Ok res -> fst out = Ok res).
Proof.
  intros Hauth Hguard Hc Hid Hsender Hne _ req out. subst out.
  rewrite (transferCores_run props w txid senderId Hauth Hguard Hc Hid Hsender Hne).
  fold req.
  destruct (njordTransfer env req) as [res|e] eqn:Hres.
  - cbn [snd fst].
    destruct (settleBalanceUpdate_run (senderBalance res) (add_ledgerCall req w))
      as [f1 H1]. rewrite H1. cbn [snd].
    destruct (settleBalanceUpdate_run (receiverBalance res)
                (set_redis f1 (add_ledgerCall req w))) as [f2 H2].
    rewrite H2. cbn. repeat split; done.
  - cbn. repeat split; try done. by intros e' [= <-].
Qed.

(** X7. [transferCores] refuses a transfer it cannot key or attribute: for a
    caller outside the team in production, for a transaction without id
    and for a transaction without sender it throws, and in each case
    nothing is sent to the ledger and the world is as before. *)
Theorem transferCores_rejects_without_sending (props : TransferProps) (w : World) :
  userId (tp_ctx props) <> "" ->
  (negb (isTeamMember (tp_ctx props)) && isProd env = true ->
   transferCores env props w
   = (Throw (ForbiddenError "Not allowed for you yet"), w))
  /\ (negb (isTeamMember (tp_ctx props)) && isProd env = false ->
      circuit env <> Open ->
      (tx_id (tp_transaction props) = None ->
       transferCores env props w = (Throw (JsError "No transaction id"), w))
      /\ (tx_id (tp_transaction props) <> None ->
          tx_senderId (tp_transaction props) = None
          \/ tx_senderId (tp_transaction props) = Some "" ->
          transferCores env props w = (Throw (JsError "No sender id"), w))).
Proof.
  intros Hauth.
  unfold transferCores, createAuthProtectedFn, garmNjordService_execute.
  rewrite (bool_decide_eq_false_2 _ Hauth).
  split; [by intros ->|].
  intros -> Hc. split.
  - intros ->. by destruct (circuit env).
  - intros Hid Hsender. destruct (tx_id (tp_transaction props)); [|done].
    destruct Hsender as [-> | ->]; by destruct (circuit env).
Qed.
End NjordTransfer.

(** * Further properties of the webhook route *)

Section PaddleRouter.
Variable env : Env.
Import UserTransactionStatus.

(** [keepsLedger m]: the computation sends nothing to the ledger. *)
Lemma keepsLedger_bind {A B} (m : M A) (k : A -> M B) :
  (forall w, ledgerCalls (snd (m w)) = ledgerCalls w) ->
  (forall a w, ledgerCalls (snd (k a w)) = ledgerCalls w) ->
  forall w, ledgerCalls (snd ((let* x := m in k x) w)) = ledgerCalls w.
Proof.
  intros Hm Hk w. unfold bind. specialize (Hm w).
  destruct (m w) as [[a|err] w']; cbn in *; [by rewrite Hk | done].
Qed.

Lemma keepsLedger_updateUserTransaction (now : Z) (t : option UserTransaction)
    (s : option UserTransactionStatus.t) (data : PaddleTransactionData) (w : World) :
  ledgerCalls (snd (updateUserTransaction env now t s data w)) = ledgerCalls w.
Proof.
  unfold updateUserTransaction. cbv zeta. apply keepsLedger_bind.
  - intros w0. destruct t as [t|]; [|done]. split_decisions; done.
  - intros _ w0. by destruct t.
Qed.

Ltac keeps_ledger :=
  cbv zeta;
  repeat first
    [ done
    | apply keepsLedger_updateUserTransaction
    | apply keepsLedger_bind; [intros ?|intros ? ?]
    | case_match ].

(** The handlers other than [processTransactionCompleted] never reach the
    ledger. *)
Lemma handlers_ledgerCalls (now : Z) (e : EventEntity) (w : World) :
  ledgerCalls (snd (processTransactionCreated env now e w)) = ledgerCalls w
  /\ ledgerCalls (snd (processTransactionReady env now e w)) = ledgerCalls w
  /\ ledgerCalls (snd (processTransactionPaymentFailed now e w)) = ledgerCalls w
  /\ ledgerCalls (snd (processTransactionUpdated env now e w)) = ledgerCalls w.
Proof.
  unfold processTransactionCreated, processTransactionReady,
    processTransactionPaymentFailed, processTransactionUpdated,
    checkTransactionStatusValid.
  repeat split; revert w; keeps_ledger.
Qed.

Lemma purchaseCores_ledgerCalls (t : UserTransaction) (w : World) :
  ledgerCalls (snd (purchaseCores env t w)) = ledgerCalls w
  \/ exists txid,
       tx_id t = Some txid
       /\ ledgerCalls (snd (purchaseCores env t w))
          = ledgerCalls w ++ [purchaseRequest txid (tx_receiverId t) (tx_value t)].
Proof.
  destruct (tx_id t) as [txid|] eqn:Hid;
    [|left; by rewrite purchaseCores_no_id].
  destruct (decide (circuit env = Open)) as [Hc|Hc];
    [left; by rewrite (purchaseCores_open env t txid)|].
  right. exists txid. split; [done|].
  pose proof (purchaseCores_closed env t txid w Hid Hc) as H. cbv zeta in H.
  destruct (njordTransfer env _) as [res|e];
    [destruct H as [f ->]|rewrite H]; done.
Qed.

(** X9. Only a Completed event of a core transaction reaches the ledger, and
    it sends at most one transfer: the receiver is the user of the event,
    the amount its cores, and there is no sender.  Every other delivery
    leaves the trace of ledger calls as it was. *)
Theorem only_completed_reaches_ledger (dl : Delivery) (w : World) :
  ledgerCalls (deliver env dl w) = ledgerCalls w
  \/ exists e req,
       dl.2 = Some e
       /\ eventType e = TransactionCompleted
       /\ isCoreTransaction e = true
       /\ ledgerCalls (deliver env dl w) = ledgerCalls w ++ [req]
       /\ sender req = None
       /\ amount req = pd_cores (getPaddleTransactionData e).
Proof.
  destruct dl as [now request]. unfold deliver. cbn [fst snd].
  assert (Hwrap : forall (h : M unit),
    ledgerCalls (snd ((do try_catch h (fun _ => logger LogError "Paddle generic error")
                       then ret tt) w)) = ledgerCalls (snd (h w))).
  { intros h. run_m. by destruct (h w) as [[[]|err] w']. }
  unfold paddle. rewrite Hwrap. clear Hwrap.
  destruct request as [e|]; [|by left].
  pose proof (handlers_ledgerCalls now e w) as (Hc & Hr & Hp & Hu).
  destruct (eventType e) eqn:Hty; try (by left).
  unfold isCoreTransaction, getPaddleTransactionData.
  destruct (ev_isCore e) eqn:Hcore;
    [|left; unfold processTransactionCompleted, isCoreTransaction;
      by rewrite Hcore].
  assert (Hcalls : forall ut w1,
    tx_value ut = pd_cores (ev_data e) ->
    ledgerCalls w1 = ledgerCalls w ->
    ledgerCalls (snd (commitOrRollback env w (purchaseCores env ut w1)))
    = ledgerCalls w
    \/ exists req,
         ledgerCalls (snd (commitOrRollback env w (purchaseCores env ut w1)))
         = ledgerCalls w ++ [req]
         /\ sender req = None /\ amount req = pd_cores (ev_data e)).
  { intros ut w1 Hval Hw1. rewrite commitOrRollback_ledgerCalls.
    destruct (purchaseCores_ledgerCalls ut w1) as [-> | (txid & _ & ->)];
      [by left|].
    right. eexists. rewrite Hw1. split; [reflexivity|]. by cbn. }
  destruct (find (matchesProviderId (pd_id (ev_data e))) (rows w))
    as [t|] eqn:Hfind.
  - destruct (completed_cases env now e w t Hcore Hfind)
      as [[msg ->] | (_ & _ & ->)]; [by left|].
    destruct (Hcalls (updatedEntity env t (pd_cores (ev_data e)) (Some Success))
                (set_rows
                   (updateRows (tx_id t)
                      (set_value_status now (pd_cores (ev_data e)) (Some Success)))
                   w) eq_refl eq_refl) as [H | (req & H & Hs & Ha)];
      [by left | right; by exists e, req].
  - rewrite (completed_run_new env now e w Hcore Hfind). cbv zeta.
    destruct (Hcalls (createdRow now (ev_data e) w Success)
                (set_nextId (S (nextId w))
                   (set_rows
                      (fun rs => rs ++ [createdRow now (ev_data e) w Success])
                      w)) eq_refl eq_refl) as [H | (req & H & Hs & Ha)];
      [by left | right; by exists e, req].
Qed.

(** X10. A PaymentFailed event for a provider transaction id without record
    throws 'Transaction not found' and changes nothing; the route logs the
    error and leaves the table, the cache and the ledger trace as they
    were. *)
Theorem paymentFailed_without_record (now : Z) (e : EventEntity) (w : World) :
  isCoreTransaction e = true ->
  find (matchesProviderId (pd_id (getPaddleTransactionData e))) (rows w) = None ->
  processTransactionPaymentFailed now e w
  = (Throw (JsError "Transaction not found"), w)
  /\ (eventType e = TransactionPaymentFailed ->
      deliver env (now, Some e) w = add_log (LogError, "Paddle generic error") w).
Proof.
  unfold isCoreTransaction, getPaddleTransactionData. intros Hcore Hfind.
  assert (H : processTransactionPaymentFailed now e w
              = (Throw (JsError "Transaction not found"), w)).
  { unfold processTransactionPaymentFailed. run_m. by rewrite Hcore, Hfind. }
  split; [done|]. intros Hty. unfold deliver, paddle. cbn [fst snd].
  rewrite Hty. run_m. by rewrite H.
Qed.

(** X11. A request without signature is only logged, and an event of a
    transaction that is not a core purchase is dropped by the Created,
    Ready, PaymentFailed and Updated handlers: the world is left as it
    was. *)
Theorem ignored_requests (now : Z) (w : World) :
  deliver env (now, None) w = add_log (LogError, "Signature missing in header") w
  /\ (forall e, isCoreTransaction e = false ->
        eventType e = TransactionCreated \/ eventType e = TransactionReady
        \/ eventType e = TransactionPaymentFailed
        \/ eventType e = TransactionUpdated ->
        deliver env (now, Some e) w = w).
Proof.
  split; [done|]. unfold isCoreTransaction. intros e Hcore Hty.
  unfold deliver, paddle, processTransactionCreated, processTransactionReady,
    processTransactionPaymentFailed, processTransactionUpdated.
  cbn [fst snd]. run_m. rewrite Hcore.
  destruct Hty as [-> | [-> | [-> | ->]]]; done.
Qed.
End PaddleRouter.

(** * Invariants of the UserTransaction table *)

Lemma find_elem_of {A} (P : A -> bool) (l : list A) (x : A) :
  find P l = Some x -> x ∈ l /\ P x = true.
Proof.
  induction l as [|a l IH]; cbn; [done|].
  destruct (P a) eqn:Ha.
  - intros [= <-]. split; [left | done].
  - intros H. destruct (IH H). split; [by right | done].
Qed.

Lemma matchesProviderId_key (pid : string) (r : UserTransaction) :
  matchesProviderId pid r = true <-> providerKey r = Some pid.
Proof.
  unfold matchesProviderId, providerKey.
  destruct (bool_decide_reflect (tx_processor r = UserTransactionProcessor.Paddle));
    cbn; [|done].
  by rewrite bool_decide_eq_true.
Qed.

Lemma find_None_key (pid : string) (rs : list UserTransaction) :
  find (matchesProviderId pid) rs = None -> pid ∉ omap providerKey rs.
Proof.
  induction rs as [|r rs IH]; cbn; [intros _; apply not_elem_of_nil|].
  destruct (matchesProviderId pid r) eqn:Hm; [done|]. intros Hfind.
  destruct (providerKey r) as [k|] eqn:Hk; [|by apply IH].
  apply not_elem_of_cons. split; [|by apply IH].
  intros ->. apply matchesProviderId_key in Hk. congruence.
Qed.

Lemma elem_of_map_2 {A B} (f : A -> B) (l : list A) (x : A) :
  x ∈ l -> f x ∈ map f l.
Proof.
  induction l as [|a l IH]; cbn; [by intros ?%elem_of_nil|].
  intros [-> | Hx]%elem_of_cons; [left | right; by apply IH].
Qed.

Lemma NoDup_fmap_elem_inj {A B} (f : A -> B) (l : list A) (x y : A) :
  NoDup (map f l) -> x ∈ l -> y ∈ l -> f x = f y -> x = y.
Proof.
  induction l as [|a l IH]; cbn; [by intros _ ?%elem_of_nil|].
  intros [Ha Hl]%NoDup_cons [-> | Hx]%elem_of_cons [-> | Hy]%elem_of_cons Heq.
  - done.
  - exfalso. apply Ha. rewrite Heq. by apply (elem_of_map_2 f).
  - exfalso. apply Ha. rewrite <- Heq. by apply (elem_of_map_2 f).
  - by apply IH.
Qed.

Section SetColumns.
Variable i : option nat.
Variable set : UserTransaction -> UserTransaction.
Hypothesis set_identity : forall r, identityOf (set r) = identityOf r.

Lemma set_tx_id (r : UserTransaction) : tx_id (set r) = tx_id r.
Proof. pose proof (set_identity r) as H. unfold identityOf in H. by simplify_eq. Qed.

Lemma set_providerKey (r : UserTransaction) : providerKey (set r) = providerKey r.
Proof.
  pose proof (set_identity r) as H. unfold identityOf in H.
  injection H as _ Hproc _ Hkey _ _ _ _.
  unfold providerKey. by rewrite Hproc, Hkey.
Qed.

Lemma updateRows_identity (rs : list UserTransaction) :
  map identityOf (updateRows i set rs) = map identityOf rs.
Proof.
  unfold updateRows. rewrite map_map. apply map_ext. intros r.
  by destruct (bool_decide (tx_id r = i)).
Qed.

Lemma updateRows_ids (rs : list UserTransaction) :
  map tx_id (updateRows i set rs) = map tx_id rs.
Proof.
  unfold updateRows. rewrite map_map. apply map_ext. intros r.
  destruct (bool_decide (tx_id r = i)); [apply set_tx_id | done].
Qed.

Lemma updateRows_keys (rs : list UserTransaction) :
  omap providerKey (updateRows i set rs) = omap providerKey rs.
Proof.
  unfold updateRows. induction rs as [|r rs IH]; [done|]. cbn.
  assert (providerKey (if bool_decide (tx_id r = i) then set r else r)
          = providerKey r) as ->.
  { destruct (bool_decide (tx_id r = i)); [apply set_providerKey | done]. }
  by rewrite IH.
Qed.
End SetColumns.

Lemma identity_set_value_status (now v : Z)
    (s : option UserTransactionStatus.t) (r : UserTransaction) :
  identityOf (set_value_status now v s r) = identityOf r.
Proof. done. Qed.

Lemma identity_set_status_error (now : Z) (s : UserTransactionStatus.t)
    (msg : string) (r : UserTransaction) :
  identityOf (set_status_error now s msg r) = identityOf r.
Proof. done. Qed.

(** Writing the value and the status that a record has already changes its
    update date only. *)
Lemma set_value_status_same (now v : Z) (s : option UserTransactionStatus.t)
    (r : UserTransaction) :
  tx_value r = v -> (s = None \/ s = tx_status r) ->
  sameRecord (set_value_status now v s r) r.
Proof.
  destruct r. cbn. intros <- [-> | ->]; [done|].
  unfold sameRecord, set_value_status. cbn. by destruct tx_status0.
Qed.

(** The rows after [repository_update] on the id of a row [t], when ids are
    unique: [t] alone is rewritten. *)
Lemma sumValues_updateRows (p : UserTransaction -> bool)
    (set : UserTransaction -> UserTransaction) (t : UserTransaction)
    (rs : list UserTransaction) :
  NoDup (map tx_id rs) -> t ∈ rs ->
  (sumValues p (updateRows (tx_id t) set rs)
   = sumValues p rs
     - (if p t then tx_value t else 0)
     + (if p (set t) then tx_value (set t) else 0))%Z.
Proof.
  induction rs as [|r rs IH]; [by intros _ ?%elem_of_nil|].
  intros Hnd Ht. pose proof Hnd as [Hr Hrs]%NoDup_cons.
  unfold updateRows in *. cbn [map sumValues foldr].
  destruct (bool_decide_reflect (tx_id r = tx_id t)) as [Hid|Hid].
  - assert (r = t) as ->.
    { apply (NoDup_fmap_elem_inj tx_id (r :: rs)); [done|left|done|done]. }
    assert (map (fun r => if bool_decide (tx_id r = tx_id t) then set r else r) rs
            = rs) as ->.
    { apply (updateRows_fresh (tx_id t) set). apply Forall_forall.
      intros x Hx Heq. apply Hr. rewrite <- Heq.
      by apply (elem_of_map_2 tx_id). }
    fold (sumValues p rs). destruct (p t), (p (set t)); lia.
  - apply elem_of_cons in Ht as [-> | Ht]; [done|].
    fold (sumValues p rs). specialize (IH Hrs Ht).
    fold (sumValues p
            (map (fun r => if bool_decide (tx_id r = tx_id t) then set r else r) rs)).
    rewrite IH. destruct (p r); lia.
Qed.

Lemma sumValues_snoc (p : UserTransaction -> bool) (rs : list UserTransaction)
    (r : UserTransaction) :
  sumValues p (rs ++ [r])
  = (sumValues p rs + (if p r then tx_value r else 0))%Z.
Proof.
  induction rs as [|a rs IH]; cbn.
  - destruct (p r); lia.
  - fold (sumValues p (rs ++ [r])). fold (sumValues p rs). rewrite IH.
    destruct (p a); lia.
Qed.

(** A row of the table is still there after an update, rewritten if it is
    the row of the updated id. *)
Lemma updateRows_keeps_elem (set : UserTransaction -> UserTransaction)
    (t r : UserTransaction) (rs : list UserTransaction) :
  NoDup (map tx_id rs) -> t ∈ rs -> r ∈ rs ->
  (r = t /\ set t ∈ updateRows (tx_id t) set rs)
  \/ (r <> t /\ r ∈ updateRows (tx_id t) set rs).
Proof.
  intros Hnd Ht Hr. unfold updateRows.
  pose proof (elem_of_map_2
                (fun x => if bool_decide (tx_id x = tx_id t) then set x else x)
                rs r Hr) as H.
  cbv beta in H.
  destruct (bool_decide_reflect (tx_id r = tx_id t)) as [Hid|Hid].
  - assert (r = t) as -> by (by apply (NoDup_fmap_elem_inj tx_id rs)).
    by left.
  - right. split; [congruence | done].
Qed.

Lemma fresh_not_in_ids (i : option nat) (rs : list UserTransaction) :
  Forall (fun r => tx_id r <> i) rs -> i ∉ map tx_id rs.
Proof.
  induction 1 as [|r rs Hr _ IH]; cbn; [apply not_elem_of_nil|].
  apply not_elem_of_cons. split; [congruence | done].
Qed.

Section TableInvariants.
Variable env : Env.
Import UserTransactionStatus.

(** The three shapes of a step of the table: nothing, one row appended for
    a provider id without record, or the columns of the found record
    written. *)
Lemma dbStep_shape (now : Z) (e : EventEntity) (d : Db) :
  dbStep env now e d = d
  \/ (exists s,
        find (matchesProviderId (pd_id (ev_data e))) d.1 = None
        /\ dbStep env now e d = insertRow now (ev_data e) s d
        /\ (s = Success -> eventType e = TransactionCompleted))
  \/ (exists t set,
        find (matchesProviderId (pd_id (ev_data e))) d.1 = Some t
        /\ dbStep env now e d = (updateRows (tx_id t) set d.1, d.2)
        /\ (forall r, identityOf (set r) = identityOf r)
        /\ (tx_status t = Some Success -> sameRecord (set t) t)
        /\ (eventType e <> TransactionCompleted ->
            tx_status t <> Some Success -> tx_status (set t) <> Some Success)).
Proof.
  unfold dbStep. destruct (ev_isCore e); cbn [negb]; [|by left]. cbv zeta.
  destruct (eventType e) eqn:Hty; try (by left);
    destruct (find _ d.1) as [t|] eqn:Hfind; try (by left).
  - right. left. by exists Created.
  - destruct (bool_decide_reflect (tx_status t = Some Created)) as [Hst|Hst];
      cbn [andb]; [|by left].
    destruct (passesChecks t (ev_data e)); [|by left].
    right. right. do 2 eexists. split; [done|]. split; [done|].
    split; [apply identity_set_value_status|]. split; [congruence|]. by cbn.
  - right. left. by exists Processing.
  - destruct (includes _ (tx_status t)) eqn:Hinc; [|by left].
    right. right. do 2 eexists. split; [done|]. split; [done|].
    split; [apply identity_set_status_error|]. split.
    + intros Hs. rewrite Hs in Hinc. by cbn in Hinc.
    + intros _ _. cbn. unfold paymentFailedStatus. by case_bool_decide.
  - destruct (tx_updatedAt t >? _)%Z; [by left|].
    destruct (truthy env (tx_status t)); cbn [andb]; [|by left].
    destruct (passesChecks t (ev_data e)) eqn:Hp; [|by left].
    apply passesChecks_true in Hp as [Hrecv Hval].
    right. right. do 2 eexists. split; [done|]. split; [done|].
    split; [apply identity_set_value_status|]. split.
    + intros Hs. apply set_value_status_same; [by apply Hval | by left].
    + intros _ Hs. by cbn.
  - destruct (updatedStatus (ev_status e)) as [s|] eqn:Hs; [|by left].
    destruct (truthy env (Some s)); [|by left].
    right. left. exists s. split; [done|]. split; [done|].
    intros ->. unfold updatedStatus in Hs. by repeat case_bool_decide.
  - destruct (passesChecks t (ev_data e)) eqn:Hp; cbn [andb]; [|by left].
    destruct (purchaseAccepted env _ _ _); [|by left].
    apply passesChecks_true in Hp as [Hrecv Hval].
    right. right. do 2 eexists. split; [done|]. split; [done|].
    split; [apply identity_set_value_status|]. split; [|done].
    intros Hs. apply set_value_status_same; [by apply Hval | by right].
  - destruct (purchaseAccepted env _ _ _); [|by left].
    right. left. by exists Success.
Qed.

Lemma dbStep_okIds (now : Z) (e : EventEntity) (d : Db) :
  okIds d -> okIds (dbStep env now e d).
Proof.
  intros [Hwf Hnd]. split; [by apply dbStep_wf|].
  destruct (dbStep_shape now e d)
    as [-> | [(s & _ & -> & _) | (t & set & _ & -> & Hid & _)]]; [done| |].
  - unfold insertRow. cbn [fst]. rewrite map_app. apply NoDup_app.
    split; [done|]. split; [|apply NoDup_singleton].
    intros i Hi [->|[]%elem_of_nil]%elem_of_cons.
    by apply (fresh_not_in_ids _ _ (wfDb_fresh d Hwf)).
  - cbn [fst]. by rewrite updateRows_ids.
Qed.

Lemma deliveryStep_okIds (dl : Delivery) (d : Db) :
  okIds d -> okIds (deliveryStep env dl d).
Proof. unfold deliveryStep. destruct dl.2; [apply dbStep_okIds | done]. Qed.

(** Induction over a replay, for a property of the table that every step
    preserves together with [okIds]. *)
Lemma replay_invariant (P : Db -> Prop) :
  (forall dl d, okIds d -> P d -> P (deliveryStep env dl d)) ->
  forall ds w, okIds (db w) -> P (db w) -> P (db (replay env ds w)).
Proof.
  intros Hstep ds w. rewrite replay_db. generalize (db w). clear w.
  induction ds as [|dl ds IH]; intros d Hok HP; [done|].
  cbn [foldl]. apply IH; [by apply deliveryStep_okIds | by apply Hstep].
Qed.

(** X12. Deliveries only append to the table and never rewrite the identity
    of a record: after any replay the rows that were there are still there,
    in order, with the same id, processor, receiver, provider id, sender,
    product, fee and creation date, and at most one row per delivery was
    added. *)
Theorem replay_appends_only (ds : list Delivery) (w : World) :
  exists added,
    map identityOf (rows (replay env ds w)) = map identityOf (rows w) ++ added
    /\ length added <= length ds.
Proof.
  assert (H : forall d, exists added,
    map identityOf (foldl (fun d dl => deliveryStep env dl d) d ds).1
    = map identityOf d.1 ++ added /\ length added <= length ds).
  { induction ds as [|dl ds IH]; intros d.
    - exists nil. split; [by rewrite app_nil_r | cbn; lia].
    - cbn [foldl]. destruct (IH (deliveryStep env dl d)) as (added & -> & Hlen).
      assert (exists one, map identityOf (deliveryStep env dl d).1
                          = map identityOf d.1 ++ one /\ length one <= 1)
        as (one & -> & Hone).
      { assert (Hnone : forall l : list UserTransaction, exists one,
          map identityOf l = map identityOf l ++ one /\ length one <= 1).
        { intros l. exists nil. split; [by rewrite app_nil_r | cbn; lia]. }
        unfold deliveryStep. destruct dl.2 as [e|]; [|apply Hnone].
        destruct (dbStep_shape dl.1 e d)
          as [-> | [(s & _ & -> & _) | (t & set & _ & -> & Hid & _)]].
        - apply Hnone.
        - eexists. unfold insertRow. cbn [fst]. rewrite map_app.
          split; [done|]. cbn. lia.
        - cbn [fst]. rewrite updateRows_identity by done. apply Hnone. }
      exists (one ++ added). rewrite app_assoc. split; [done|].
      rewrite length_app. cbn. lia. }
  destruct (H (db w)) as (added & Heq & Hlen).
  exists added. split; [|done].
  pose proof (replay_db env ds w) as Hdb. unfold db in Hdb at 1.
  rewrite <- Hdb in Heq. exact Heq.
Qed.

(** X13. At most one record per provider id: if no two Paddle records of the
    table share a provider id, no replay of deliveries makes two of them
    share one. *)
Theorem replay_keeps_provider_ids_unique (ds : list Delivery) (w : World) :
  NoDup (omap providerKey (rows w)) ->
  NoDup (omap providerKey (rows (replay env ds w))).
Proof.
  assert (H : forall d, NoDup (omap providerKey d.1) ->
    NoDup (omap providerKey (foldl (fun d dl => deliveryStep env dl d) d ds).1)).
  { induction ds as [|dl ds IH]; intros d Hnd; [done|].
    cbn [foldl]. apply IH. unfold deliveryStep. destruct dl.2 as [e|]; [|done].
    destruct (dbStep_shape dl.1 e d)
      as [-> | [(s & Hfind & -> & _) | (t & set & _ & -> & Hid & _)]]; [done| |].
    - unfold insertRow. cbn [fst]. rewrite omap_app. apply NoDup_app.
      split; [done|]. split; [|cbn; apply NoDup_singleton].
      intros k Hk. cbn. intros [->|[]%elem_of_nil]%elem_of_cons.
      by apply (find_None_key _ _ Hfind).
    - cbn [fst]. by rewrite updateRows_keys. }
  intros Hnd. specialize (H (db w) Hnd).
  pose proof (replay_db env ds w) as Hdb. unfold db in Hdb at 1.
  by rewrite <- Hdb in H.
Qed.

(** X14. Success is final: in a table with unique ids, a record whose status
    is Success keeps its place through any replay of deliveries: a record
    with the same identity is still there, still Success, with the same
    value and the same flags. *)
Theorem replay_keeps_success_records (ds : list Delivery) (w : World)
    (r : UserTransaction) :
  okIds (db w) ->
  r ∈ rows w ->
  tx_status r = Some Success ->
  exists r',
    r' ∈ rows (replay env ds w)
    /\ identityOf r' = identityOf r
    /\ tx_status r' = Some Success
    /\ tx_value r' = tx_value r
    /\ tx_flags r' = tx_flags r.
Proof.
  intros Hok Hr Hs.
  assert (exists r', r' ∈ rows (replay env ds w) /\ sameRecord r' r)
    as (r' & Hr' & Hid & Hst & Hval & Hfl);
    [|exists r'; repeat split; congruence].
  apply (replay_invariant (fun d => exists r', r' ∈ d.1 /\ sameRecord r' r));
    [|done|exists r; by split].
  clear Hok Hr. intros dl d [_ Hnd] (r' & Hr' & Hsame'). unfold deliveryStep.
  destruct dl.2 as [e|]; [|by exists r'].
  destruct (dbStep_shape dl.1 e d)
    as [-> | [(s & _ & -> & _) | (t & set & Hfind & -> & _ & Hsame & _)]].
  - by exists r'.
  - exists r'. split; [|done]. unfold insertRow. cbn [fst].
    apply elem_of_app. by left.
  - cbn [fst]. apply find_elem_of in Hfind as [Ht _].
    destruct (updateRows_keeps_elem set t r' d.1 Hnd Ht Hr')
      as [[-> Hin] | [_ Hin]]; [|by exists r'].
    exists (set t). split; [done|].
    destruct Hsame' as (Hid' & Hst' & Hval' & Hfl').
    destruct (Hsame ltac:(congruence)) as (? & ? & ? & ?).
    repeat split; congruence.
Qed.
End TableInvariants.

(** * Re-delivered events *)

Section Redelivery.
Variable env : Env.
Import UserTransactionStatus.























(** ** Replaying a whole sequence a second time *)







(** [takes] is the condition under which a delivery writes: an event that
    is not taken leaves the table as it was. *)
Lemma not_taken_unchanged (e : EventEntity) (now : Z) (d : Db) :
  takes env e d = false -> dbStep env now e d = d.
Proof.
  unfold takes, dbStep. cbv zeta.
  destruct (ev_isCore e); cbn [andb negb]; [|done].
  destruct (eventType e); try done;
    destruct (find _ d.1) as [t|]; try done.
  - by intros ->.
  - by intros ->.
  - destruct (tx_updatedAt t >? _)%Z; [done|]. cbn [negb andb]. by intros ->.
  - destruct (updatedStatus (ev_status e)); [|done]. by intros ->.
  - by intros ->.
  - by intros ->.
Qed.





End Redelivery.


Section SummaryProperties.
Variable env : Env.
Import UserTransactionStatus.

Lemma summary_filters_need_success (user : string) (r : UserTransaction) :
  isSuccess r = false ->
  isPurchaseOf user r = false /\ isReceivedBy user r = false
  /\ isSpentBy user r = false.
Proof.
  unfold isPurchaseOf, isReceivedBy, isSpentBy. intros ->.
  by rewrite !andb_false_r.
Qed.

(** The summary filters do not read the update date. *)
Lemma summary_filters_sameRecord (user : string) (r1 r2 : UserTransaction) :
  sameRecord r1 r2 ->
  isPurchaseOf user r1 = isPurchaseOf user r2
  /\ isReceivedBy user r1 = isReceivedBy user r2
  /\ isSpentBy user r1 = isSpentBy user r2.
Proof.
  intros (Hid & Hst & _). unfold identityOf in Hid.
  injection Hid as _ _ Hrecv _ Hsender Hproduct _ _.
  unfold isPurchaseOf, isReceivedBy, isSpentBy, isSuccess.
  by rewrite Hrecv, Hsender, Hproduct, Hst.
Qed.

Lemma isSuccess_false (r : UserTransaction) :
  tx_status r <> Some Success -> isSuccess r = false.
Proof. intros H. unfold isSuccess. by rewrite bool_decide_eq_false_2. Qed.

Lemma rows_deliver (dl : Delivery) (w : World) :
  rows (deliver env dl w) = (deliveryStep env dl (db w)).1.
Proof. by rewrite <- deliver_db. Qed.

(** The sum of any of the three summary filters is the same after a step
    that makes no record Success. *)
Lemma sumValues_step (p : UserTransaction -> bool) (now : Z) (e : EventEntity)
    (d : Db) :
  (forall r, isSuccess r = false -> p r = false) ->
  (forall r1 r2, sameRecord r1 r2 -> p r1 = p r2) ->
  okIds d ->
  eventType e <> TransactionCompleted ->
  sumValues p (dbStep env now e d).1 = sumValues p d.1.
Proof.
  intros Hp Hsame_p [_ Hnd] Hty.
  destruct (dbStep_shape env now e d)
    as [-> | [(s & _ & -> & Hs) | (t & set & Hfind & -> & _ & Hsame & Hkeep)]];
    [done| |].
  - unfold insertRow. cbn [fst]. rewrite sumValues_snoc.
    rewrite Hp; [lia|]. apply isSuccess_false. cbn. intros [= ->]. by apply Hty, Hs.
  - cbn [fst]. apply find_elem_of in Hfind as [Ht _].
    rewrite sumValues_updateRows by done.
    destruct (decide (tx_status t = Some Success)) as [Hst|Hst].
    + rewrite (Hsame_p _ _ (Hsame Hst)).
      destruct (Hsame Hst) as (_ & _ & -> & _). lia.
    + rewrite (Hp t), (Hp (set t)); [lia| |];
        apply isSuccess_false; [by apply Hkeep | done].
Qed.

(** X15. Only Completed events move the transaction summary: in a table with
    unique ids, a delivery of any other event, or of a request without
    signature, leaves the purchased, received and spent totals of every
    user as they were. *)
Theorem summary_unchanged_by_other_events (dl : Delivery) (w : World)
    (user : string) :
  okIds (db w) ->
  (forall e, dl.2 = Some e -> eventType e <> TransactionCompleted) ->
  transactionSummary user (deliver env dl w) = transactionSummary user w.
Proof.
  intros Hok Hty. unfold transactionSummary. rewrite rows_deliver.
  unfold deliveryStep. destruct dl.2 as [e|]; [|done].
  rewrite !sumValues_step; [done|..]; try done; try (by apply Hty);
    try (intros r Hr; by apply (summary_filters_need_success user r));
    intros r1 r2 Hsame; by apply summary_filters_sameRecord.
Qed.

(** X16. A purchase counts once it is completed: when a Completed event is
    accepted by the ledger, for a record that was not Success yet and has
    neither sender nor product, or for a provider id without record, the
    purchased total of the receiver grows by the cores of the event, and no
    other total of any user changes. *)
Theorem completed_purchase_is_counted (now : Z) (e : EventEntity) (w : World)
    (user : string) :
  isCoreTransaction e = true ->
  eventType e = TransactionCompleted ->
  circuit env <> Open ->
  okIds (db w) ->
  let data := getPaddleTransactionData e in
  let found := find (matchesProviderId (pd_id data)) (rows w) in
  let counted :=
    {| purchased :=
         (purchased (transactionSummary user w)
          + (if bool_decide (pd_user_id data = user) then pd_cores data else 0))%Z;
       received := received (transactionSummary user w);
       spent := spent (transactionSummary user w) |} in
  (forall t txid res, found = Some t -> tx_id t = Some txid ->
     tx_receiverId t = pd_user_id data ->
     tx_status t <> Some Success ->
     tx_senderId t = None -> tx_productId t = None ->
     njordTransfer env (purchaseRequest txid (pd_user_id data) (pd_cores data))
     = Ok res ->
     transactionSummary user (deliver env (now, Some e) w) = counted)
  /\ (forall res, found = None ->
        njordTransfer env
          (purchaseRequest (nextId w) (pd_user_id data) (pd_cores data))
        = Ok res ->
        transactionSummary user (deliver env (now, Some e) w) = counted).
Proof.
  unfold isCoreTransaction, getPaddleTransactionData.
  intros Hcore Hty Hc [_ Hnd]. cbv zeta.
  assert (Hacc : forall txid res,
    njordTransfer env
      (purchaseRequest txid (pd_user_id (ev_data e)) (pd_cores (ev_data e)))
    = Ok res ->
    purchaseAccepted env (Some txid) (pd_user_id (ev_data e))
      (pd_cores (ev_data e)) = true).
  { intros txid res Hres. unfold purchaseAccepted.
    by rewrite (bool_decide_eq_false_2 _ Hc), Hres. }
  unfold transactionSummary. cbn [purchased received spent].
  rewrite rows_deliver. unfold deliveryStep, dbStep. cbn [fst snd db].
  rewrite Hcore, Hty. cbn [negb]. cbv zeta. split.
  - intros t txid res Hfind Hid Hrecv Hst Hsender Hproduct Hres.
    rewrite Hfind.
    assert (passesChecks t (ev_data e) = true) as ->
      by (by apply passesChecks_true).
    rewrite Hid, Hrecv, (Hacc txid res Hres). cbn [andb fst].
    apply find_elem_of in Hfind as [Ht _]. rewrite <- Hid.
    rewrite !sumValues_updateRows by done.
    pose proof (summary_filters_need_success user t (isSuccess_false t Hst))
      as (-> & -> & ->).
    unfold isPurchaseOf, isReceivedBy, isSpentBy, isSuccess. cbn.
    rewrite Hrecv, Hsender, Hproduct. cbn.
    destruct (bool_decide (pd_user_id (ev_data e) = user)); cbn; f_equal;
      rewrite ?(bool_decide_eq_true_2 (Some Success = Some Success)) by done;
      rewrite ?(bool_decide_eq_false_2 (None = Some user)) by done;
      cbn [andb]; lia.
  - intros res Hfind Hres. rewrite Hfind, (Hacc (nextId w) res Hres).
    unfold insertRow. cbn [fst snd]. rewrite !sumValues_snoc.
    unfold isPurchaseOf at 2. unfold isReceivedBy at 2. unfold isSpentBy at 2.
    unfold isSuccess.
    cbn [newRow tx_receiverId tx_senderId tx_productId tx_status tx_value].
    rewrite !(bool_decide_eq_true_2 (None = None)) by done.
    rewrite !(bool_decide_eq_true_2 (Some Success = Some Success)) by done.
    rewrite (bool_decide_eq_false_2 (None = Some user)) by done.
    destruct (bool_decide (pd_user_id (ev_data e) = user)); cbn [andb negb db fst];
      f_equal; lia.
Qed.
End SummaryProperties.

Section UpdatedValue.
Variable env : Env.
Import UserTransactionStatus.

(** X17. What a fresh Updated event does to an existing record.  When the
    status of the record is falsy (the member of value 0) the update is
    skipped with a warning.  Otherwise the stored value is overwritten by
    the cores of the event and the status is kept, unless the receiver
    differs from the user of the event or the record is Success with
    another value: then the handler throws and nothing is written. *)
Theorem processTransactionUpdated_overwrites_value (now : Z) (e : EventEntity)
    (w : World) (t : UserTransaction) :
  isCoreTransaction e = true ->
  let data := getPaddleTransactionData e in
  find (matchesProviderId (pd_id data)) (rows w) = Some t ->
  (tx_updatedAt t <= pd_updatedAt data)%Z ->
  let out := processTransactionUpdated env now e w in
  (truthy env (tx_status t) = false ->
   out = (Ok tt, add_log (LogWarn, "Transaction update skipped") w))
  /\ (truthy env (tx_status t) = true ->
      (tx_receiverId t <> pd_user_id data ->
       out = (Throw (JsError "Transaction receiver does not match user ID"), w))
      /\ (tx_receiverId t = pd_user_id data ->
          tx_status t = Some Success -> tx_value t <> pd_cores data ->
          out = (Throw (JsError "Transaction value changed after success"), w))
      /\ (tx_receiverId t = pd_user_id data ->
          (tx_status t = Some Success -> tx_value t = pd_cores data) ->
          exists w' t',
            out = (Ok tt, w')
            /\ find (matchesProviderId (pd_id data)) (rows w') = Some t'
            /\ tx_value t' = pd_cores data
            /\ tx_status t' = tx_status t
            /\ identityOf t' = identityOf t
            /\ logs w' = logs w)).
Proof.
  unfold isCoreTransaction, getPaddleTransactionData.
  intros Hcore Hfind Hfresh. cbv zeta.
  assert (Hrun : processTransactionUpdated env now e w
                 = if negb (truthy env (tx_status t))
                   then logger LogWarn "Transaction update skipped" w
                   else (do updateUserTransaction env now (Some t) None (ev_data e)
                         then ret tt) w).
  { unfold processTransactionUpdated. run_m. rewrite Hcore, Hfind.
    assert ((tx_updatedAt t >? pd_updatedAt (ev_data e))%Z = false) as ->.
    { rewrite Z.gtb_ltb. apply Z.ltb_ge. lia. }
    by destruct (truthy env (tx_status t)). }
  rewrite Hrun. split; [by intros ->|]. intros ->. cbn [negb].
  unfold updateUserTransaction. run_m. split; [|split].
  - intros Hrecv. by rewrite (bool_decide_eq_false_2 _ Hrecv).
  - intros Hrecv Hst Hval.
    by rewrite (bool_decide_eq_true_2 _ Hrecv), (bool_decide_eq_true_2 _ Hst),
      (bool_decide_eq_false_2 _ Hval).
  - intros Hrecv Hval. rewrite (bool_decide_eq_true_2 _ Hrecv).
    assert (bool_decide (tx_status t = Some Success)
            && negb (bool_decide (tx_value t = pd_cores (ev_data e)))
            = false) as ->.
    { case_bool_decide; [|done]. by rewrite bool_decide_eq_true_2 by auto. }
    cbn [negb]. cbv beta iota.
    exists (set_rows
              (updateRows (tx_id t)
                 (set_value_status now (pd_cores (ev_data e)) None))
              w),
      (set_value_status now (pd_cores (ev_data e)) None t).
    split; [done|]. split; [|done]. cbn [rows set_rows].
    apply find_after_update; [apply matches_set_value_status | done].
Qed.
End UpdatedValue.

(** * Properties of the awards *)

Section AwardProperties.
Local Open Scope Z_scope.
Variable env : Env.
Variable aenv : Award.AwardEnv.

(** What a call of [transferCores] that returns has done. *)
Lemma transferCores_ok_inv (props : TransferProps) (w w' : World)
    (res : TransferResponse) :
  transferCores env props w = (Ok res, w') ->
  exists txid senderId,
    userId (tp_ctx props) <> ""
    /\ negb (isTeamMember (tp_ctx props)) && isProd env = false
    /\ circuit env <> Open
    /\ senderId <> ""
    /\ tx_id (tp_transaction props) = Some txid
    /\ tx_senderId (tp_transaction props) = Some senderId
    /\ let req := {| idempotencyKey := txid; sender := Some senderId;
                     receiver := tx_receiverId (tp_transaction props);
                     amount := tx_value (tp_transaction props) |} in
       njordTransfer env req = Ok res
       /\ ledgerCalls w' = (ledgerCalls w ++ [req])%list
       /\ rows w' = rows w /\ nextId w' = nextId w.
Proof.
  intros Hrun.
  destruct (decide (userId (tp_ctx props) = "")) as [Hauth|Hauth].
  { unfold transferCores, createAuthProtectedFn in Hrun.
    by rewrite (bool_decide_eq_true_2 _ Hauth) in Hrun. }
  destruct (negb (isTeamMember (tp_ctx props)) && isProd env) eqn:Hguard.
  { unfold transferCores, createAuthProtectedFn in Hrun.
    by rewrite (bool_decide_eq_false_2 _ Hauth), Hguard in Hrun. }
  destruct (decide (circuit env = Open)) as [Hc|Hc].
  { unfold transferCores, createAuthProtectedFn, garmNjordService_execute in Hrun.
    by rewrite (bool_decide_eq_false_2 _ Hauth), Hguard, Hc in Hrun. }
  destruct (tx_id (tp_transaction props)) as [txid|] eqn:Hid; cycle 1.
  { unfold transferCores, createAuthProtectedFn, garmNjordService_execute in Hrun.
    rewrite (bool_decide_eq_false_2 _ Hauth), Hguard, Hid in Hrun.
    by destruct (circuit env). }
  destruct (tx_senderId (tp_transaction props)) as [senderId|] eqn:Hs; cycle 1.
  { unfold transferCores, createAuthProtectedFn, garmNjordService_execute in Hrun.
    rewrite (bool_decide_eq_false_2 _ Hauth), Hguard, Hid, Hs in Hrun.
    by destruct (circuit env). }
  destruct (decide (senderId = "")) as [->|Hne].
  { unfold transferCores, createAuthProtectedFn, garmNjordService_execute in Hrun.
    rewrite (bool_decide_eq_false_2 _ Hauth), Hguard, Hid, Hs in Hrun.
    by destruct (circuit env). }
  rewrite (transferCores_run env props w txid senderId Hauth Hguard Hc Hid Hs Hne)
    in Hrun.
  cbv zeta in Hrun. exists txid, senderId. do 6 (split; [done|]). cbv zeta.
  destruct (njordTransfer env _) as [res'|e]; [|done].
  injection Hrun as -> <-.
  pose proof (settleBalanceUpdate_frame (senderBalance res)
                (add_ledgerCall
                   {| idempotencyKey := txid; sender := Some senderId;
                      receiver := tx_receiverId (tp_transaction props);
                      amount := tx_value (tp_transaction props) |} w))
    as (Hr1 & Hn1 & Hl1).
  pose proof (settleBalanceUpdate_frame (receiverBalance res)
                (snd (settleBalanceUpdate (senderBalance res)
                        (add_ledgerCall
                           {| idempotencyKey := txid; sender := Some senderId;
                              receiver := tx_receiverId (tp_transaction props);
                              amount := tx_value (tp_transaction props) |} w))))
    as (Hr2 & Hn2 & Hl2).
  split; [done|]. split; [by rewrite Hl2, Hl1|].
  split; [by rewrite Hr2, Hr1 | by rewrite Hn2, Hn1].
Qed.

(** [createTransaction] for an authenticated sender and a known product. *)
Lemma createTransaction_run (now : Z) (props : Award.TransactionProps)
    (product : Award.Product) (s : Award.AwardWorld) :
  userId (Award.txp_ctx props) <> "" ->
  Award.products aenv !! Award.txp_productId props = Some product ->
  Award.createTransaction env aenv now props s
  = (Award.Done (Award.insertedTransaction env aenv now props product (nextId (Award.world s))),
     {| Award.world :=
          set_nextId (S (nextId (Award.world s)))
            (set_rows
               (fun rs => rs ++ [Award.insertedTransaction env aenv now props product
                                   (nextId (Award.world s))])
               (Award.world s));
        Award.userPosts := Award.userPosts s |}).
Proof.
  intros Hauth Hp.
  unfold Award.createTransaction, Award.createAuthProtectedFn, Award.findProductOrFail.
  rewrite (bool_decide_eq_false_2 _ Hauth). unfold Award.abind. rewrite Hp.
  reflexivity.
Qed.

Lemma createTransaction_fails (now : Z) (props : Award.TransactionProps)
    (s s' : Award.AwardWorld) (e : Award.AwardExn) :
  Award.createTransaction env aenv now props s = (Award.Failed e, s') -> s' = s.
Proof.
  unfold Award.createTransaction, Award.createAuthProtectedFn, Award.findProductOrFail.
  case_bool_decide; [by intros [= _ <-]|].
  unfold Award.abind. destruct (Award.products aenv !! _); [done | by intros [= _ <-]].
Qed.

Lemma canAward_cases (ctx : AuthContext) (receiverId : option string)
    (s : Award.AwardWorld) :
  (Award.canAward aenv ctx receiverId s = (Award.Done tt, s)
   /\ Some (userId ctx) <> receiverId
   /\ Award.isSpecialUser aenv receiverId = false)
  \/ exists e, Award.canAward aenv ctx receiverId s = (Award.Failed e, s).
Proof.
  unfold Award.canAward. case_bool_decide; [right; by eexists|].
  destruct (Award.isSpecialUser aenv receiverId); [right; by eexists | by left].
Qed.



(** The body of the transaction of [awardUser], and the last steps of that
    of [awardPost]: the transfer for the inserted record. *)
Lemma lift_transferCores_done (ctx : AuthContext) (t t' : UserTransaction)
    (s s' : Award.AwardWorld) :
  Award.abind (Award.lift (transferCores env {| tp_ctx := ctx; tp_transaction := t |}))
    (fun _ => Award.done t) s = (Award.Done t', s') ->
  t' = t
  /\ Award.userPosts s' = Award.userPosts s
  /\ negb (isTeamMember ctx) && isProd env = false
  /\ circuit env <> Open
  /\ exists txid senderId res,
       tx_id t = Some txid /\ tx_senderId t = Some senderId
       /\ let req := {| idempotencyKey := txid; sender := Some senderId;
                        receiver := tx_receiverId t; amount := tx_value t |} in
          njordTransfer env req = Ok res
          /\ ledgerCalls (Award.world s') = (ledgerCalls (Award.world s) ++ [req])%list
          /\ rows (Award.world s') = rows (Award.world s)
          /\ nextId (Award.world s') = nextId (Award.world s).
Proof.
  unfold Award.abind, Award.lift, Award.done.
  destruct (transferCores env _ (Award.world s)) as [[res|e] w2] eqn:Htc; [|done].
  intros [= <- <-]. split; [done|]. split; [done|].
  apply transferCores_ok_inv in Htc
    as (txid & senderId & _ & Hguard & Hc & _ & Hid & Hs & Hreq & Hl & Hr & Hn).
  cbn in Hid, Hs, Hreq, Hl, Hguard. do 2 (split; [done|]).
  by exists txid, senderId, res.
Qed.

Lemma awardUser_done_inv (now : Z) (props : Award.AwardInput) (ctx : AuthContext)
    (s s' : Award.AwardWorld) (r : Award.TransactionCreated) :
  Award.awardUser env aenv now props ctx s = (Award.Done r, s') ->
  let tprops := {| Award.txp_ctx := ctx;
                   Award.txp_productId := Award.ai_productId props;
                   Award.txp_receiverId := Award.ai_entityId props;
                   Award.txp_note := Award.ai_note props |} in
  let n := nextId (Award.world s) in
  exists product res,
    userId ctx <> ""
    /\ userId ctx <> Award.ai_entityId props
    /\ Award.isSpecialUser aenv (Some (Award.ai_entityId props)) = false
    /\ Award.products aenv !! Award.ai_productId props = Some product
    /\ Award.product_type product = Award.AwardProduct
    /\ negb (isTeamMember ctx) && isProd env = false
    /\ circuit env <> Open
    /\ njordTransfer env (Award.awardRequest tprops product n) = Ok res
    /\ r = {| Award.transactionId := Some n |}
    /\ rows (Award.world s')
       = (rows (Award.world s)
          ++ [Award.insertedTransaction env aenv now tprops product n])%list
    /\ nextId (Award.world s') = S n
    /\ ledgerCalls (Award.world s')
       = (ledgerCalls (Award.world s) ++ [Award.awardRequest tprops product n])%list
    /\ Award.userPosts s' = Award.userPosts s.
Proof.
  intros Hrun tprops n.
  unfold Award.awardUser, Award.abind at 1 2 in Hrun.
  destruct (canAward_cases ctx (Some (Award.ai_entityId props)) s)
    as [(Hcan & Hself & Hspecial) | (e' & Hcan)]; rewrite Hcan in Hrun; [|done].
  unfold Award.findProductOrFail in Hrun.
  destruct (Award.products aenv !! _) as [product|] eqn:Hp; [|done].
  unfold Award.done at 1 in Hrun.
  destruct (bool_decide (Award.product_type product = Award.AwardProduct))
    eqn:Hty; [|done].
  apply bool_decide_eq_true_1 in Hty. cbn [negb] in Hrun.
  unfold Award.abind at 1, Award.transaction in Hrun. fold tprops in Hrun.
  destruct (Award.abind (Award.createTransaction env aenv now tprops) _ s)
    as [[t|e'] s''] eqn:Hbody; [|done].
  injection Hrun as <- <-.
  destruct (decide (userId ctx = "")) as [Hauth|Hauth].
  { unfold Award.abind at 1, Award.createTransaction,
      Award.createAuthProtectedFn in Hbody. cbn [Award.txp_ctx tprops] in Hbody.
    by rewrite (bool_decide_eq_true_2 _ Hauth) in Hbody. }
  unfold Award.abind at 1 in Hbody.
  rewrite (createTransaction_run now tprops product s Hauth Hp) in Hbody.
  apply lift_transferCores_done in Hbody
    as (-> & Hup & Hguard & Hc & txid & senderId & res & [= <-] & [= <-]
        & Hreq & Hl & Hr & Hn).
  exists product, res. split; [done|]. split; [congruence|].
  do 5 (split; [done|]). split; [exact Hreq|]. split; [done|].
  split; [by rewrite Hr|]. split; [by rewrite Hn|]. split; [by rewrite Hl|].
  by rewrite Hup.
Qed.

Lemma canAward_run (ctx : AuthContext) (receiverId : option string)
    (s : Award.AwardWorld) :
  Some (userId ctx) <> receiverId ->
  Award.isSpecialUser aenv receiverId = false ->
  Award.canAward aenv ctx receiverId s = (Award.Done tt, s).
Proof.
  intros Hself Hspecial. unfold Award.canAward.
  by rewrite (bool_decide_eq_false_2 _ Hself), Hspecial.
Qed.

Lemma lift_transferCores_run (ctx : AuthContext) (tprops : Award.TransactionProps)
    (product : Award.Product) (n : nat) (now : Z) (res : TransferResponse)
    (s : Award.AwardWorld) :
  Award.txp_ctx tprops = ctx ->
  userId ctx <> "" ->
  negb (isTeamMember ctx) && isProd env = false ->
  circuit env <> Open ->
  njordTransfer env (Award.awardRequest tprops product n) = Ok res ->
  let t := Award.insertedTransaction env aenv now tprops product n in
  exists s',
    Award.abind
      (Award.lift (transferCores env {| tp_ctx := ctx; tp_transaction := t |}))
      (fun _ => Award.done t) s = (Award.Done t, s').
Proof.
  intros Hctx Hauth Hguard Hc Hres t.
  unfold Award.abind, Award.lift.
  rewrite (transferCores_run env {| tp_ctx := ctx; tp_transaction := t |}
             (Award.world s) n (userId ctx)); try done; [|cbn; by rewrite Hctx].
  cbv zeta. cbn [tp_transaction t Award.insertedTransaction tx_receiverId tx_value].
  unfold Award.awardRequest in Hres. rewrite Hctx in Hres. rewrite Hres.
  by eexists.
Qed.

Lemma awardUser_run (now : Z) (props : Award.AwardInput) (ctx : AuthContext)
    (s : Award.AwardWorld) (product : Award.Product) (res : TransferResponse) :
  let tprops := {| Award.txp_ctx := ctx;
                   Award.txp_productId := Award.ai_productId props;
                   Award.txp_receiverId := Award.ai_entityId props;
                   Award.txp_note := Award.ai_note props |} in
  let n := nextId (Award.world s) in
  userId ctx <> "" ->
  userId ctx <> Award.ai_entityId props ->
  Award.isSpecialUser aenv (Some (Award.ai_entityId props)) = false ->
  Award.products aenv !! Award.ai_productId props = Some product ->
  Award.product_type product = Award.AwardProduct ->
  negb (isTeamMember ctx) && isProd env = false ->
  circuit env <> Open ->
  njordTransfer env (Award.awardRequest tprops product n) = Ok res ->
  exists s',
    Award.awardUser env aenv now props ctx s
    = (Award.Done {| Award.transactionId := Some n |}, s').
Proof.
  intros tprops n Hauth Hself Hspecial Hp Hty Hguard Hc Hres.
  unfold Award.awardUser, Award.abind at 1 2.
  rewrite canAward_run by (done || congruence).
  unfold Award.findProductOrFail. rewrite Hp. unfold Award.done at 1.
  rewrite (bool_decide_eq_true_2 _ Hty). cbn [negb].
  unfold Award.abind at 1, Award.transaction. fold tprops.
  unfold Award.abind at 1.
  rewrite (createTransaction_run now tprops product s Hauth Hp).
  destruct (lift_transferCores_run ctx tprops product n now res
              {| Award.world :=
                   set_nextId (S (nextId (Award.world s)))
                     (set_rows
                        (fun rs => rs ++ [Award.insertedTransaction env aenv now tprops
                                            product (nextId (Award.world s))])
                        (Award.world s));
                 Award.userPosts := Award.userPosts s |}
              eq_refl Hauth Hguard Hc Hres) as [s' Hs'].
  cbv zeta in Hs'. subst n. rewrite Hs'. by eexists.
Qed.

(** X19. [awardUser] succeeds exactly when the caller is authenticated,
    awards somebody else who is not a special user, with a product that
    exists and is an award, may transfer (team member, or not production),
    the breaker is not open and the ledger accepts the transfer of the
    product's value from the caller to the receiver under the id of the new
    record. *)
Theorem awardUser_succeeds_iff (now : Z) (props : Award.AwardInput)
    (ctx : AuthContext) (s : Award.AwardWorld) :
  (exists r s', Award.awardUser env aenv now props ctx s = (Award.Done r, s'))
  <-> (userId ctx <> ""
       /\ userId ctx <> Award.ai_entityId props
       /\ Award.isSpecialUser aenv (Some (Award.ai_entityId props)) = false
       /\ negb (isTeamMember ctx) && isProd env = false
       /\ circuit env <> Open
       /\ exists product res,
            Award.products aenv !! Award.ai_productId props = Some product
            /\ Award.product_type product = Award.AwardProduct
            /\ njordTransfer env
                 {| idempotencyKey := nextId (Award.world s);
                    sender := Some (userId ctx);
                    receiver := Award.ai_entityId props;
                    amount := Award.product_value product |} = Ok res).
Proof.
  split.
  - intros (r & s' & Hrun).
    apply awardUser_done_inv in Hrun
      as (product & res & Hauth & Hself & Hspecial & Hp & Hty & Hguard & Hc
          & Hres & _).
    do 5 (split; [done|]). by exists product, res.
  - intros (Hauth & Hself & Hspecial & Hguard & Hc & product & res & Hp & Hty & Hres).
    destruct (awardUser_run now props ctx s product res Hauth Hself Hspecial Hp
                Hty Hguard Hc Hres) as [s' Hs'].
    by eexists _, s'.
Qed.

(** X20. A successful [awardUser] has appended exactly one record, from
    the caller to the awarded user, for the product and its value, with
    the note, and has sent exactly one transfer to the ledger, whose
    idempotency key is the id of this record; it answers with this id and
    leaves the UserPost table alone. *)
Theorem awardUser_records_and_transfers (now : Z) (props : Award.AwardInput)
    (ctx : AuthContext) (s s' : Award.AwardWorld) (r : Award.TransactionCreated) :
  Award.awardUser env aenv now props ctx s = (Award.Done r, s') ->
  exists product t,
    Award.products aenv !! Award.ai_productId props = Some product
    /\ rows (Award.world s') = (rows (Award.world s) ++ [t])%list
    /\ Award.transactionId r = tx_id t
    /\ tx_id t = Some (nextId (Award.world s))
    /\ nextId (Award.world s') = S (nextId (Award.world s))
    /\ tx_senderId t = Some (userId ctx)
    /\ tx_receiverId t = Award.ai_entityId props
    /\ tx_productId t = Some (Award.ai_productId props)
    /\ tx_value t = Award.product_value product
    /\ note (tx_flags t) = Award.ai_note props
    /\ ledgerCalls (Award.world s')
       = (ledgerCalls (Award.world s)
          ++ [{| idempotencyKey := nextId (Award.world s);
                 sender := Some (userId ctx);
                 receiver := Award.ai_entityId props;
                 amount := Award.product_value product |}])%list
    /\ Award.userPosts s' = Award.userPosts s.
Proof.
  intros Hrun.
  apply awardUser_done_inv in Hrun
    as (product & res & _ & _ & _ & Hp & _ & _ & _ & _ & -> & Hrows & Hn & Hl & Hup).
  eexists product, _. split; [done|]. split; [exact Hrows|]. by cbn.
Qed.

Lemma statusOfCode_success :
  statusCode env UserTransactionStatus.Success = 0 ->
  Award.statusOfCode env 0 = Some UserTransactionStatus.Success.
Proof. intros H. unfold Award.statusOfCode. cbn. by rewrite H. Qed.

(** X21. When the status written by [createTransaction] (the number 0) is
    the Success member, an award shows in the transaction summary at once:
    after a successful [awardUser] the spent total of the caller and the
    received total of the awarded user have grown by the value of the
    product, and no other total of any user has changed. *)
Theorem award_counts_in_summary (now : Z) (props : Award.AwardInput)
    (ctx : AuthContext) (s s' : Award.AwardWorld) (r : Award.TransactionCreated)
    (user : string) :
  statusCode env UserTransactionStatus.Success = 0 ->
  Award.awardUser env aenv now props ctx s = (Award.Done r, s') ->
  exists product,
    Award.products aenv !! Award.ai_productId props = Some product
    /\ transactionSummary user (Award.world s')
       = {| purchased := purchased (transactionSummary user (Award.world s));
            received :=
              received (transactionSummary user (Award.world s))
              + (if bool_decide (Award.ai_entityId props = user)
                 then Award.product_value product else 0);
            spent :=
              spent (transactionSummary user (Award.world s))
              + (if bool_decide (userId ctx = user)
                 then Award.product_value product else 0) |}.
Proof.
  intros Hzero Hrun.
  apply awardUser_done_inv in Hrun
    as (product & res & _ & _ & _ & Hp & _ & _ & _ & _ & _ & Hrows & _).
  exists product. split; [done|].
  unfold transactionSummary. rewrite Hrows, !sumValues_snoc. cbn [purchased received spent].
  unfold isPurchaseOf, isReceivedBy, isSpentBy, isSuccess.
  cbn [Award.insertedTransaction tx_receiverId tx_senderId tx_productId tx_status
       tx_value Award.txp_receiverId Award.txp_ctx Award.txp_productId].
  rewrite (statusOfCode_success Hzero).
  rewrite (bool_decide_eq_true_2 (Some UserTransactionStatus.Success
                                  = Some UserTransactionStatus.Success)) by done.
  rewrite (bool_decide_eq_false_2 (Some (userId ctx) = None)) by done.
  rewrite (bool_decide_eq_false_2 (Some (Award.ai_productId props) = None)) by done.
  rewrite andb_false_r. cbn [andb negb]. rewrite !andb_true_r.
  f_equal; [lia|].
  destruct (decide (userId ctx = user)) as [->|Hne].
  - by rewrite !bool_decide_eq_true_2.
  - rewrite !bool_decide_eq_false_2; [done|done|congruence].
Qed.

Lemma awardPost_done_inv (now : Z) (props : Award.AwardInput) (ctx : AuthContext)
    (s s' : Award.AwardWorld) (r : Award.TransactionCreated) :
  Award.awardPost env aenv now props ctx s = (Award.Done r, s') ->
  let n := nextId (Award.world s) in
  exists product authorId res,
    let tprops := {| Award.txp_ctx := ctx;
                     Award.txp_productId := Award.ai_productId props;
                     Award.txp_receiverId := authorId;
                     Award.txp_note := Award.ai_note props |} in
    Award.products aenv !! Award.ai_productId props = Some product
    /\ Award.posts aenv !! Award.ai_entityId props
       = Some {| Award.post_authorId := Some authorId |}
    /\ Award.userPosts s !! (Award.ai_entityId props, userId ctx)
       ≫= Award.awardTransactionId = None
    /\ userId ctx <> authorId
    /\ njordTransfer env (Award.awardRequest tprops product n) = Ok res
    /\ r = {| Award.transactionId := Some n |}
    /\ rows (Award.world s')
       = (rows (Award.world s)
          ++ [Award.insertedTransaction env aenv now tprops product n])%list
    /\ nextId (Award.world s') = S n
    /\ ledgerCalls (Award.world s')
       = (ledgerCalls (Award.world s) ++ [Award.awardRequest tprops product n])%list
    /\ Award.userPosts s'
       = <[(Award.ai_entityId props, userId ctx) :=
             {| Award.awardTransactionId := Some n;
                Award.awardId := Some (Award.ai_productId props) |}]>
           (Award.userPosts s).
Proof.
  intros Hrun n.
  unfold Award.awardPost, Award.abind at 1 2 3 4 in Hrun.
  unfold Award.findProductOrFail, Award.findPostOrFail, Award.findUserPost in Hrun.
  destruct (Award.products aenv !! _) as [product|] eqn:Hp; [|done].
  unfold Award.done at 1 in Hrun.
  destruct (Award.posts aenv !! _) as [[author]|] eqn:Hpost; [|done].
  unfold Award.done at 1 in Hrun.
  destruct (canAward_cases ctx
              (Award.post_authorId {| Award.post_authorId := author |}) s)
    as [(Hcan & Hself & Hspecial) | (e' & Hcan)]; rewrite Hcan in Hrun; [|done].
  destruct (negb _); [done|].
  case_bool_decide as Hnot; [done|].
  unfold Award.abind at 1, Award.transaction in Hrun.
  cbn [Award.post_authorId] in Hrun, Hself.
  destruct author as [authorId|]; [|done].
  destruct (decide (authorId = "")) as [->|Hauthor]; [done|].
  assert (Hbody : forall (A : Type) (x y : Award.AM A),
            match authorId with "" => x | String _ _ => y end = y).
  { intros A x y. by destruct authorId. }
  rewrite Hbody in Hrun. clear Hbody.
  set (tprops := {| Award.txp_ctx := ctx;
                    Award.txp_productId := Award.ai_productId props;
                    Award.txp_receiverId := authorId;
                    Award.txp_note := Award.ai_note props |}) in *.
  destruct (Award.abind (Award.createTransaction env aenv now tprops) _ s)
    as [[t|e'] s''] eqn:Hbody; [|done].
  injection Hrun as <- <-.
  destruct (decide (userId ctx = "")) as [Hauth|Hauth].
  { unfold Award.abind at 1, Award.createTransaction,
      Award.createAuthProtectedFn in Hbody. cbn [Award.txp_ctx tprops] in Hbody.
    by rewrite (bool_decide_eq_true_2 _ Hauth) in Hbody. }
  unfold Award.abind at 1 in Hbody.
  rewrite (createTransaction_run now tprops product s Hauth Hp) in Hbody.
  destruct (negb (Award.truthyString _)); [done|].
  unfold Award.abind at 1, Award.upsertUserPost in Hbody.
  apply lift_transferCores_done in Hbody
    as (-> & Hup & _ & _ & txid & senderId & res & [= <-] & [= <-]
        & Hreq & Hl & Hr & Hn).
  exists product, authorId, res. cbv zeta. fold tprops.
  split; [done|]. split; [done|]. split.
  { destruct (Award.userPosts s !! _ ≫= Award.awardTransactionId) eqn:Hup';
      [|done]. destruct Hnot. by eexists. }
  split; [congruence|]. split; [exact Hreq|]. split; [done|].
  split; [by rewrite Hr|]. split; [by rewrite Hn|]. split; [by rewrite Hl|].
  by rewrite Hup.
Qed.

(** A post that this user has awarded cannot be awarded again: every guard
    of [awardPost] comes before the first write. *)
Lemma awardPost_already_awarded (now : Z) (props : Award.AwardInput)
    (ctx : AuthContext) (s : Award.AwardWorld) (k : nat) :
  Award.userPosts s !! (Award.ai_entityId props, userId ctx)
  ≫= Award.awardTransactionId = Some k ->
  exists e, Award.awardPost env aenv now props ctx s = (Award.Failed e, s).
Proof.
  intros Hup.
  unfold Award.awardPost, Award.abind at 1 2 3 4.
  unfold Award.findProductOrFail, Award.findPostOrFail, Award.findUserPost.
  destruct (Award.products aenv !! _) as [product|]; [|by eexists].
  unfold Award.done at 1.
  destruct (Award.posts aenv !! _) as [post|]; [|by eexists].
  unfold Award.done at 1.
  destruct (canAward_cases ctx (Award.post_authorId post) s)
    as [(Hcan & _) | (e' & Hcan)]; rewrite Hcan; [|by eexists].
  destruct (negb _); [by eexists|].
  rewrite Hup. rewrite bool_decide_eq_true_2 by (by eexists). by eexists.
Qed.

(** X22. A successful [awardPost] has appended one record from the caller
    to the author of the post, who is somebody else, has sent one transfer
    keyed by the id of this record, and has linked the UserPost row of
    (post, caller) to the record and the product; no other UserPost row
    has changed. *)
Theorem awardPost_records_and_links (now : Z) (props : Award.AwardInput)
    (ctx : AuthContext) (s s' : Award.AwardWorld) (r : Award.TransactionCreated) :
  Award.awardPost env aenv now props ctx s = (Award.Done r, s') ->
  exists product authorId t,
    Award.products aenv !! Award.ai_productId props = Some product
    /\ Award.posts aenv !! Award.ai_entityId props
       = Some {| Award.post_authorId := Some authorId |}
    /\ authorId <> userId ctx
    /\ rows (Award.world s') = (rows (Award.world s) ++ [t])%list
    /\ tx_id t = Award.transactionId r
    /\ tx_senderId t = Some (userId ctx)
    /\ tx_receiverId t = authorId
    /\ tx_productId t = Some (Award.ai_productId props)
    /\ tx_value t = Award.product_value product
    /\ ledgerCalls (Award.world s')
       = (ledgerCalls (Award.world s)
          ++ [{| idempotencyKey := nextId (Award.world s);
                 sender := Some (userId ctx);
                 receiver := authorId;
                 amount := Award.product_value product |}])%list
    /\ Award.userPosts s' !! (Award.ai_entityId props, userId ctx)
       = Some {| Award.awardTransactionId := Award.transactionId r;
                 Award.awardId := Some (Award.ai_productId props) |}
    /\ (forall key, key <> (Award.ai_entityId props, userId ctx) ->
          Award.userPosts s' !! key = Award.userPosts s !! key).
Proof.
  intros Hrun.
  apply awardPost_done_inv in Hrun
    as (product & authorId & res & Hp & Hpost & _ & Hself & _ & -> & Hrows & _
        & Hl & Hup).
  eexists product, authorId, _. split; [done|]. split; [done|].
  split; [congruence|]. split; [exact Hrows|]. do 5 (split; [done|]).
  split; [exact Hl|]. rewrite Hup. split.
  - apply lookup_insert_eq.
  - intros key Hkey. by apply lookup_insert_ne.
Qed.
End AwardProperties.

(** X23. A post is awarded at most once by a user: after a successful
    [awardPost], every further [awardPost] of the same user for the same
    post, with any product, at any time and whatever the ledger would
    answer, throws and leaves the world as it is; in particular no second
    transfer is sent. *)
Theorem awardPost_at_most_once (env : Env) (aenv : Award.AwardEnv) (now : Z)
    (props : Award.AwardInput) (ctx : AuthContext) (s s' : Award.AwardWorld)
    (r : Award.TransactionCreated) :
  Award.awardPost env aenv now props ctx s = (Award.Done r, s') ->
  forall (env' : Env) (now' : Z) (props' : Award.AwardInput),
    Award.ai_entityId props' = Award.ai_entityId props ->
    exists e,
      Award.awardPost env' aenv now' props' ctx s' = (Award.Failed e, s').
Proof.
  intros Hrun env' now' props' Hsame.
  apply awardPost_done_inv in Hrun as (_ & _ & _ & _ & _ & _ & _ & _ & _ & _ & _ & _ & Hup).
  apply (awardPost_already_awarded env' aenv now' props' ctx s'
           (nextId (Award.world s))).
  by rewrite Hsame, Hup, lookup_insert_eq.
Qed.


(** * Properties of the subscription handlers *)

Section SubscriptionProperties.
Variable pricingIds : gmap string string.

Lemma extractSubscriptionType_snoc (items : list Subscription.Item)
    (item : Subscription.Item) :
  Subscription.extractSubscriptionType pricingIds (Some (items ++ [item]))
  = match Subscription.pricedCycle pricingIds item with
    | Some c => c
    | None => Subscription.extractSubscriptionType pricingIds (Some items)
    end.
Proof. unfold Subscription.extractSubscriptionType. by rewrite foldl_app. Qed.

Lemma extractSubscriptionType_unpriced (items rest : list Subscription.Item) :
  Forall (fun i => Subscription.pricedCycle pricingIds i = None) rest ->
  Subscription.extractSubscriptionType pricingIds (Some (items ++ rest))
  = Subscription.extractSubscriptionType pricingIds (Some items).
Proof.
  induction rest as [|item rest IH] using rev_ind; intros Hrest.
  - by rewrite app_nil_r.
  - apply Forall_app in Hrest as [Hrest Hitem]. apply Forall_inv in Hitem.
    rewrite (assoc_L (++)), extractSubscriptionType_snoc, Hitem. by apply IH.
Qed.

Lemma pricedCycle_truthy (item : Subscription.Item) (c : string) :
  Subscription.pricedCycle pricingIds item = Some c ->
  c <> ""
  /\ exists id, Subscription.price_id item = Some id /\ id <> ""
                /\ pricingIds !! id = Some c.
Proof.
  unfold Subscription.pricedCycle.
  destruct (Subscription.price_id item) as [id|]; [|done].
  case_bool_decide as Hid; [done|].
  destruct (pricingIds !! id) as [c'|] eqn:Hmap; [|done].
  case_bool_decide as Hc; [done|]. intros [= <-]. split; [done|]. by exists id.
Qed.

(** X24. [extractSubscriptionType] gives the cycle of the last item whose
    price id is mapped by the configuration (a non-empty id with a
    non-empty cycle), and the empty string when no item has one. *)
Theorem extractSubscriptionType_last_priced (items : list Subscription.Item) :
  (Forall (fun i => Subscription.pricedCycle pricingIds i = None) items ->
   Subscription.extractSubscriptionType pricingIds (Some items) = "")
  /\ (forall pre item rest c,
        items = pre ++ item :: rest ->
        Subscription.pricedCycle pricingIds item = Some c ->
        Forall (fun i => Subscription.pricedCycle pricingIds i = None) rest ->
        Subscription.extractSubscriptionType pricingIds (Some items) = c
        /\ c <> ""
        /\ exists id, Subscription.price_id item = Some id
                      /\ pricingIds !! id = Some c).
Proof.
  split.
  - intros Hnone.
    exact (extractSubscriptionType_unpriced [] items Hnone).
  - intros pre item rest c -> Hitem Hrest.
    rewrite cons_middle, (assoc_L (++)).
    rewrite extractSubscriptionType_unpriced by done.
    rewrite extractSubscriptionType_snoc, Hitem. split; [done|].
    apply pricedCycle_truthy in Hitem as (Hc & id & Hid & _ & Hmap).
    split; [done|]. by exists id.
Qed.

(** [updateUserSubscription] when every guard is passed. *)
Lemma updateUserSubscription_run (d : Subscription.SubscriptionEvent)
    (state : bool) (st : Subscription.Store) (u : string)
    (user : Subscription.User) :
  Subscription.se_user_id d = Some u -> u <> "" ->
  Subscription.users st !! u = Some user ->
  Subscription.provider (Subscription.subscriptionFlags user)
  <> Subscription.Value Subscription.AppleStoreKit ->
  Subscription.extractSubscriptionType pricingIds (Subscription.se_items d) <> "" ->
  Subscription.updateUserSubscription pricingIds (Some d) state st
  = (Subscription.Returned None,
     Subscription.user_update u
       (fun v =>
          {| Subscription.subscriptionFlags :=
               Subscription.updateSubscriptionFlags
                 {| Subscription.cycle :=
                      if state
                      then Subscription.Value
                             (Subscription.extractSubscriptionType pricingIds
                                (Subscription.se_items d))
                      else Subscription.Null;
                    Subscription.createdAt :=
                      if state then Subscription.se_startedAt d
                      else Subscription.Null;
                    Subscription.subscriptionId :=
                      if state then Subscription.se_id d else Subscription.Null;
                    Subscription.provider :=
                      if state then Subscription.Value Subscription.Paddle
                      else Subscription.Null;
                    Subscription.status :=
                      if state then Subscription.Value StoreKit.Active
                      else Subscription.Null;
                    Subscription.gifterId := Subscription.Undefined;
                    Subscription.giftExpirationDate := Subscription.Undefined |}
                 (Subscription.subscriptionFlags v);
             Subscription.showPlusGift := Subscription.showPlusGift v |})
       st).
Proof.
  intros Hu Hne Huser Hprov Hty. unfold Subscription.updateUserSubscription.
  rewrite Hu, Huser, (bool_decide_eq_false_2 _ Hprov),
    (bool_decide_eq_false_2 _ Hty).
  by destruct u.
Qed.

(** X25. [updateUserSubscription] writes at most the row of the user named
    in the custom data of the event: every other user is as before; when it
    returns false or throws, no row has changed; and for a user whose
    provider is Apple StoreKit it throws, so that a Paddle event never
    overwrites a StoreKit subscription. *)
Theorem updateUserSubscription_writes_one_user
    (data : option Subscription.SubscriptionEvent) (state : bool)
    (st : Subscription.Store) :
  let out := Subscription.updateUserSubscription pricingIds data state st in
  (forall u, data ≫= Subscription.se_user_id <> Some u ->
     Subscription.users out.2 !! u = Subscription.users st !! u)
  /\ (out.1 <> Subscription.Returned None ->
      Subscription.users out.2 = Subscription.users st)
  /\ (forall d u user,
        data = Some d -> Subscription.se_user_id d = Some u -> u <> "" ->
        Subscription.users st !! u = Some user ->
        Subscription.provider (Subscription.subscriptionFlags user)
        = Subscription.Value Subscription.AppleStoreKit ->
        out.1 = Subscription.Threw "User already has a StoreKit subscription"
        /\ Subscription.users out.2 = Subscription.users st).
Proof.
  cbv zeta. split; [|split].
  - intros u Hu. destruct data as [d|]; [|done]. cbn in Hu.
    unfold Subscription.updateUserSubscription.
    destruct (Subscription.se_user_id d) as [[|a v]|]; [done| |done].
    destruct (Subscription.users st !! _); [|done].
    case_bool_decide; [done|]. case_bool_decide; [done|].
    cbn. apply lookup_alter_ne. congruence.
  - destruct data as [d|]; [|done].
    unfold Subscription.updateUserSubscription.
    destruct (Subscription.se_user_id d) as [[|a v]|]; [done| |done].
    destruct (Subscription.users st !! _); [|done].
    case_bool_decide; [done|]. by case_bool_decide.
  - intros d u user -> Hu Hne Huser Hprov.
    unfold Subscription.updateUserSubscription.
    rewrite Hu, Huser, (bool_decide_eq_true_2 _ Hprov). by destruct u.
Qed.

(** X26. When the guards are passed, the user is a Plus member after the
    event exactly when [state] is true: a created or updated subscription
    stores the cycle, Paddle as provider and the status Active; a cancelled
    one stores null in their place.  The gift keys and [showPlusGift] of
    the user are kept, and nothing is logged. *)
Theorem subscription_event_sets_plus (d : Subscription.SubscriptionEvent)
    (state : bool) (st : Subscription.Store) (u : string)
    (user : Subscription.User) :
  Subscription.se_user_id d = Some u -> u <> "" ->
  Subscription.users st !! u = Some user ->
  Subscription.provider (Subscription.subscriptionFlags user)
  <> Subscription.Value Subscription.AppleStoreKit ->
  Subscription.extractSubscriptionType pricingIds (Subscription.se_items d) <> "" ->
  let out := Subscription.updateUserSubscription pricingIds (Some d) state st in
  out.1 = Subscription.Returned None
  /\ Subscription.errors out.2 = Subscription.errors st
  /\ exists user',
       Subscription.users out.2 !! u = Some user'
       /\ Subscription.isPlusMember
            (Subscription.cycle (Subscription.subscriptionFlags user')) = state
       /\ Subscription.provider (Subscription.subscriptionFlags user')
          = (if state then Subscription.Value Subscription.Paddle
             else Subscription.Null)
       /\ Subscription.status (Subscription.subscriptionFlags user')
          = (if state then Subscription.Value StoreKit.Active
             else Subscription.Null)
       /\ Subscription.gifterId (Subscription.subscriptionFlags user')
          = Subscription.gifterId (Subscription.subscriptionFlags user)
       /\ Subscription.giftExpirationDate (Subscription.subscriptionFlags user')
          = Subscription.giftExpirationDate (Subscription.subscriptionFlags user)
       /\ Subscription.showPlusGift user' = Subscription.showPlusGift user.
Proof.
  intros Hu Hne Huser Hprov Hty. cbv zeta.
  rewrite (updateUserSubscription_run d state st u user Hu Hne Huser Hprov Hty).
  cbn [fst snd Subscription.user_update Subscription.users Subscription.errors].
  split; [done|]. split; [done|].
  eexists. split; [by rewrite lookup_alter_eq, Huser|].
  cbn. destruct state; cbn; [|done].
  by rewrite (bool_decide_eq_false_2 _ Hty).
Qed.

(** [processGiftedPayment] when the gift is applied. *)
Lemma processGiftedPayment_run (now : Z) (data : Subscription.GiftEvent)
    (st : Subscription.Store) (gifterUser : Subscription.User) :
  Subscription.ge_user_id data <> Subscription.ge_gifter_id data ->
  Subscription.users st !! Subscription.ge_gifter_id data = Some gifterUser ->
  Subscription.isPlusMember
    (match Subscription.users st !! Subscription.ge_user_id data with
     | Some t => Subscription.cycle (Subscription.subscriptionFlags t)
     | None => Subscription.Undefined
     end) = false ->
  Subscription.processGiftedPayment now data st
  = Subscription.user_update (Subscription.ge_user_id data)
      (fun v =>
         {| Subscription.subscriptionFlags :=
              Subscription.updateSubscriptionFlags
                {| Subscription.cycle := Subscription.Value "yearly";
                   Subscription.createdAt := Subscription.ge_createdAt data;
                   Subscription.subscriptionId := Subscription.ge_id data;
                   Subscription.provider := Subscription.Value Subscription.Paddle;
                   Subscription.status := Subscription.Undefined;
                   Subscription.gifterId :=
                     Subscription.Value (Subscription.ge_gifter_id data);
                   Subscription.giftExpirationDate :=
                     Subscription.Value (now + Subscription.plusGiftDuration)%Z |}
                (Subscription.subscriptionFlags v);
            Subscription.showPlusGift := Subscription.Value true |})
      st.
Proof.
  intros Hne Hgifter Hplus. unfold Subscription.processGiftedPayment. cbv zeta.
  by rewrite (bool_decide_eq_false_2 _ Hne), Hgifter, Hplus.
Qed.

(** X27. A gift from an existing user to another user who is not a Plus
    member makes the receiver a gifted Plus member: the gifter is recorded,
    the gift expires one year (31557600000 ms) after the instant of the
    call, the stored status is kept, [showPlusGift] is set, and no other
    user changes. *)
Theorem processGiftedPayment_makes_gifted_plus (now : Z)
    (data : Subscription.GiftEvent) (st : Subscription.Store)
    (gifterUser target : Subscription.User) :
  Subscription.ge_gifter_id data <> "" ->
  Subscription.ge_user_id data <> Subscription.ge_gifter_id data ->
  Subscription.users st !! Subscription.ge_gifter_id data = Some gifterUser ->
  Subscription.users st !! Subscription.ge_user_id data = Some target ->
  Subscription.isPlusMember
    (Subscription.cycle (Subscription.subscriptionFlags target)) = false ->
  let st' := Subscription.processGiftedPayment now data st in
  (exists target',
     Subscription.users st' !! Subscription.ge_user_id data = Some target'
     /\ Subscription.isGiftedPlus (Subscription.subscriptionFlags target') = true
     /\ Subscription.gifterId (Subscription.subscriptionFlags target')
        = Subscription.Value (Subscription.ge_gifter_id data)
     /\ Subscription.giftExpirationDate (Subscription.subscriptionFlags target')
        = Subscription.Value (now + 31557600000)%Z
     /\ Subscription.status (Subscription.subscriptionFlags target')
        = Subscription.status (Subscription.subscriptionFlags target)
     /\ Subscription.showPlusGift target' = Subscription.Value true)
  /\ (forall u, u <> Subscription.ge_user_id data ->
        Subscription.users st' !! u = Subscription.users st !! u)
  /\ Subscription.errors st' = Subscription.errors st.
Proof.
  intros Hgifter Hne Hg Ht Hplus. cbv zeta.
  rewrite (processGiftedPayment_run now data st gifterUser Hne Hg)
    by (by rewrite Ht).
  cbn [Subscription.user_update Subscription.users Subscription.errors].
  split; [|split; [|done]].
  - eexists. split; [by rewrite lookup_alter_eq, Ht|].
    unfold Subscription.isGiftedPlus. cbn.
    by rewrite (bool_decide_eq_false_2 _ Hgifter).
  - intros u Hu. by apply lookup_alter_ne.
Qed.

(** X28. Handling the same gift again changes no user: after
    [processGiftedPayment], a second call for the same event, at any time,
    leaves the User table as the first call left it. *)
Theorem processGiftedPayment_idempotent (now now' : Z)
    (data : Subscription.GiftEvent) (st : Subscription.Store) :
  Subscription.users
    (Subscription.processGiftedPayment now' data
       (Subscription.processGiftedPayment now data st))
  = Subscription.users (Subscription.processGiftedPayment now data st).
Proof.
  set (st1 := Subscription.processGiftedPayment now data st).
  set (targetCycle := fun m : gmap string Subscription.User =>
         match m !! Subscription.ge_user_id data with
         | Some u => Subscription.cycle (Subscription.subscriptionFlags u)
         | None => Subscription.Undefined
         end).
  destruct (decide (Subscription.ge_user_id data = Subscription.ge_gifter_id data))
    as [Hsame|Hsame].
  { unfold Subscription.processGiftedPayment at 1. cbv zeta.
    by rewrite (bool_decide_eq_true_2 _ Hsame). }
  assert (Hst1 :
    (Subscription.users st1 = Subscription.users st
     /\ (Subscription.users st !! Subscription.ge_gifter_id data = None
         \/ Subscription.isPlusMember (targetCycle (Subscription.users st)) = true
         \/ Subscription.users st !! Subscription.ge_user_id data = None))
    \/ (Subscription.users st1 !! Subscription.ge_gifter_id data <> None
        /\ Subscription.isPlusMember (targetCycle (Subscription.users st1)) = true)).
  { subst st1. unfold Subscription.processGiftedPayment. cbv zeta.
    rewrite (bool_decide_eq_false_2 _ Hsame).
    destruct (Subscription.users st !! Subscription.ge_gifter_id data)
      as [gifterUser|] eqn:Hg; [|left; split; [done | by left]].
    fold (targetCycle (Subscription.users st)).
    destruct (Subscription.isPlusMember (targetCycle (Subscription.users st)))
      eqn:Hplus; [left; split; [done | by right; left]|].
    cbn [Subscription.user_update Subscription.users].
    destruct (Subscription.users st !! Subscription.ge_user_id data)
      as [target|] eqn:Ht.
    - right. split; [by rewrite lookup_alter_ne, Hg|].
      unfold targetCycle. rewrite lookup_alter_eq, Ht. cbn.
      by rewrite (bool_decide_eq_false_2 ("yearly" = "")).
    - left. split; [|by right; right].
      apply map_eq. intros k.
      destruct (decide (k = Subscription.ge_user_id data)) as [->|Hk].
      + by rewrite lookup_alter_eq, Ht.
      + by rewrite lookup_alter_ne. }
  clearbody st1.
  unfold Subscription.processGiftedPayment. cbv zeta.
  rewrite (bool_decide_eq_false_2 _ Hsame).
  fold (targetCycle (Subscription.users st1)).
  destruct Hst1 as [[Husers Hwhy] | [Hg Hplus]].
  - destruct (Subscription.users st1 !! Subscription.ge_gifter_id data)
      as [gifterUser|] eqn:Hg; [|done].
    destruct (Subscription.isPlusMember (targetCycle (Subscription.users st1)))
      eqn:Hplus; [done|].
    rewrite Husers in Hg, Hplus.
    destruct Hwhy as [Hnone | [Hp | Hnone]]; [congruence | congruence |].
    cbn [Subscription.user_update Subscription.users]. rewrite Husers.
    apply map_eq. intros k.
    destruct (decide (k = Subscription.ge_user_id data)) as [->|Hk].
    + by rewrite lookup_alter_eq, Hnone.
    + by rewrite lookup_alter_ne.
  - destruct (Subscription.users st1 !! Subscription.ge_gifter_id data); [|done].
    by rewrite Hplus.
Qed.
End SubscriptionProperties.

(** * Properties of the access to sources *)

(** X29. A public source is open to everybody, a private one to its members
    only: [ensureSourcePermissions] passes exactly when the source is not
    private or the caller is logged in and has a SourceMember row for it.
    After [addNewSourceMember] the new member passes for this source,
    private or not, and for every other pair of caller and source the
    answer of [canAccessSource] is as before. *)
Theorem source_access_by_membership (ctx : Sources.Context)
    (source : Sources.GQLSource) (members : Sources.SourceMembers) :
  (Sources.ensureSourcePermissions ctx source members = Ok tt
   <-> Sources.source_private source = false
       \/ exists userId,
            Sources.ctx_userId ctx = Some userId /\ userId <> ""
            /\ is_Some (members !! (userId, Sources.source_id source)))
  /\ (Sources.ensureSourcePermissions ctx source members <> Ok tt ->
      Sources.ensureSourcePermissions ctx source members
      = Throw (ForbiddenError "Access denied!"))
  /\ (forall member uuid,
        let members' := Sources.addNewSourceMember member uuid members in
        (Sources.nm_userId member <> "" ->
         forall private,
           Sources.ensureSourcePermissions
             {| Sources.ctx_userId := Some (Sources.nm_userId member) |}
             {| Sources.source_id := Sources.nm_sourceId member;
                Sources.source_private := private |} members' = Ok tt)
        /\ ((Sources.ctx_userId ctx, Sources.source_id source)
            <> (Some (Sources.nm_userId member), Sources.nm_sourceId member) ->
            Sources.canAccessSource ctx source members'
            = Sources.canAccessSource ctx source members)).
Proof.
  split; [|split].
  - unfold Sources.ensureSourcePermissions, Sources.canAccessSource.
    destruct (Sources.source_private source); cbn [negb]; [|by split; [left|]].
    destruct (Sources.ctx_userId ctx) as [userId|];
      [|split; [done | by intros [? | (? & ? & _)]]].
    case_bool_decide as Hempty.
    { split; [done|]. intros [? | (? & [= <-] & ? & _)]; done. }
    case_bool_decide as Hmember.
    + split; [|done]. intros _. right. by exists userId.
    + split; [done|]. intros [? | (? & [= <-] & _ & ?)]; done.
  - unfold Sources.ensureSourcePermissions.
    by destruct (Sources.canAccessSource ctx source members).
  - intros member uuid members'. split.
    + intros Hne private.
      unfold Sources.ensureSourcePermissions, Sources.canAccessSource.
      cbn [Sources.source_private Sources.source_id Sources.ctx_userId].
      destruct private; [|done]. cbn [negb].
      rewrite (bool_decide_eq_false_2 _ Hne).
      subst members'. unfold Sources.addNewSourceMember.
      rewrite lookup_insert_eq. by rewrite bool_decide_eq_true_2.
    + intros Hother. unfold Sources.canAccessSource.
      destruct (Sources.source_private source); [|done]. cbn [negb].
      destruct (Sources.ctx_userId ctx) as [userId|]; [|done].
      case_bool_decide; [done|].
      subst members'. unfold Sources.addNewSourceMember.
      rewrite lookup_insert_ne; [done|]. congruence.
Qed.

(** * The life of a purchase *)

Section Lifecycle.
Variable env : Env.
Import UserTransactionStatus.

Lemma deliver_ledgerCalls (now : Z) (e : EventEntity) (w : World) :
  ledgerCalls (deliver env (now, Some e) w)
  = match eventType e with
    | TransactionCompleted =>
        ledgerCalls (snd (processTransactionCompleted env now e w))
    | _ => ledgerCalls w
    end.
Proof.
  unfold deliver. cbn [fst snd].
  assert (Hwrap : forall (h : M unit),
    ledgerCalls (snd ((do try_catch h (fun _ => logger LogError "Paddle generic error")
                       then ret tt) w)) = ledgerCalls (snd (h w))).
  { intros h. run_m. by destruct (h w) as [[[]|err] w']. }
  unfold paddle. rewrite Hwrap.
  pose proof (handlers_ledgerCalls env now e w) as (Hc & Hr & Hp & Hu).
  by destruct (eventType e).
Qed.

(** X30. The life of a purchase: when the Created, Ready and Completed
    events of one provider transaction are delivered in this order to a
    table without record for it, and the ledger accepts the transfer, the
    table has gained exactly one record, created by the first event, whose
    status is Success and whose value is the cores of the events, and the
    ledger has received exactly one transfer, keyed by the id of this
    record. *)
Theorem created_ready_completed_settles (t1 t2 t3 : Z)
    (created ready completed : EventEntity) (data : PaddleTransactionData)
    (w : World) (res : TransferResponse) :
  eventType created = TransactionCreated ->
  eventType ready = TransactionReady ->
  eventType completed = TransactionCompleted ->
  isCoreTransaction created = true ->
  isCoreTransaction ready = true ->
  isCoreTransaction completed = true ->
  getPaddleTransactionData created = data ->
  getPaddleTransactionData ready = data ->
  getPaddleTransactionData completed = data ->
  wf w ->
  find (matchesProviderId (pd_id data)) (rows w) = None ->
  circuit env <> Open ->
  njordTransfer env
    (purchaseRequest (nextId w) (pd_user_id data) (pd_cores data)) = Ok res ->
  let w' := replay env [(t1, Some created); (t2, Some ready);
                        (t3, Some completed)] w in
  exists t,
    rows w' = rows w ++ [t]
    /\ nextId w' = S (nextId w)
    /\ tx_id t = Some (nextId w)
    /\ tx_status t = Some Success
    /\ tx_value t = pd_cores data
    /\ tx_receiverId t = pd_user_id data
    /\ providerId (tx_flags t) = Some (pd_id data)
    /\ tx_createdAt t = t1
    /\ ledgerCalls w'
       = ledgerCalls w
         ++ [purchaseRequest (nextId w) (pd_user_id data) (pd_cores data)].
Proof.
  unfold isCoreTransaction, getPaddleTransactionData.
  intros Hty1 Hty2 Hty3 Hcore1 Hcore2 Hcore3 Hd1 Hd2 Hd3 Hwf Hfind Hc Hres.
  cbv zeta. unfold replay. cbn [foldl].
  set (w1 := deliver env (t1, Some created) w).
  set (w2 := deliver env (t2, Some ready) w1).
  set (w3 := deliver env (t3, Some completed) w2).
  set (n := nextId w) in *.
  set (r1 := newRow t1 data n Created).
  set (r2 := set_value_status t2 (pd_cores data) (Some Processing) r1).
  set (r3 := set_value_status t3 (pd_cores data) (Some Success) r2).
  assert (Hfresh : forall set, updateRows (Some n) set (rows w) = rows w).
  { intros set. apply updateRows_fresh. eapply Forall_impl; [exact Hwf|].
    cbn. intros r Hr Hid. specialize (Hr n Hid). unfold n in Hr. cbn in Hr. lia. }
  (* Created *)
  assert (Hdb1 : db w1 = (rows w ++ [r1], S n)).
  { unfold w1. rewrite deliver_db. unfold deliveryStep, dbStep. cbn [fst snd].
    rewrite Hcore1, Hty1, Hd1. cbn [negb db fst]. by rewrite Hfind. }
  assert (Hl1 : ledgerCalls w1 = ledgerCalls w).
  { unfold w1. by rewrite deliver_ledgerCalls, Hty1. }
  assert (Hfind1 : find (matchesProviderId (pd_id data)) (rows w1) = Some r1).
  { change (rows w1) with (db w1).1. rewrite Hdb1.
    apply (find_insertRow t1 data Created (db w)). exact Hfind. }
  (* Ready *)
  assert (Hdb2 : db w2 = (rows w ++ [r2], S n)).
  { unfold w2. rewrite deliver_db. unfold deliveryStep, dbStep. cbn [fst snd].
    rewrite Hcore2, Hty2, Hd2. cbn [negb].
    change (db w1).1 with (rows w1). rewrite Hfind1.
    assert (passesChecks r1 data = true) as ->.
    { apply passesChecks_true. by split. }
    rewrite bool_decide_eq_true_2 by done. cbn [andb].
    change (rows w1) with (db w1).1. rewrite Hdb1. cbn [fst snd].
    rewrite updateRows_snoc, Hfresh. cbn [r1 newRow tx_id].
    by rewrite bool_decide_eq_true_2. }
  assert (Hl2 : ledgerCalls w2 = ledgerCalls w).
  { unfold w2. by rewrite deliver_ledgerCalls, Hty2. }
  assert (Hfind2 : find (matchesProviderId (pd_id data)) (rows w2) = Some r2).
  { assert (Hrows : rows w2 = updateRows (tx_id r1)
                                (set_value_status t2 (pd_cores data)
                                   (Some Processing))
                                (rows w1)).
    { change (rows w2) with (db w2).1. change (rows w1) with (db w1).1.
      rewrite Hdb2, Hdb1. cbn [fst]. rewrite updateRows_snoc.
      cbn [r1 newRow tx_id]. rewrite Hfresh.
      by rewrite bool_decide_eq_true_2. }
    rewrite Hrows. by apply find_updateRows. }
  (* Completed *)
  assert (Haccepted : purchaseAccepted env (Some n) (pd_user_id data)
                        (pd_cores data) = true).
  { unfold purchaseAccepted. rewrite (bool_decide_eq_false_2 _ Hc).
    fold n in Hres. by rewrite Hres. }
  assert (Hdb3 : db w3 = (rows w ++ [r3], S n)).
  { unfold w3. rewrite deliver_db. unfold deliveryStep, dbStep. cbn [fst snd].
    rewrite Hcore3, Hty3, Hd3. cbn [negb].
    change (db w2).1 with (rows w2). rewrite Hfind2.
    assert (passesChecks r2 data = true) as ->.
    { apply passesChecks_true. by split. }
    cbn [r2 r1 set_value_status newRow tx_id tx_receiverId andb].
    rewrite Haccepted.
    change (rows w2) with (db w2).1. rewrite Hdb2. cbn [fst snd].
    rewrite updateRows_snoc, Hfresh. cbn [r2 r1 set_value_status newRow tx_id].
    by rewrite bool_decide_eq_true_2. }
  assert (Hl3 : ledgerCalls w3
                = ledgerCalls w
                  ++ [purchaseRequest n (pd_user_id data) (pd_cores data)]).
  { unfold w3. rewrite deliver_ledgerCalls, Hty3.
    rewrite (completed_run_found env t3 completed w2 r2 Hcore3);
      [|by rewrite Hd3|by rewrite Hd3|by rewrite Hd3].
    rewrite commitOrRollback_ledgerCalls, Hd3.
    pose proof (purchaseCores_closed_as env
                  (updatedEntity env r2 (pd_cores data) (Some Success)) n
                  (pd_user_id data) (pd_cores data)
                  (set_rows
                     (updateRows (tx_id r2)
                        (set_value_status t3 (pd_cores data) (Some Success)))
                     w2)
                  eq_refl eq_refl eq_refl Hc) as Hrun.
    cbv zeta in Hrun. fold n in Hres. rewrite Hres in Hrun.
    destruct Hrun as [f ->]. cbn [snd]. cbn. by rewrite Hl2. }
  exists r3. change (rows w3) with (db w3).1. change (nextId w3) with (db w3).2.
  rewrite Hdb3. by repeat split.
Qed.
End Lifecycle.

(** ** The further theorems at concrete inputs *)

Lemma unauthenticated_caller_is_rejected_witness :
  getBalance (sampleEnv Closed)
    {| gb_ctx := {| userId := ""; isTeamMember := true |} |} cachedWorld
  = (Throw (ForbiddenError "Auth is required"), cachedWorld).
Proof.
  apply (proj1 (proj2 (unauthenticated_caller_is_rejected (sampleEnv Closed)
                         {| userId := ""; isTeamMember := true |} cachedWorld
                         eq_refl))).
Defined.

Lemma updateBalanceCache_then_getBalance_witness :
  userId u1 <> ""
  /\ getBalance (sampleEnv Open) {| gb_ctx := u1 |}
       (snd (updateBalanceCache
               {| ub_ctx := u1; ub_value := {| gb_amount := 7 |} |} emptyWorld))
     = (Ok {| gb_amount := 7 |},
        snd (updateBalanceCache
               {| ub_ctx := u1; ub_value := {| gb_amount := 7 |} |} emptyWorld)).
Proof.
  split; [discriminate|].
  apply (proj1 (updateBalanceCache_then_getBalance (sampleEnv Open) u1
                  {| gb_amount := 7 |} emptyWorld ltac:(discriminate))).
Defined.


Lemma getBalance_rethrows_ledger_error_witness :
  getBalance failingBalanceEnv {| gb_ctx := u1 |} emptyWorld
  = (Throw (ConnectError "unavailable"), emptyWorld).
Proof.
  apply getBalance_rethrows_ledger_error;
    [discriminate | reflexivity | discriminate | reflexivity].
Defined.


Lemma transferCores_sends_one_request_witness :
  ledgerCalls
    (snd (transferCores (sampleEnv Closed)
            {| tp_ctx := u1; tp_transaction := sampleAward |} emptyWorld))
  = [{| idempotencyKey := 7; sender := Some "u1"; receiver := "u2";
        amount := 25 |}].
Proof.
  apply (proj1 (transferCores_sends_one_request (sampleEnv Closed)
                  {| tp_ctx := u1; tp_transaction := sampleAward |} emptyWorld
                  7 "u1" ltac:(discriminate) eq_refl ltac:(discriminate)
                  eq_refl eq_refl ltac:(discriminate)
                  ltac:(unfold fitsInt64; cbn; lia))).
Defined.

Lemma transferCores_rejects_without_sending_witness :
  transferCores prodEnv {| tp_ctx := u1; tp_transaction := sampleAward |}
    emptyWorld
  = (Throw (ForbiddenError "Not allowed for you yet"), emptyWorld).
Proof.
  apply (proj1 (transferCores_rejects_without_sending prodEnv
                  {| tp_ctx := u1; tp_transaction := sampleAward |} emptyWorld
                  ltac:(discriminate)) eq_refl).
Defined.

Lemma paymentFailed_without_record_witness :
  deliver (sampleEnv Closed)
    (10%Z, Some (sampleEvent TransactionPaymentFailed 500)) emptyWorld
  = add_log (LogError, "Paddle generic error") emptyWorld.
Proof.
  apply (proj2 (paymentFailed_without_record (sampleEnv Closed) 10
                  (sampleEvent TransactionPaymentFailed 500) emptyWorld
                  eq_refl eq_refl) eq_refl).
Defined.

Lemma replay_keeps_provider_ids_unique_witness :
  NoDup (omap providerKey
           (rows (replay (sampleEnv Closed)
                    [(10%Z, Some (sampleEvent TransactionCreated 500));
                     (11%Z, Some completedT1)]
                    (sampleWorld UserTransactionStatus.Created 500)))).
Proof.
  apply replay_keeps_provider_ids_unique.
  vm_compute. apply NoDup_singleton.
Defined.

Lemma replay_keeps_success_records_witness :
  exists r',
    r' ∈ rows (replay (sampleEnv Closed)
                 [(10%Z, Some (sampleEvent TransactionPaymentFailed 500));
                  (11%Z, Some (sampleEvent TransactionUpdated 500))]
                 (sampleWorld UserTransactionStatus.Success 500))
    /\ tx_status r' = Some UserTransactionStatus.Success
    /\ tx_value r' = 500%Z.
Proof.
  destruct (replay_keeps_success_records (sampleEnv Closed)
              [(10%Z, Some (sampleEvent TransactionPaymentFailed 500));
               (11%Z, Some (sampleEvent TransactionUpdated 500))]
              (sampleWorld UserTransactionStatus.Success 500)
              (sampleRow UserTransactionStatus.Success 500))
    as (r' & Hin & _ & Hs & Hv & _).
  - split.
    + apply Forall_singleton. intros k [= <-]. cbn. lia.
    + cbn. apply NoDup_singleton.
  - apply list_elem_of_singleton. reflexivity.
  - reflexivity.
  - exists r'. split; [exact Hin|]. split; [exact Hs | exact Hv].
Defined.

Lemma summary_unchanged_by_other_events_witness :
  transactionSummary "u1"
    (deliver (sampleEnv Closed) (10%Z, Some (sampleEvent TransactionReady 500))
       (sampleWorld UserTransactionStatus.Created 500))
  = transactionSummary "u1" (sampleWorld UserTransactionStatus.Created 500).
Proof.
  apply summary_unchanged_by_other_events.
  - split.
    + apply Forall_singleton. intros k [= <-]. cbn. lia.
    + cbn. apply NoDup_singleton.
  - intros e [= <-]. discriminate.
Defined.

Lemma completed_purchase_is_counted_witness :
  purchased
    (transactionSummary "u1"
       (deliver (sampleEnv Closed) (10%Z, Some completedT1)
          (sampleWorld UserTransactionStatus.Created 500)))
  = 500%Z.
Proof.
  assert (Hok : okIds (db (sampleWorld UserTransactionStatus.Created 500))).
  { split.
    - apply Forall_singleton. intros k [= <-]. cbn. lia.
    - cbn. apply NoDup_singleton. }
  rewrite (proj1 (completed_purchase_is_counted (sampleEnv Closed) 10 completedT1
                    (sampleWorld UserTransactionStatus.Created 500) "u1" eq_refl eq_refl
                    ltac:(discriminate) Hok)
             (sampleRow UserTransactionStatus.Created 500) 1%nat _ eq_refl eq_refl eq_refl
             ltac:(discriminate) eq_refl eq_refl eq_refl).
  reflexivity.
Defined.

Lemma processTransactionUpdated_overwrites_value_witness :
  exists w' t',
    processTransactionUpdated truthyEnv 10 (sampleEvent TransactionUpdated 300)
      (sampleWorld UserTransactionStatus.Created 500) = (Ok tt, w')
    /\ find (matchesProviderId "txn_T1") (rows w') = Some t'
    /\ tx_value t' = 300%Z
    /\ tx_status t' = Some UserTransactionStatus.Created.
Proof.
  destruct (proj2 (proj2 (proj2 (processTransactionUpdated_overwrites_value
                                   truthyEnv 10
                                   (sampleEvent TransactionUpdated 300)
                                   (sampleWorld UserTransactionStatus.Created 500)
                                   (sampleRow UserTransactionStatus.Created 500)
                                   eq_refl eq_refl ltac:(cbn; lia))
                                   eq_refl)) eq_refl ltac:(discriminate))
    as (w' & t' & Hrun & Hfind & Hval & Hst & _).
  exists w', t'. repeat split; assumption.
Defined.

Lemma ignored_requests_witness :
  deliver (sampleEnv Closed)
    (10%Z, Some {| eventType := TransactionReady; ev_isCore := false;
                   ev_data := sampleData 500; ev_status := "ready";
                   ev_errorCode := None |})
    (sampleWorld UserTransactionStatus.Created 500)
  = sampleWorld UserTransactionStatus.Created 500.
Proof.
  apply (proj2 (ignored_requests (sampleEnv Closed) 10
                  (sampleWorld UserTransactionStatus.Created 500)));
    [reflexivity | right; left; reflexivity].
Defined.


Lemma awardUser_records_and_transfers_witness :
  exists product t,
    Award.products Award.sampleAwardEnv !! "flower" = Some product
    /\ rows (Award.world
               (snd (Award.awardUser (sampleEnv Closed) Award.sampleAwardEnv 70
                       (Award.flowerFor "u2") u1 Award.emptyAwardWorld)))
       = [t]
    /\ tx_senderId t = Some "u1" /\ tx_receiverId t = "u2"
    /\ tx_value t = Award.product_value product.
Proof.
  destruct (awardUser_records_and_transfers (sampleEnv Closed)
              Award.sampleAwardEnv 70 (Award.flowerFor "u2") u1
              Award.emptyAwardWorld
              (snd (Award.awardUser (sampleEnv Closed) Award.sampleAwardEnv 70
                      (Award.flowerFor "u2") u1 Award.emptyAwardWorld))
              {| Award.transactionId := Some 1%nat |} eq_refl)
    as (product & t & Hp & Hrows & _ & _ & _ & Hs & Hr & _ & Hv & _).
  exists product, t. repeat split; assumption.
Defined.

Lemma award_counts_in_summary_witness :
  exists product,
    Award.products Award.sampleAwardEnv !! "flower" = Some product
    /\ spent (transactionSummary "u1"
                (Award.world
                   (snd (Award.awardUser (sampleEnv Closed) Award.sampleAwardEnv 70
                           (Award.flowerFor "u2") u1 Award.emptyAwardWorld))))
       = Award.product_value product.
Proof.
  destruct (award_counts_in_summary (sampleEnv Closed) Award.sampleAwardEnv 70
              (Award.flowerFor "u2") u1 Award.emptyAwardWorld
              (snd (Award.awardUser (sampleEnv Closed) Award.sampleAwardEnv 70
                      (Award.flowerFor "u2") u1 Award.emptyAwardWorld))
              {| Award.transactionId := Some 1%nat |} "u1" eq_refl eq_refl)
    as (product & Hp & Hsum).
  exists product. split; [exact Hp|]. rewrite Hsum. reflexivity.
Defined.

Lemma awardPost_records_and_links_witness :
  Award.userPosts
    (snd (Award.awardPost (sampleEnv Closed) Award.sampleAwardEnv 70
            (Award.flowerFor "p1") u1 Award.emptyAwardWorld))
  !! ("p1", "u1")
  = Some {| Award.awardTransactionId := Some 1%nat;
            Award.awardId := Some "flower" |}.
Proof.
  destruct (awardPost_records_and_links (sampleEnv Closed)
              Award.sampleAwardEnv 70 (Award.flowerFor "p1") u1
              Award.emptyAwardWorld
              (snd (Award.awardPost (sampleEnv Closed) Award.sampleAwardEnv 70
                      (Award.flowerFor "p1") u1 Award.emptyAwardWorld))
              {| Award.transactionId := Some 1%nat |} eq_refl)
    as (product & authorId & t & _ & _ & _ & _ & _ & _ & _ & _ & _ & _ & Hup & _).
  exact Hup.
Defined.

Lemma awardPost_at_most_once_witness :
  let s' := snd (Award.awardPost (sampleEnv Closed) Award.sampleAwardEnv 70
                   (Award.flowerFor "p1") u1 Award.emptyAwardWorld) in
  exists e,
    Award.awardPost (sampleEnv Closed) Award.sampleAwardEnv 71
      (Award.flowerFor "p1") u1 s' = (Award.Failed e, s').
Proof.
  apply (awardPost_at_most_once (sampleEnv Closed) Award.sampleAwardEnv 70
           (Award.flowerFor "p1") u1 Award.emptyAwardWorld _
           {| Award.transactionId := Some 1%nat |} eq_refl
           (sampleEnv Closed) 71 (Award.flowerFor "p1") eq_refl).
Defined.

Lemma extractSubscriptionType_last_priced_witness :
  Subscription.extractSubscriptionType Subscription.samplePricing
    (Subscription.se_items (Subscription.yearlyFor "u1")) = "yearly".
Proof.
  apply (proj2 (extractSubscriptionType_last_priced Subscription.samplePricing
                  [ {| Subscription.price_id := Some "pri_month" |};
                    {| Subscription.price_id := Some "pri_year" |};
                    {| Subscription.price_id := Some "pri_other" |} ])
           [ {| Subscription.price_id := Some "pri_month" |} ]
           {| Subscription.price_id := Some "pri_year" |}
           [ {| Subscription.price_id := Some "pri_other" |} ]
           "yearly" eq_refl eq_refl).
  apply Forall_singleton. reflexivity.
Defined.

Lemma updateUserSubscription_writes_one_user_witness :
  let out := Subscription.updateUserSubscription Subscription.samplePricing
               (Some (Subscription.yearlyFor "u2")) true
               Subscription.sampleStore in
  out.1 = Subscription.Threw "User already has a StoreKit subscription"
  /\ Subscription.users out.2 = Subscription.users Subscription.sampleStore.
Proof.
  apply (proj2 (proj2 (updateUserSubscription_writes_one_user
                         Subscription.samplePricing
                         (Some (Subscription.yearlyFor "u2")) true
                         Subscription.sampleStore))
           (Subscription.yearlyFor "u2") "u2"
           {| Subscription.subscriptionFlags := Subscription.appleFlags;
              Subscription.showPlusGift := Subscription.Undefined |}
           eq_refl eq_refl ltac:(discriminate) eq_refl eq_refl).
Defined.

Lemma subscription_event_sets_plus_witness :
  exists user',
    Subscription.users
      (Subscription.updateUserSubscription Subscription.samplePricing
         (Some (Subscription.yearlyFor "u1")) true Subscription.sampleStore).2
    !! "u1" = Some user'
    /\ Subscription.isPlusMember
         (Subscription.cycle (Subscription.subscriptionFlags user')) = true.
Proof.
  destruct (subscription_event_sets_plus Subscription.samplePricing
              (Subscription.yearlyFor "u1") true Subscription.sampleStore "u1"
              {| Subscription.subscriptionFlags := Subscription.noFlags;
                 Subscription.showPlusGift := Subscription.Undefined |}
              eq_refl ltac:(discriminate) eq_refl ltac:(discriminate)
              ltac:(discriminate))
    as (_ & _ & user' & Hu & Hplus & _).
  by exists user'.
Defined.

Lemma processGiftedPayment_makes_gifted_plus_witness :
  exists target',
    Subscription.users
      (Subscription.processGiftedPayment 1000 Subscription.sampleGift
         Subscription.sampleStore) !! "u1" = Some target'
    /\ Subscription.isGiftedPlus (Subscription.subscriptionFlags target') = true
    /\ Subscription.giftExpirationDate (Subscription.subscriptionFlags target')
       = Subscription.Value 31557601000%Z.
Proof.
  destruct (proj1 (processGiftedPayment_makes_gifted_plus 1000
                     Subscription.sampleGift Subscription.sampleStore
                     {| Subscription.subscriptionFlags := Subscription.noFlags;
                        Subscription.showPlusGift := Subscription.Undefined |}
                     {| Subscription.subscriptionFlags := Subscription.noFlags;
                        Subscription.showPlusGift := Subscription.Undefined |}
                     ltac:(discriminate) ltac:(discriminate) eq_refl eq_refl
                     eq_refl))
    as (target' & Hu & Hplus & _ & Hexp & _).
  exists target'. split; [exact Hu|]. split; [exact Hplus | exact Hexp].
Defined.

Lemma source_access_by_membership_witness :
  Sources.ensureSourcePermissions {| Sources.ctx_userId := Some "u1" |}
    {| Sources.source_id := "squad"; Sources.source_private := true |}
    (Sources.addNewSourceMember
       {| Sources.nm_sourceId := "squad"; Sources.nm_userId := "u1";
          Sources.nm_role := Some Sources.Owner |} "token" ∅)
  = Ok tt.
Proof.
  apply (proj1 (proj2 (proj2 (source_access_by_membership
                                {| Sources.ctx_userId := None |}
                                {| Sources.source_id := "squad";
                                   Sources.source_private := true |} ∅))
                  {| Sources.nm_sourceId := "squad"; Sources.nm_userId := "u1";
                     Sources.nm_role := Some Sources.Owner |} "token")
           ltac:(discriminate) true).
Defined.

Lemma created_ready_completed_settles_witness :
  exists t,
    rows (replay (sampleEnv Closed)
            [(10%Z, Some (sampleEvent TransactionCreated 500));
             (11%Z, Some (sampleEvent TransactionReady 500));
             (12%Z, Some completedT1)] emptyWorld) = [t]
    /\ tx_status t = Some UserTransactionStatus.Success
    /\ ledgerCalls
         (replay (sampleEnv Closed)
            [(10%Z, Some (sampleEvent TransactionCreated 500));
             (11%Z, Some (sampleEvent TransactionReady 500));
             (12%Z, Some completedT1)] emptyWorld)
       = [purchaseRequest 1 "u1" 500].
Proof.
  destruct (created_ready_completed_settles (sampleEnv Closed) 10 11 12
              (sampleEvent TransactionCreated 500)
              (sampleEvent TransactionReady 500) completedT1 (sampleData 500)
              emptyWorld
              {| senderBalance := None;
                 receiverBalance :=
                   Some {| account_userId := "u1"; newBalance := 500 |} |}
              eq_refl eq_refl eq_refl eq_refl eq_refl eq_refl eq_refl eq_refl
              eq_refl (Forall_nil_2 _) eq_refl ltac:(discriminate) eq_refl)
    as (t & Hrows & _ & _ & Hs & _ & _ & _ & _ & Hl).
  exists t. split; [exact Hrows|]. split; [exact Hs | exact Hl].
Defined.
